(** * Case-study backend: upload, deletion and outcome endpoints

    A shallow embedding of the FastAPI endpoints of
    [endpoints/projects.py], [endpoints/files.py] and
    [endpoints/outcomes.py], together with the parts of [db.py],
    [models.py] and the table schema of [main.py] they rely on.

    The relational store is a record of three row lists with the SERIAL
    sequences next to it; the blob store is a finite map from path to
    bytes.  Every endpoint is a computation in a small state-and-exception
    monad, so that [try]/[except]/[finally] read as in the source.  Whether
    an I/O operation raises is decided by an explicit fault argument. *)

From Stdlib Require Import ZArith Ascii String.
From stdpp Require Import base option list strings gmap sorting.

Local Open Scope Z_scope.
Local Open Scope string_scope.

(** ** Rows of the three tables ([init_db] in main.py) *)

(** Dates and timestamps are integers (days, respectively ticks of the
    server clock).  [created_at] and [uploaded_at] are never written by an
    INSERT of the source, so the column default NOW() always fills them. *)

Module Project.
Record t := mk {
  id : Z;                               (* SERIAL PRIMARY KEY *)
  title : string;                       (* TEXT NOT NULL *)
  description : option string;
  location : option string;
  start_date : option Z;
  end_date : option Z;
  community_size : option Z;
  hazard_types : option (list string);  (* TEXT[] *)
  implementing_org : option string;
  author : option string;
  source : option string;
  created_at : Z                        (* TIMESTAMP DEFAULT NOW() *)
}.
End Project.

Module Outcome.
Record t := mk {
  id : Z;
  project_id : Z;                                (* REFERENCES projects(id) *)
  success_metrics : option (list (string * Z));  (* JSONB *)
  challenges : option (list string);
  overall_success : option bool;
  key_factors : option (list string);
  created_at : Z
}.
End Outcome.

Module FileRecord.
Record t := mk {
  id : Z;
  project_id : Z;                       (* REFERENCES projects(id) *)
  filename : string;                    (* TEXT NOT NULL *)
  filepath : string;                    (* TEXT NOT NULL *)
  filetype : option string;
  uploaded_at : Z
}.
End FileRecord.

Record Tables := mkTables {
  tbl_projects : list Project.t;
  tbl_outcomes : list Outcome.t;
  tbl_files : list FileRecord.t
}.

(** ** The world an endpoint runs in *)

(** [committed] is what a fresh connection sees; [txn] is the view of the
    connection opened by the running request, and [txn_aborted] tells
    whether the store has aborted that transaction.  Sequences are not
    transactional.  [disk] is the upload directory. *)
Record World := mkWorld {
  committed : Tables;
  txn : Tables;
  txn_aborted : bool;
  projects_id_seq : Z;
  outcomes_id_seq : Z;
  files_id_seq : Z;
  disk : gmap string (list Byte.byte)
}.

(** The open transaction is live and sees [t]. *)
Definition set_txn (t : Tables) (w : World) : World :=
  mkWorld (committed w) t false (projects_id_seq w) (outcomes_id_seq w)
          (files_id_seq w) (disk w).

(** The store aborts the open transaction; its view is of no use any more. *)
Definition abort_txn (w : World) : World :=
  mkWorld (committed w) (txn w) true (projects_id_seq w) (outcomes_id_seq w)
          (files_id_seq w) (disk w).

Definition set_committed (t : Tables) (w : World) : World :=
  mkWorld t (txn w) (txn_aborted w) (projects_id_seq w) (outcomes_id_seq w)
          (files_id_seq w) (disk w).

Definition set_disk (d : gmap string (list Byte.byte)) (w : World) : World :=
  mkWorld (committed w) (txn w) (txn_aborted w) (projects_id_seq w)
          (outcomes_id_seq w) (files_id_seq w) d.

Definition bump_projects_id_seq (w : World) : World :=
  mkWorld (committed w) (txn w) (txn_aborted w) (projects_id_seq w + 1)
          (outcomes_id_seq w) (files_id_seq w) (disk w).

Definition bump_files_id_seq (w : World) : World :=
  mkWorld (committed w) (txn w) (txn_aborted w) (projects_id_seq w)
          (outcomes_id_seq w) (files_id_seq w + 1) (disk w).

(** ** Exceptions and the endpoint monad *)

(** [detail] of an HTTPException is either a literal or an f-string
    [prefix + str(e)]; the cause is kept instead of its rendering. *)
Inductive Exc :=
| HTTPException (status_code : Z) (detail : Detail)
| OSError
| DatabaseError
| ValidationError
with Detail :=
| Lit (s : string)
| Fmt (prefix : string) (cause : Exc).

Definition status_of (e : Exc) : option Z :=
  match e with
  | HTTPException c _ => Some c
  | _ => None
  end.

Inductive Result (A : Type) :=
| Return (a : A)
| Raise (e : Exc).
Arguments Return {A} a.
Arguments Raise {A} e.

Definition M (A : Type) : Type := World -> Result A * World.

Definition ret {A} (a : A) : M A := fun w => (Return a, w).

Definition raise {A} (e : Exc) : M A := fun w => (Raise e, w).

Definition bind {A B} (m : M A) (k : A -> M B) : M B :=
  fun w =>
    match m w with
    | (Return a, w') => k a w'
    | (Raise e, w') => (Raise e, w')
    end.

Definition try_except {A} (body : M A) (handler : Exc -> M A) : M A :=
  fun w =>
    match body w with
    | (Return a, w') => (Return a, w')
    | (Raise e, w') => handler e w'
    end.

Definition finally {A} (body : M A) (cleanup : World -> World) : M A :=
  fun w => let '(r, w') := body w in (r, cleanup w').

Definition gets {A} (f : World -> A) : M A := fun w => (Return (f w), w).

Definition modify (f : World -> World) : M unit := fun w => (Return tt, f w).

Declare Scope endpoint_scope.
Delimit Scope endpoint_scope with endpoint.
Notation "x <- c1 ;; c2" := (bind c1 (fun x => c2))
  (at level 100, c1 at next level, right associativity) : endpoint_scope.
Notation "c1 ;; c2" := (bind c1 (fun _ => c2))
  (at level 100, right associativity) : endpoint_scope.
Local Open Scope endpoint_scope.

(** ** db.py: connections and transactions *)

(** [get_db_connection]: psycopg2.Error is turned into a 500. *)
Definition get_db_connection (fault : bool) : M unit :=
  if fault then
    raise (HTTPException 500 (Fmt "Database connection failed: " DatabaseError))
  else modify (fun w => set_txn (committed w) w).

(** [conn.commit()].  The COMMIT of a transaction that the store has
    aborted ends it as a ROLLBACK, and the driver raises nothing. *)
Definition commit (fault : bool) : M unit :=
  if fault then raise DatabaseError
  else modify (fun w => if txn_aborted w then set_txn (committed w) w
                        else set_committed (txn w) w).

Definition rollback : M unit := modify (fun w => set_txn (committed w) w).

(** [conn.close()] discards whatever was not committed. *)
Definition close (w : World) : World := set_txn (committed w) w.

(** ** The SQL statements of the endpoints *)

(** Each statement works on the view of the open connection.  PostgreSQL
    aborts the transaction in which it refuses a statement: from then on
    it refuses every statement, until the transaction is rolled back.  A
    row that violates a constraint is refused after its id was drawn from
    the sequence. *)

(** The store refuses the statement. *)
Definition refuse {A} : M A := modify abort_txn;; raise DatabaseError.

(** [cur.execute(...)]; [fault] tells whether the store refuses this
    statement for a reason of its own. *)
Definition execute {A} (fault : bool) (statement : M A) : M A :=
  aborted <- gets txn_aborted;;
  if aborted then raise DatabaseError
  else if fault then refuse
  else statement.

Definition project_exists (pid : Z) (t : Tables) : bool :=
  bool_decide (Exists (fun p => Project.id p = pid) (tbl_projects t)).

(** INSERT INTO projects (title, description, location) ... RETURNING id *)
Definition insert_project (fault : bool) (now : Z)
    (title description : option string) (location : string) : M Z :=
  execute fault
    match title with
    | None => modify bump_projects_id_seq;; refuse    (* title is NOT NULL *)
    | Some t =>
      new_id <- gets projects_id_seq;;
      modify bump_projects_id_seq;;
      modify (fun w =>
        set_txn (mkTables
                   (tbl_projects (txn w) ++
                      [Project.mk new_id t description (Some location)
                         None None None None None None None now])
                   (tbl_outcomes (txn w)) (tbl_files (txn w))) w);;
      ret new_id
    end.

(** SELECT id FROM projects WHERE id = %s, then [cur.fetchone()] *)
Definition select_project_id (fault : bool) (pid : Z) : M (option Z) :=
  execute fault
    (rows <- gets (fun w => filter (fun p => Project.id p = pid) (tbl_projects (txn w)));;
     ret (Project.id <$> head rows)).

(** What can go wrong with one INSERT INTO files: the driver raises while
    it adapts the parameters, before anything is sent, or the store
    refuses the statement.  The two are told apart for this statement
    only: everywhere else an exception of the driver or the store leads to
    a rollback or to the end of the connection. *)
Inductive InsertFault := InsertOk | DriverRaises | StoreRefuses.

Definition refused (fault : InsertFault) : bool :=
  match fault with
  | StoreRefuses => true
  | _ => false
  end.

(** INSERT INTO files (project_id, filename, filepath, filetype) ...
    RETURNING id; the foreign key is checked by the store. *)
Definition insert_file (fault : InsertFault) (now : Z) (pid : Z)
    (filename filepath : string) (filetype : option string) : M Z :=
  match fault with
  | DriverRaises => raise DatabaseError
  | _ =>
    execute (refused fault)
      (ok <- gets (fun w => project_exists pid (txn w));;
       if negb ok then modify bump_files_id_seq;; refuse else
       new_id <- gets files_id_seq;;
       modify bump_files_id_seq;;
       modify (fun w =>
         set_txn (mkTables (tbl_projects (txn w)) (tbl_outcomes (txn w))
                    (tbl_files (txn w) ++
                       [FileRecord.mk new_id pid filename filepath filetype now])) w);;
       ret new_id)
  end.

(** ** The blob store *)

Inductive DiskFault := DiskOk | OpenFails | WriteFails.

(** [with open(path, "wb") as buffer: buffer.write(await file.read())].
    Opening for writing creates or truncates the file; a failure after
    that leaves it empty. *)
Definition write_file (fault : DiskFault) (path : string)
    (content : list Byte.byte) : M unit :=
  match fault with
  | OpenFails => raise OSError
  | WriteFails => modify (fun w => set_disk (<[path := []]> (disk w)) w);;
                  raise OSError
  | DiskOk => modify (fun w => set_disk (<[path := content]> (disk w)) w)
  end.

(** [os.path.exists] *)
Definition path_exists (path : string) : M bool :=
  gets (fun w => bool_decide (is_Some (disk w !! path))).

(** [os.remove] *)
Definition os_remove (fault : bool) (path : string) : M unit :=
  if fault then raise OSError else
  ex <- path_exists path;;
  if ex then modify (fun w => set_disk (delete path (disk w)) w)
  else raise OSError.

(** ** Request validation shared by the upload endpoints *)

Record UploadFile := mkUploadFile {
  filename : option string;
  content_type : option string;
  content : list Byte.byte
}.

Fixpoint char_in (c : ascii) (s : string) : bool :=
  match s with
  | EmptyString => false
  | String c' s' => if Ascii.eqb c c' then true else char_in c s'
  end.

(** [not file.filename or '/' in file.filename or '\\' in file.filename] *)
Definition bad_filename (name : option string) : bool :=
  match name with
  | None => true
  | Some s =>
    match s with
    | EmptyString => true
    | _ => char_in "/"%char s || char_in "\"%char s
    end
  end.

(** [project_id is None and (title is None or description is None)] *)
Definition missing_target (project_id : option Z)
    (title description : option string) : bool :=
  match project_id with
  | Some _ => false
  | None =>
    match title, description with
    | Some _, Some _ => false
    | _, _ => true
    end
  end.

(** [CASE_STUDY_DIR / file.filename] for a name without separators;
    pathlib drops a component that is a single dot. *)
Definition path_join (dir name : string) : string :=
  if String.eqb name "." then dir else dir ++ "/" ++ name.

(** The two modules with upload endpoints differ in the upload directory
    and in the wording of their messages only. *)
Record Endpoint := mkEndpoint {
  CASE_STUDY_DIR : string;
  msg_need_target : string;
  msg_save_failed : string;
  msg_no_project : string;
  msg_no_files : string;
  msg_need_target_multiple : string;
  msg_no_project_multiple : string;
  msg_upload_failed : string
}.

Definition projects_py : Endpoint :=
  mkEndpoint "uploads"
    "Need either project_id OR title+description"
    "Couldn't save file: "
    "No project found"
    "No files uploaded"
    "Need project_id OR title+description"
    "Project missing"
    "Upload messed up: ".

(** [Path(name).resolve()] for a plain name, below a working directory
    that is given as an absolute path in normal form: only the root ends
    in a slash. *)
Definition resolve (cwd name : string) : string :=
  if String.eqb cwd "/" then "/" ++ name else cwd ++ "/" ++ name.

(** files.py resolves the directory against the working directory. *)
Definition files_py (cwd : string) : Endpoint :=
  mkEndpoint (resolve cwd "uploads")
    "Need project_id OR title+description"
    "File save failed: "
    "Project not found"
    "No files"
    "Need project_id OR title+description"
    "Project not found"
    "Upload error: ".

(** ** upload_case_study (projects.py and files.py) *)

Record UploadEnv := mkUploadEnv {
  now : Z;
  save_fault : DiskFault;
  connect_fault : bool;
  project_fault : bool;       (* INSERT INTO projects / SELECT id *)
  insert_fault : bool;        (* INSERT INTO files *)
  commit_fault : bool;
  remove_fault : bool         (* os.remove in the handler *)
}.

Record UploadResponse := mkUploadResponse {
  resp_message : string;
  resp_project_id : Z;
  resp_file_id : Z
}.

(** The branch on [project_id] that opens the transaction of both upload
    endpoints; they differ in the location given to a new project and in
    the message of the 404. *)
Definition resolve_project (fault : bool) (now : Z)
    (new_location missing_msg : string)
    (title description : option string) (project_id : option Z) : M Z :=
  match project_id with
  | None => insert_project fault now title description new_location
  | Some p =>
    found <- select_project_id fault p;;
    match found with
    | None => raise (HTTPException 404 (Lit missing_msg))
    | Some _ => ret p
    end
  end.

(** The body of the [try] around the database work. *)
Definition upload_transaction (ep : Endpoint) (env : UploadEnv)
    (title description : option string) (project_id : option Z)
    (file : UploadFile) (file_location : string) : M UploadResponse :=
  pid <- resolve_project (project_fault env) (now env)
           "unspecified" (msg_no_project ep) title description project_id;;
  fid <- insert_file (if insert_fault env then StoreRefuses else InsertOk)
           (now env) pid
           (default "" (filename file)) file_location (content_type file);;
  commit (commit_fault env);;
  ret (mkUploadResponse "File uploaded!" pid fid).

(** Its [except Exception] handler. *)
Definition upload_cleanup (env : UploadEnv) (file_location : string)
    (e : Exc) : M UploadResponse :=
  rollback;;
  ex <- path_exists file_location;;
  (if ex then os_remove (remove_fault env) file_location else ret tt);;
  raise (HTTPException 400 (Fmt "" e)).

Definition upload_case_study (ep : Endpoint) (env : UploadEnv)
    (title description : option string) (project_id : option Z)
    (file : UploadFile) : M UploadResponse :=
  if missing_target project_id title description then
    raise (HTTPException 400 (Lit (msg_need_target ep)))
  else if bad_filename (filename file) then
    raise (HTTPException 400 (Lit "Bad filename"))
  else
    let file_location := path_join (CASE_STUDY_DIR ep) (default "" (filename file)) in
    try_except
      (write_file (save_fault env) file_location (content file))
      (fun e => raise (HTTPException 500 (Fmt (msg_save_failed ep) e)));;
    get_db_connection (connect_fault env);;
    finally
      (try_except
         (upload_transaction ep env title description project_id file file_location)
         (upload_cleanup env file_location))
      close.

(** ** upload_case_study_multiple (projects.py and files.py) *)

Record FileFault := mkFileFault {
  ff_save : DiskFault;
  ff_insert : InsertFault
}.

Definition no_file_fault : FileFault := mkFileFault DiskOk InsertOk.

Record MultiEnv := mkMultiEnv {
  m_now : Z;
  m_connect_fault : bool;
  m_project_fault : bool;
  m_file_faults : list FileFault;   (* one entry per uploaded file, in order *)
  m_commit_fault : bool;
  m_remove_faults : list bool       (* one entry per path of the cleanup loop *)
}.

(** [mresp_count] is the number printed in "message", [len(saved_files)]. *)
Record MultiResponse := mkMultiResponse {
  mresp_count : nat;
  mresp_project_id : Z;
  mresp_file_ids : list Z
}.

(** One iteration of [for file in files]; [acc] is the pair of the local
    lists [saved_files] and [file_ids].  They are appended to in place, so
    an exception keeps what was appended before it was raised.  The
    exception of a failed INSERT is swallowed and the same connection is
    used for the next file and for the commit, whatever state its
    transaction is left in. *)
Definition upload_one (ep : Endpoint) (now : Z) (pid : Z)
    (file : UploadFile) (ff : FileFault)
    (acc : list string * list Z) : M (list string * list Z) :=
  if bad_filename (filename file) then ret acc            (* continue *)
  else
    let file_location := path_join (CASE_STUDY_DIR ep) (default "" (filename file)) in
    try_except
      (write_file (ff_save ff) file_location (content file);;
       let saved_files := (acc.1 ++ [file_location])%list in
       try_except
         (fid <- insert_file (ff_insert ff) now pid
                   (default "" (filename file)) file_location
                   (content_type file);;
          ret (saved_files, (acc.2 ++ [fid])%list))
         (fun _ => ret (saved_files, acc.2)))              (* continue *)
      (fun _ => ret acc).                                  (* continue *)

Fixpoint upload_loop (ep : Endpoint) (now : Z) (pid : Z)
    (files : list UploadFile) (faults : list FileFault)
    (acc : list string * list Z) : M (list string * list Z) :=
  match files with
  | [] => ret acc
  | file :: rest =>
    acc' <- upload_one ep now pid file (default no_file_fault (head faults)) acc;;
    upload_loop ep now pid rest (tail faults) acc'
  end.

(** [for file_path in saved_files: if os.path.exists(file_path): os.remove(file_path)] *)
Fixpoint remove_saved (paths : list string) (faults : list bool) : M unit :=
  match paths with
  | [] => ret tt
  | p :: rest =>
    ex <- path_exists p;;
    (if ex then os_remove (default false (head faults)) p else ret tt);;
    remove_saved rest (tail faults)
  end.

(** The [except Exception] handler of the endpoint; it reads the local
    list [saved_files]. *)
Definition upload_multiple_handler (ep : Endpoint) (env : MultiEnv)
    {A} (saved_files : list string) (e : Exc) : M A :=
  rollback;;
  remove_saved saved_files (m_remove_faults env);;
  raise (HTTPException 500 (Fmt (msg_upload_failed ep) e)).

(** The body of the [try] is split where the value of [saved_files] seen
    by the handler changes: it is empty while the project is resolved and
    complete once the loop is over (the loop itself swallows every
    exception). *)
Definition upload_case_study_multiple (ep : Endpoint) (env : MultiEnv)
    (title description : option string) (project_id : option Z)
    (files : list UploadFile) : M MultiResponse :=
  match files with
  | [] => raise (HTTPException 400 (Lit (msg_no_files ep)))
  | _ :: _ =>
  if missing_target project_id title description then
    raise (HTTPException 400 (Lit (msg_need_target_multiple ep)))
  else
    get_db_connection (m_connect_fault env);;
    finally
      (st <- try_except
               (project_id_val <-
                  resolve_project (m_project_fault env) (m_now env)
                    "multiple_files" (msg_no_project_multiple ep)
                    title description project_id;;
                acc <- upload_loop ep (m_now env) project_id_val files
                         (m_file_faults env) ([], []);;
                ret (project_id_val, acc))
               (upload_multiple_handler ep env []);;
       let '(project_id_val, (saved_files, file_ids)) := st in
       try_except
         (commit (m_commit_fault env);;
          ret (mkMultiResponse (length saved_files) project_id_val file_ids))
         (upload_multiple_handler ep env saved_files))
      close
  end.

(** ** delete_project (projects.py) *)

(** SELECT id, filepath FROM files WHERE project_id = %s *)
Definition select_files_of (fault : bool) (pid : Z) : M (list (Z * string)) :=
  execute fault
    (gets (fun w =>
       (fun f => (FileRecord.id f, FileRecord.filepath f)) <$>
         filter (fun f => FileRecord.project_id f = pid) (tbl_files (txn w)))).

(** DELETE FROM files WHERE project_id = %s *)
Definition delete_files_of (fault : bool) (pid : Z) : M unit :=
  execute fault
    (modify (fun w =>
       set_txn (mkTables (tbl_projects (txn w)) (tbl_outcomes (txn w))
                  (filter (fun f => FileRecord.project_id f ≠ pid) (tbl_files (txn w)))) w)).

(** DELETE FROM projects WHERE id = %s RETURNING id; outcomes and files of
    a deleted project go with it (ON DELETE CASCADE). *)
Definition delete_project_row (fault : bool) (pid : Z) : M (option Z) :=
  execute fault
    (found <- gets (fun w => project_exists pid (txn w));;
     if found then
       modify (fun w =>
         set_txn (mkTables
                    (filter (fun p => Project.id p ≠ pid) (tbl_projects (txn w)))
                    (filter (fun o => Outcome.project_id o ≠ pid) (tbl_outcomes (txn w)))
                    (filter (fun f => FileRecord.project_id f ≠ pid) (tbl_files (txn w)))) w);;
       ret (Some pid)
     else ret None).

Record DeleteEnv := mkDeleteEnv {
  d_connect_fault : bool;
  d_select_fault : bool;
  d_remove_faults : list bool;      (* one entry per selected file row *)
  d_delete_files_fault : bool;
  d_delete_project_fault : bool;
  d_commit_fault : bool
}.

Record DeleteResponse := mkDeleteResponse {
  dresp_message : string;
  dresp_project_id : Z;
  dresp_files_deleted : nat
}.

(** One iteration of [for file in files] over the selected rows;
    [deleted_files] is threaded.  Only OSError is caught (and printed). *)
Definition remove_one (file : Z * string) (fault : bool)
    (deleted_files : list Z) : M (list Z) :=
  try_except
    (ex <- path_exists file.2;;
     if ex then
       os_remove fault file.2;;
       ret (deleted_files ++ [file.1])%list
     else ret deleted_files)
    (fun e => match e with
              | OSError => ret deleted_files
              | _ => raise e
              end).

Fixpoint remove_blobs (rows : list (Z * string)) (faults : list bool)
    (deleted_files : list Z) : M (list Z) :=
  match rows with
  | [] => ret deleted_files
  | file :: rest =>
    deleted_files' <- remove_one file (default false (head faults)) deleted_files;;
    remove_blobs rest (tail faults) deleted_files'
  end.

(** The body of the [try] of [delete_project]. *)
Definition delete_transaction (env : DeleteEnv) (project_id : Z)
  : M DeleteResponse :=
  files <- select_files_of (d_select_fault env) project_id;;
  deleted_files <- remove_blobs files (d_remove_faults env) [];;
  match files with
  | [] => ret tt
  | _ :: _ => delete_files_of (d_delete_files_fault env) project_id
  end;;
  deleted_project <- delete_project_row (d_delete_project_fault env) project_id;;
  match deleted_project with
  | None => raise (HTTPException 404 (Lit "No project found"))
  | Some _ =>
    commit (d_commit_fault env);;
    ret (mkDeleteResponse "Deleted project and files" project_id
           (length deleted_files))
  end.

Definition delete_project (env : DeleteEnv) (project_id : Z) (confirm : bool)
  : M DeleteResponse :=
  if negb confirm then
    raise (HTTPException 400 (Lit "Gotta confirm=True to delete"))
  else
    get_db_connection (d_connect_fault env);;
    finally
      (try_except
         (delete_transaction env project_id)
         (fun e =>
            rollback;;
            raise (HTTPException 500 (Fmt "Error deleting: " e))))
      close.

(** ** list_projects (projects.py) *)

(** SQL [COALESCE(column, d)] *)
Definition coalesce {A} (x : option A) (d : A) : A :=
  match x with
  | Some v => v
  | None => d
  end.

(** ORDER BY created_at DESC *)
Definition newer_first (p q : Project.t) : Prop :=
  Project.created_at q <= Project.created_at p.

Global Instance newer_first_dec p q : Decision (newer_first p q) :=
  Z_le_dec (Project.created_at q) (Project.created_at p).

(** The SELECT list of [list_projects]: four columns go through COALESCE,
    the others are returned as stored. *)
Definition select_columns (p : Project.t) : Project.t :=
  Project.mk (Project.id p)
    (coalesce (Some (Project.title p)) "")
    (Project.description p)
    (Project.location p)
    (Project.start_date p)
    (Project.end_date p)
    (Some (coalesce (Project.community_size p) 0))
    (Some (coalesce (Project.hazard_types p) []))
    (Some (coalesce (Project.implementing_org p) ""))
    (Project.author p)
    (Project.source p)
    (Project.created_at p).

(** The Python loop over the fetched rows. *)
Definition fix_nulls (p : Project.t) : Project.t :=
  Project.mk (Project.id p) (Project.title p) (Project.description p)
    (Project.location p) (Project.start_date p) (Project.end_date p)
    (match Project.community_size p with None => Some 0 | x => x end)
    (match Project.hazard_types p with None => Some [] | x => x end)
    (match Project.implementing_org p with None => Some "" | x => x end)
    (Project.author p) (Project.source p) (Project.created_at p).

Definition select_projects (fault : bool) : M (list Project.t) :=
  execute fault
    (gets (fun w => select_columns <$> merge_sort newer_first (tbl_projects (txn w)))).

Definition list_projects (connect_fault select_fault : bool) : M (list Project.t) :=
  get_db_connection connect_fault;;
  finally
    (try_except
       (projects <- select_projects select_fault;;
        ret (fix_nulls <$> projects))
       (fun e =>
          raise (HTTPException 500 (Fmt "Oops, error getting projects: " e))))
    close.

(** ** Outcome endpoints (outcomes.py) *)

Module OutcomeUpdate.
Record t := mk {
  success_metrics : option (list (string * Z));
  challenges : option (list string);
  overall_success : option bool;
  key_factors : option (list string)
}.
End OutcomeUpdate.

(** Building the [Outcome] response model from the row: the four payload
    fields are required by the model. *)
Definition validate_outcome (o : Outcome.t) : M Outcome.t :=
  match Outcome.success_metrics o, Outcome.challenges o,
        Outcome.overall_success o, Outcome.key_factors o with
  | Some _, Some _, Some _, Some _ => ret o
  | _, _, _, _ => raise ValidationError
  end.

Definition latest_first (o1 o2 : Outcome.t) : Prop :=
  Outcome.created_at o2 <= Outcome.created_at o1.

Global Instance latest_first_dec o1 o2 : Decision (latest_first o1 o2) :=
  Z_le_dec (Outcome.created_at o2) (Outcome.created_at o1).

(** The statements of outcomes.py, as the text that is sent to the store.
    Three of them carry Python-style remarks inside the SQL string. *)

Definition sql_create_outcome : string :=
  "
                INSERT INTO outcomes (success_metrics, challenges, overall_success, key_factors, project_id)
                VALUES (%s, %s, %s, %s, %s)
                RETURNING *  # Return all data of the inserted row
            ".

Definition sql_get_project_outcome : string :=
  "
                SELECT id, project_id, success_metrics, challenges, 
                       overall_success, key_factors, created_at
                FROM outcomes
                WHERE project_id = %s
                ORDER BY created_at DESC  # Order outcomes by creation date, descending
                LIMIT 1  # Get only the most recent outcome
            ".

Definition sql_update_outcome : string :=
  "
                UPDATE outcomes SET
                    success_metrics = COALESCE(%s, success_metrics),  # Update success_metrics if provided, else keep existing
                    challenges = COALESCE(%s, challenges),  # Same for challenges
                    overall_success = COALESCE(%s, overall_success),  # Same for overall_success
                    key_factors = COALESCE(%s, key_factors)  # Same for key_factors
                WHERE id = %s  # Only update the outcome with the specified ID
                RETURNING id, project_id, success_metrics, challenges, 
                          overall_success, key_factors, created_at
            ".

Definition sql_delete_outcome : string :=
  "DELETE FROM outcomes WHERE id = %s RETURNING id".

(** PostgreSQL's comments are [--] and [/* */].  A [#] is an operator
    character to it; none of these statements has a use for that operator,
    and where the character stands, followed by prose, the parser refuses
    the statement. *)
Definition has_remark (sql : string) : bool := char_in "#"%char sql.

(** SELECT ... FROM outcomes WHERE project_id = %s
    ORDER BY created_at DESC LIMIT 1 *)
Definition select_latest_outcome (fault : bool) (pid : Z) : M (option Outcome.t) :=
  execute (has_remark sql_get_project_outcome || fault)
    (gets (fun w =>
       head (merge_sort latest_first
               (filter (fun o => Outcome.project_id o = pid) (tbl_outcomes (txn w)))))).

Definition get_project_outcome (connect_fault select_fault : bool)
    (project_id : Z) : M Outcome.t :=
  get_db_connection connect_fault;;
  finally
    (try_except
       (outcome <- select_latest_outcome select_fault project_id;;
        match outcome with
        | None =>
          raise (HTTPException 404 (Lit "No outcomes found for this project"))
        | Some o => validate_outcome o
        end)
       (fun e => raise (HTTPException 500 (Fmt "" e))))
    close.

(** SQL [COALESCE(%s, column)] *)
Definition coalesce_column {A} (param column : option A) : option A :=
  match param with
  | Some v => Some v
  | None => column
  end.

(** The SET clause of the UPDATE. *)
Definition apply_update (u : OutcomeUpdate.t) (o : Outcome.t) : Outcome.t :=
  Outcome.mk (Outcome.id o) (Outcome.project_id o)
    (coalesce_column (OutcomeUpdate.success_metrics u) (Outcome.success_metrics o))
    (coalesce_column (OutcomeUpdate.challenges u) (Outcome.challenges o))
    (coalesce_column (OutcomeUpdate.overall_success u) (Outcome.overall_success o))
    (coalesce_column (OutcomeUpdate.key_factors u) (Outcome.key_factors o))
    (Outcome.created_at o).

Definition update_row (oid : Z) (u : OutcomeUpdate.t) (o : Outcome.t) : Outcome.t :=
  if decide (Outcome.id o = oid) then apply_update u o else o.

(** UPDATE outcomes SET ... WHERE id = %s RETURNING ..., then
    [cur.fetchone()]. *)
Definition update_outcome_row (fault : bool) (oid : Z) (u : OutcomeUpdate.t)
  : M (option Outcome.t) :=
  execute (has_remark sql_update_outcome || fault)
    (modify (fun w =>
       set_txn (mkTables (tbl_projects (txn w))
                  (update_row oid u <$> tbl_outcomes (txn w))
                  (tbl_files (txn w))) w);;
     gets (fun w => head (filter (fun o => Outcome.id o = oid) (tbl_outcomes (txn w))))).

Record UpdateEnv := mkUpdateEnv {
  u_connect_fault : bool;
  u_update_fault : bool;
  u_commit_fault : bool
}.

Definition update_outcome (env : UpdateEnv) (outcome_id : Z)
    (outcome : OutcomeUpdate.t) : M Outcome.t :=
  get_db_connection (u_connect_fault env);;
  finally
    (try_except
       (result <- update_outcome_row (u_update_fault env) outcome_id outcome;;
        match result with
        | None => raise (HTTPException 404 (Lit "Outcome not found"))
        | Some r =>
          commit (u_commit_fault env);;
          validate_outcome r
        end)
       (fun e =>
          rollback;;
          raise (HTTPException 400 (Fmt "" e))))
    close.

(** ** Vocabulary of the properties *)

(** A blob that no committed FileRecord row points to. *)
Definition orphan_blob (w : World) (path : string) : Prop :=
  is_Some (disk w !! path) /\
  forall f, f ∈ tbl_files (committed w) -> FileRecord.filepath f ≠ path.

(** The path a file of an upload request is written to. *)
Definition location_of (ep : Endpoint) (file : UploadFile) : string :=
  path_join (CASE_STUDY_DIR ep) (default "" (filename file)).

(** The file has a valid name and its blob is written in full. *)
Definition blob_saved (job : UploadFile * FileFault) : bool :=
  negb (bad_filename (filename job.1)) &&
  match ff_save job.2 with
  | DiskOk => true
  | _ => false
  end.

(** The file is saved and its FileRecord row is inserted. *)
Definition row_inserted (job : UploadFile * FileFault) : bool :=
  blob_saved job &&
  match ff_insert job.2 with
  | InsertOk => true
  | _ => false
  end.

(** The file is saved and the store refuses its INSERT, which aborts the
    transaction of the batch. *)
Definition insert_refused (job : UploadFile * FileFault) : bool :=
  blob_saved job && refused (ff_insert job.2).

(** What awaits a file once the transaction is aborted: the store
    refuses its INSERT, unless the driver fails before. *)
Definition after_abort (ff : FileFault) : FileFault :=
  mkFileFault (ff_save ff)
    match ff_insert ff with
    | DriverRaises => DriverRaises
    | _ => StoreRefuses
    end.

Definition awaits (aborted : bool) (ff : FileFault) : FileFault :=
  if aborted then after_abort ff else ff.

Fixpoint faults_from (aborted : bool) (files : list UploadFile)
    (faults : list FileFault) : list (UploadFile * FileFault) :=
  match files with
  | [] => []
  | file :: rest =>
    let job := (file, awaits aborted (default no_file_fault (head faults))) in
    job :: faults_from (aborted || insert_refused job) rest (tail faults)
  end.

(** Every uploaded file of a batch with the fault that awaits it: its own,
    until the store has refused the INSERT of an earlier file. *)
Definition pair_faults (files : list UploadFile) (faults : list FileFault)
  : list (UploadFile * FileFault) :=
  faults_from false files faults.

(** The store has refused an INSERT of the batch. *)
Definition batch_aborted (files : list UploadFile) (faults : list FileFault) : bool :=
  existsb insert_refused (pair_faults files faults).

(** The rows a batch is expected to add to the files table, with ids drawn
    from the sequence in order. *)
Fixpoint new_file_rows (ep : Endpoint) (now pid next_id : Z)
    (jobs : list (UploadFile * FileFault)) : list FileRecord.t :=
  match jobs with
  | [] => []
  | job :: rest =>
    if row_inserted job then
      FileRecord.mk next_id pid (default "" (filename job.1))
        (location_of ep job.1) (content_type job.1) now
        :: new_file_rows ep now pid (next_id + 1) rest
    else new_file_rows ep now pid next_id rest
  end.

(** Merge semantics of an outcome update: what must hold between a stored
    outcome and its version after an update request [u]. *)
Definition retains (u : OutcomeUpdate.t) (old new : Outcome.t) : Prop :=
  Outcome.id new = Outcome.id old /\
  Outcome.project_id new = Outcome.project_id old /\
  Outcome.created_at new = Outcome.created_at old /\
  (OutcomeUpdate.success_metrics u = None ->
     Outcome.success_metrics new = Outcome.success_metrics old) /\
  (OutcomeUpdate.challenges u = None ->
     Outcome.challenges new = Outcome.challenges old) /\
  (OutcomeUpdate.overall_success u = None ->
     Outcome.overall_success new = Outcome.overall_success old) /\
  (OutcomeUpdate.key_factors u = None ->
     Outcome.key_factors new = Outcome.key_factors old).

(** A returned project none of whose list, numeric or text fields is null. *)
Definition no_null_fields (p : Project.t) : Prop :=
  Project.description p ≠ None /\
  Project.location p ≠ None /\
  Project.community_size p ≠ None /\
  Project.hazard_types p ≠ None /\
  Project.implementing_org p ≠ None /\
  Project.author p ≠ None /\
  Project.source p ≠ None.

(** Every listing of the world is free of such nulls. *)
Definition lists_without_nulls (w : World) : Prop :=
  forall ps w',
    list_projects false false w = (Return ps, w') -> Forall no_null_fields ps.

(** How a listed project relates to the stored one: community_size,
    hazard_types and implementing_org are defaulted, everything else is
    passed through. *)
Definition normalized_view (stored listed : Project.t) : Prop :=
  Project.id listed = Project.id stored /\
  Project.title listed = Project.title stored /\
  Project.description listed = Project.description stored /\
  Project.location listed = Project.location stored /\
  Project.start_date listed = Project.start_date stored /\
  Project.end_date listed = Project.end_date stored /\
  Project.community_size listed = Some (default 0 (Project.community_size stored)) /\
  Project.hazard_types listed = Some (default [] (Project.hazard_types stored)) /\
  Project.implementing_org listed = Some (default "" (Project.implementing_org stored)) /\
  Project.author listed = Project.author stored /\
  Project.source listed = Project.source stored /\
  Project.created_at listed = Project.created_at stored.

(** ** Sample worlds and requests *)

Definition no_tables : Tables := mkTables [] [] [].

Definition demo_world_empty : World := mkWorld no_tables no_tables false 1 1 1 ∅.

Definition demo_report : UploadFile :=
  mkUploadFile (Some "report.pdf") (Some "application/pdf") [].

(** A client-supplied name that tries to leave the upload directory. *)
Definition demo_traversal : UploadFile :=
  mkUploadFile (Some "../etc/passwd") None [].

Definition demo_env : UploadEnv :=
  mkUploadEnv 10 DiskOk false false false false false.

Definition demo_env_db_down : UploadEnv :=
  mkUploadEnv 10 DiskOk true false false false false.

Definition demo_file (name : string) : UploadFile :=
  mkUploadFile (Some name) (Some "text/plain") [].

(** Three files, the second of which cannot be opened for writing. *)
Definition demo_batch : list UploadFile :=
  [demo_file "a.txt"; demo_file "b.txt"; demo_file "c.txt"].

Definition demo_multi_env : MultiEnv :=
  mkMultiEnv 10 false false
    [no_file_fault; mkFileFault OpenFails InsertOk; no_file_fault] false [].

Definition demo_project : Project.t :=
  Project.mk 1 "Flood Response" (Some "desc") (Some "Riverdale") (Some 19723) None
    (Some 500) (Some ["flood"]) (Some "NGO") None None 5.

Definition demo_file_row : FileRecord.t :=
  FileRecord.mk 1 1 "report.pdf" "uploads/report.pdf" (Some "application/pdf") 6.

Definition demo_outcome : Outcome.t :=
  Outcome.mk 1 1 (Some [("water_saved", 1000)]) (Some ["funding"]) (Some false)
    (Some ["training"]) 7.

(** One project with one uploaded file and one outcome. *)
Definition demo_tables : Tables :=
  mkTables [demo_project] [demo_outcome] [demo_file_row].

Definition demo_world : World :=
  mkWorld demo_tables demo_tables false 2 2 2 {["uploads/report.pdf" := []]}.

Definition demo_delete_env : DeleteEnv :=
  mkDeleteEnv false false [] false false false.

(** The project that a single-file upload creates on the fly. *)
Definition demo_implicit_project : Project.t :=
  Project.mk 1 "t" (Some "d") (Some "unspecified")
    None None None None None None None 10.

Definition demo_world_uploaded : World :=
  mkWorld (mkTables [demo_implicit_project] [] []) (mkTables [demo_implicit_project] [] [])
    false 2 1 1 ∅.

Definition demo_update_env : UpdateEnv := mkUpdateEnv false false false.

(** An update request that supplies [overall_success] only. *)
Definition demo_update : OutcomeUpdate.t :=
  OutcomeUpdate.mk None None (Some true) None.

(** ** create_project (projects.py) *)

Module ProjectCreate.
Record t := mk {
  title : string;
  description : string;
  location : string;
  start_date : Z;
  end_date : option Z;
  community_size : Z;
  hazard_types : list string;
  implementing_org : string;
  author : option string;
  source : option string
}.
End ProjectCreate.

(** The row that the INSERT of [create_project] stores for a request. *)
Definition project_row (new_id now : Z) (project : ProjectCreate.t) : Project.t :=
  Project.mk new_id
    (ProjectCreate.title project)
    (Some (ProjectCreate.description project))
    (Some (ProjectCreate.location project))
    (Some (ProjectCreate.start_date project))
    (ProjectCreate.end_date project)
    (Some (ProjectCreate.community_size project))
    (Some (ProjectCreate.hazard_types project))
    (Some (ProjectCreate.implementing_org project))
    (ProjectCreate.author project)
    (ProjectCreate.source project)
    now.

(** INSERT INTO projects (title, ..., source) VALUES (...) RETURNING *,
    then [cur.fetchone()] *)
Definition insert_project_row (fault : bool) (now : Z)
    (project : ProjectCreate.t) : M Project.t :=
  execute fault
    (new_id <- gets projects_id_seq;;
     modify bump_projects_id_seq;;
     modify (fun w =>
       set_txn (mkTables
                  (tbl_projects (txn w) ++ [project_row new_id now project])%list
                  (tbl_outcomes (txn w)) (tbl_files (txn w))) w);;
     ret (project_row new_id now project)).

Record CreateEnv := mkCreateEnv {
  c_now : Z;
  c_connect_fault : bool;
  c_insert_fault : bool;
  c_commit_fault : bool
}.

Definition create_project (env : CreateEnv) (project : ProjectCreate.t)
  : M Project.t :=
  get_db_connection (c_connect_fault env);;
  finally
    (try_except
       (result <- insert_project_row (c_insert_fault env) (c_now env) project;;
        commit (c_commit_fault env);;
        ret result)
       (fun e =>
          rollback;;
          raise (HTTPException 400 (Fmt "" e))))
    close.

(** ** list_project_files and download_file (files.py) *)

(** A row of [SELECT id, filename, filetype, uploaded_at]. *)
Record FileListing := mkFileListing {
  fl_id : Z;
  fl_filename : string;
  fl_filetype : option string;
  fl_uploaded_at : Z
}.

Definition listing_of (f : FileRecord.t) : FileListing :=
  mkFileListing (FileRecord.id f) (FileRecord.filename f)
    (FileRecord.filetype f) (FileRecord.uploaded_at f).

(** ORDER BY uploaded_at DESC *)
Definition recent_first (f g : FileRecord.t) : Prop :=
  FileRecord.uploaded_at g <= FileRecord.uploaded_at f.

Global Instance recent_first_dec f g : Decision (recent_first f g) :=
  Z_le_dec (FileRecord.uploaded_at g) (FileRecord.uploaded_at f).

(** SELECT id, filename, filetype, uploaded_at FROM files
    WHERE project_id = %s ORDER BY uploaded_at DESC *)
Definition select_file_listing (fault : bool) (pid : Z) : M (list FileListing) :=
  execute fault
    (gets (fun w =>
       listing_of <$>
         merge_sort recent_first
           (filter (fun f => FileRecord.project_id f = pid) (tbl_files (txn w))))).

Definition list_project_files (connect_fault select_fault : bool)
    (project_id : Z) : M (list FileListing) :=
  get_db_connection connect_fault;;
  finally
    (try_except
       (select_file_listing select_fault project_id)
       (fun e => raise (HTTPException 500 (Fmt "" e))))
    close.

(** What [FileResponse(path=..., filename=..., media_type=...)] is built
    from. *)
Record FileResponse := mkFileResponse {
  fr_path : string;
  fr_filename : string;
  fr_media_type : string
}.

(** SELECT ... FROM files WHERE id = %s, then [cur.fetchone()] *)
Definition select_file (fault : bool) (file_id : Z) : M (option FileRecord.t) :=
  execute fault
    (gets (fun w =>
       head (filter (fun f => FileRecord.id f = file_id) (tbl_files (txn w))))).

Definition download_file (connect_fault select_fault : bool) (file_id : Z)
  : M FileResponse :=
  get_db_connection connect_fault;;
  finally
    (try_except
       (file <- select_file select_fault file_id;;
        match file with
        | None => raise (HTTPException 404 (Lit "File not found"))
        | Some f =>
          ex <- path_exists (FileRecord.filepath f);;
          if negb ex then raise (HTTPException 404 (Lit "File not found"))
          else ret (mkFileResponse (FileRecord.filepath f) (FileRecord.filename f)
                      "application/octet-stream")
        end)
       (fun e => raise (HTTPException 500 (Fmt "" e))))
    close.

(** ** create_outcome and delete_outcome (outcomes.py) *)

Module OutcomeCreate.
Record t := mk {
  success_metrics : list (string * Z);
  challenges : list string;
  overall_success : bool;
  key_factors : list string;
  project_id : Z
}.
End OutcomeCreate.

Definition bump_outcomes_id_seq (w : World) : World :=
  mkWorld (committed w) (txn w) (txn_aborted w) (projects_id_seq w)
          (outcomes_id_seq w + 1) (files_id_seq w) (disk w).

Definition outcome_row (new_id now : Z) (outcome : OutcomeCreate.t) : Outcome.t :=
  Outcome.mk new_id (OutcomeCreate.project_id outcome)
    (Some (OutcomeCreate.success_metrics outcome))
    (Some (OutcomeCreate.challenges outcome))
    (Some (OutcomeCreate.overall_success outcome))
    (Some (OutcomeCreate.key_factors outcome))
    now.

(** INSERT INTO outcomes (...) VALUES (...) RETURNING *, then
    [cur.fetchone()]; the foreign key is checked by the store. *)
Definition insert_outcome (fault : bool) (now : Z) (outcome : OutcomeCreate.t)
  : M Outcome.t :=
  execute (has_remark sql_create_outcome || fault)
    (ok <- gets (fun w => project_exists (OutcomeCreate.project_id outcome) (txn w));;
     if negb ok then modify bump_outcomes_id_seq;; refuse else
     new_id <- gets outcomes_id_seq;;
     modify bump_outcomes_id_seq;;
     modify (fun w =>
       set_txn (mkTables (tbl_projects (txn w))
                  (tbl_outcomes (txn w) ++ [outcome_row new_id now outcome])%list
                  (tbl_files (txn w))) w);;
     ret (outcome_row new_id now outcome)).

Definition create_outcome (env : CreateEnv) (outcome : OutcomeCreate.t)
  : M Outcome.t :=
  get_db_connection (c_connect_fault env);;
  finally
    (try_except
       (result <- insert_outcome (c_insert_fault env) (c_now env) outcome;;
        commit (c_commit_fault env);;
        ret result)
       (fun e =>
          rollback;;
          raise (HTTPException 400 (Fmt "" e))))
    close.

(** DELETE FROM outcomes WHERE id = %s RETURNING id, then [cur.fetchone()] *)
Definition delete_outcome_row (fault : bool) (oid : Z) : M (option Z) :=
  execute (has_remark sql_delete_outcome || fault)
    (found <- gets (fun w =>
                head (filter (fun o => Outcome.id o = oid) (tbl_outcomes (txn w))));;
     modify (fun w =>
       set_txn (mkTables (tbl_projects (txn w))
                  (filter (fun o => Outcome.id o ≠ oid) (tbl_outcomes (txn w)))
                  (tbl_files (txn w))) w);;
     ret (Outcome.id <$> found)).

Definition delete_outcome (connect_fault delete_fault commit_fault : bool)
    (outcome_id : Z) : M string :=
  get_db_connection connect_fault;;
  finally
    (try_except
       (deleted_outcome <- delete_outcome_row delete_fault outcome_id;;
        match deleted_outcome with
        | None => raise (HTTPException 404 (Lit "Outcome not found"))
        | Some _ =>
          commit commit_fault;;
          ret "Outcome deleted successfully"
        end)
       (fun e =>
          rollback;;
          raise (HTTPException 500 (Fmt "" e))))
    close.

(** ** delete_file (case_studies/main_old.py) *)

Module MainOld.

(** The monolith has its own [get_db_connection], with its own message. *)
Definition get_db_connection (fault : bool) : M unit :=
  if fault then
    raise (HTTPException 500 (Fmt "Couldn't connect to the database: " DatabaseError))
  else modify (fun w => set_txn (committed w) w).

(** DELETE FROM files WHERE id = %s *)
Definition delete_file_row (fault : bool) (file_id : Z) : M unit :=
  execute fault
    (modify (fun w =>
       set_txn (mkTables (tbl_projects (txn w)) (tbl_outcomes (txn w))
                  (filter (fun f => FileRecord.id f ≠ file_id) (tbl_files (txn w)))) w)).

Record DeleteFileEnv := mkDeleteFileEnv {
  df_connect_fault : bool;
  df_select_fault : bool;
  df_remove_fault : bool;
  df_delete_fault : bool;
  df_commit_fault : bool
}.

Definition delete_file (env : DeleteFileEnv) (file_id : Z) : M string :=
  get_db_connection (df_connect_fault env);;
  finally
    (try_except
       (file <- select_file (df_select_fault env) file_id;;
        match file with
        | None => raise (HTTPException 404 (Lit "File not found"))
        | Some f =>
          try_except
            (ex <- path_exists (FileRecord.filepath f);;
             if ex then os_remove (df_remove_fault env) (FileRecord.filepath f)
             else ret tt)
            (fun e =>
               match e with
               | OSError =>
                 raise (HTTPException 500 (Fmt "Could not delete file: " e))
               | _ => raise e
               end);;
          delete_file_row (df_delete_fault env) file_id;;
          commit (df_commit_fault env);;
          ret "File deleted"
        end)
       (fun e =>
          rollback;;
          raise (HTTPException 500 (Fmt "" e))))
    close.

End MainOld.

(** ** More sample requests *)

Definition demo_create_env : CreateEnv := mkCreateEnv 5 false false false.

Definition demo_create_env_commit_fails : CreateEnv := mkCreateEnv 5 false false true.

(** The creation request of the first project. *)
Definition demo_project_request : ProjectCreate.t :=
  ProjectCreate.mk "Flood Response" "desc" "Riverdale" 19723 None 500
    ["flood"] "NGO" None None.


Definition demo_notes : UploadFile :=
  mkUploadFile (Some "notes.txt") (Some "text/plain") [Byte.x68; Byte.x69].


(** The blob of the file is saved but its FileRecord row is not inserted. *)
Definition row_lost (job : UploadFile * FileFault) : bool :=
  blob_saved job &&
  match ff_insert job.2 with
  | InsertOk => false
  | _ => true
  end.

(** The tables without a project and everything that hangs on it. *)
Definition without_project (pid : Z) (t : Tables) : Tables :=
  mkTables (filter (fun p => Project.id p ≠ pid) (tbl_projects t))
           (filter (fun o => Outcome.project_id o ≠ pid) (tbl_outcomes t))
           (filter (fun f => FileRecord.project_id f ≠ pid) (tbl_files t)).

Definition demo_delete_env_commit_fails : DeleteEnv :=
  mkDeleteEnv false false [] false false true.

(** The second file of the batch is saved, but the driver cannot send its
    INSERT. *)
Definition demo_multi_env_insert_fails : MultiEnv :=
  mkMultiEnv 10 false false
    [no_file_fault; mkFileFault DiskOk DriverRaises; no_file_fault] false [].

(** The second file of the batch is saved, but the store refuses its
    INSERT. *)
Definition demo_multi_env_insert_refused : MultiEnv :=
  mkMultiEnv 10 false false
    [no_file_fault; mkFileFault DiskOk StoreRefuses; no_file_fault] false [].

(** The sample world once its project has been deleted. *)
Definition demo_world_after_delete : World := mkWorld no_tables no_tables false 2 2 2 ∅.

(** An outcome for a project that is not there. *)
Definition demo_outcome_request : OutcomeCreate.t :=
  OutcomeCreate.mk [("water_saved", 1000)] ["funding"] true ["training"] 7.

Definition demo_delete_file_env : MainOld.DeleteFileEnv :=
  MainOld.mkDeleteFileEnv false false false false false.

Definition demo_delete_file_env_commit_fails : MainOld.DeleteFileEnv :=
  MainOld.mkDeleteFileEnv false false false false true.

(** [os.path.basename]: what follows the last slash of a path. *)
Fixpoint basename (path : string) : string :=
  match path with
  | EmptyString => EmptyString
  | String _ rest => if char_in "/"%char path then basename rest else path
  end.

(** A second project, with a file that was uploaded through files.py on a
    server that runs in /srv/app. *)
Definition demo_project_2 : Project.t :=
  Project.mk 2 "Drought Plan" (Some "desc") (Some "unspecified")
    None None None None None None None 8.

Definition demo_file_row_2 : FileRecord.t :=
  FileRecord.mk 2 2 "notes.txt" (location_of (files_py "/srv/app") demo_notes)
    (Some "text/plain") 9.

Definition demo_world_two_projects : World :=
  mkWorld (mkTables [demo_project; demo_project_2] [demo_outcome]
             [demo_file_row; demo_file_row_2])
          (mkTables [demo_project; demo_project_2] [demo_outcome]
             [demo_file_row; demo_file_row_2])
          false 3 2 3
          {["uploads/report.pdf" := []; "/srv/app/uploads/notes.txt" := content demo_notes]}.

(** Referential integrity of the tables: every file row and every outcome
    row names a project that is stored. *)
Definition references_ok (t : Tables) : Prop :=
  Forall (fun f => project_exists (FileRecord.project_id f) t = true) (tbl_files t) /\
  Forall (fun o => project_exists (Outcome.project_id o) t = true) (tbl_outcomes t).

(** * Properties *)

Local Open Scope list_scope.

Ltac monad_unfold :=
  unfold execute, refuse, bind, try_except, finally, ret, raise, gets, modify in *.

(** ** Filename validation *)

Lemma char_in_spec c s : char_in c s = true <-> In c (list_ascii_of_string s).
Proof.
  induction s as [|c' s IH]; simpl.
  - split; [discriminate | tauto].
  - destruct (Ascii.eqb c c') eqn:E.
    + apply Ascii.eqb_eq in E. subst. tauto.
    + apply Ascii.eqb_neq in E. rewrite IH.
      split; [tauto|]. intros [?|?]; [congruence|done].
Qed.

Lemma bad_filename_spec name :
  bad_filename name = true <->
  (forall s, name = Some s ->
     s = "" \/ In "/"%char (list_ascii_of_string s)
            \/ In "\"%char (list_ascii_of_string s)).
Proof.
  destruct name as [s|]; simpl.
  - destruct s as [|a s]; [ split; [intros _ ? [= <-]; by left | done] |].
    rewrite orb_true_iff, !char_in_spec. split.
    + intros H ? [= <-]. by right.
    + intros H. destruct (H _ eq_refl) as [?|?]; [discriminate|done].
  - split; [intros _ ? [=] | done].
Qed.

(** ** Statements and the status of the transaction *)

Lemma execute_live {A} fault (statement : M A) w :
  txn_aborted w = false ->
  execute fault statement w =
    if fault then (Raise DatabaseError, abort_txn w) else statement w.
Proof. intros H. unfold execute. monad_unfold. rewrite H. by destruct fault. Qed.

(** On an aborted transaction no statement has an effect. *)
Lemma execute_aborted {A} fault (statement : M A) w :
  txn_aborted w = true ->
  execute fault statement w = (Raise DatabaseError, w).
Proof. intros H. unfold execute. monad_unfold. by rewrite H. Qed.

(** ** The statements of the upload transaction *)

Lemma project_exists_filter pid t :
  Project.id <$> head (filter (fun p => Project.id p = pid) (tbl_projects t)) =
  if project_exists pid t then Some pid else None.
Proof.
  unfold project_exists. induction (tbl_projects t) as [|p ps IH].
  - rewrite bool_decide_false; [done|]. intros H; inversion H.
  - rewrite filter_cons. case_decide as Hp.
    + rewrite bool_decide_true; [by rewrite <- Hp|]. by left.
    + rewrite IH. destruct (bool_decide (Exists _ ps)) eqn:E.
      * apply bool_decide_eq_true in E. rewrite bool_decide_true; [done|]. by right.
      * apply bool_decide_eq_false in E. rewrite bool_decide_false; [done|].
        rewrite Exists_cons. tauto.
Qed.

Lemma project_exists_snoc pid ps p os fs :
  Project.id p = pid -> project_exists pid (mkTables (ps ++ [p]) os fs) = true.
Proof.
  intros H. unfold project_exists; simpl. apply bool_decide_eq_true.
  apply Exists_app. right. by left.
Qed.

(** What [resolve_project] leaves behind, whatever its outcome. *)
Lemma resolve_project_frame fault now loc msg title description project_id w r w' :
  resolve_project fault now loc msg title description project_id w = (r, w') ->
  committed w' = committed w /\ disk w' = disk w /\
  files_id_seq w' = files_id_seq w /\
  tbl_files (txn w') = tbl_files (txn w) /\
  tbl_outcomes (txn w') = tbl_outcomes (txn w).
Proof.
  unfold resolve_project, insert_project, select_project_id. monad_unfold.
  destruct project_id as [p|], (txn_aborted w), fault; simpl;
    try (intros [= <- <-]; done).
  - destruct (Project.id <$> _); intros [= <- <-]; done.
  - destruct title; intros [= <- <-]; done.
Qed.

(** What a successful [resolve_project] returns. *)
Lemma resolve_project_return fault now loc msg title description project_id w pid w' :
  resolve_project fault now loc msg title description project_id w = (Return pid, w') ->
  project_exists pid (txn w') = true /\
  match project_id with
  | Some p => pid = p /\ w' = w
  | None =>
    exists t, title = Some t /\ pid = projects_id_seq w /\
      tbl_projects (txn w') =
        tbl_projects (txn w) ++
          [Project.mk pid t description (Some loc)
             None None None None None None None now]
  end.
Proof.
  unfold resolve_project, insert_project, select_project_id. monad_unfold.
  destruct project_id as [p|], (txn_aborted w), fault; simpl; try discriminate.
  - rewrite project_exists_filter.
    destruct (project_exists p (txn w)) eqn:E; [|discriminate].
    intros [= <- <-]. done.
  - destruct title as [t|]; [|discriminate]. intros [= <- <-]. simpl.
    split; [by apply project_exists_snoc | eauto].
Qed.

(** A project is resolved on a live transaction only, and leaves it live. *)
Lemma resolve_project_live fault now loc msg title description project_id w pid w' :
  resolve_project fault now loc msg title description project_id w = (Return pid, w') ->
  txn_aborted w = false /\ txn_aborted w' = false.
Proof.
  unfold resolve_project, insert_project, select_project_id. monad_unfold.
  destruct project_id as [p|], (txn_aborted w) eqn:Hl, fault; simpl;
    try discriminate.
  - destruct (Project.id <$> _); [|discriminate]. by intros [= _ <-].
  - destruct title; [|discriminate]. by intros [= _ <-].
Qed.

(** When [resolve_project] goes through. *)
Lemma resolve_project_ok now loc msg title description project_id w :
  missing_target project_id title description = false ->
  (forall p, project_id = Some p -> project_exists p (txn w) = true) ->
  txn_aborted w = false ->
  exists pid w',
    resolve_project false now loc msg title description project_id w = (Return pid, w').
Proof.
  intros Hm Hp Hl.
  unfold resolve_project, insert_project, select_project_id. monad_unfold.
  destruct project_id as [p|]; simpl; rewrite Hl; simpl.
  - rewrite project_exists_filter, (Hp p eq_refl). eauto.
  - destruct title, description; try discriminate; eauto.
Qed.

(** A project id that is not in the table. *)
Lemma resolve_project_missing now loc msg title description p w :
  project_exists p (txn w) = false ->
  txn_aborted w = false ->
  resolve_project false now loc msg title description (Some p) w =
    (Raise (HTTPException 404 (Lit msg)), w).
Proof.
  intros Hp Hl. unfold resolve_project, select_project_id. monad_unfold.
  simpl. rewrite Hl. simpl.
  by rewrite project_exists_filter, Hp.
Qed.

Lemma insert_file_frame fault now pid name path ty w r w' :
  insert_file fault now pid name path ty w = (r, w') ->
  committed w' = committed w /\ disk w' = disk w /\
  projects_id_seq w' = projects_id_seq w /\
  tbl_projects (txn w') = tbl_projects (txn w) /\
  tbl_outcomes (txn w') = tbl_outcomes (txn w).
Proof.
  unfold insert_file. monad_unfold.
  destruct fault, (txn_aborted w); simpl; try (intros [= <- <-]; done);
    destruct (project_exists pid (txn w)); simpl; intros [= <- <-]; done.
Qed.

Lemma insert_file_ok now pid name path ty w :
  project_exists pid (txn w) = true ->
  txn_aborted w = false ->
  exists w',
    insert_file InsertOk now pid name path ty w = (Return (files_id_seq w), w') /\
    files_id_seq w' = files_id_seq w + 1 /\
    tbl_files (txn w') =
      tbl_files (txn w) ++
        [FileRecord.mk (files_id_seq w) pid name path ty now] /\
    txn_aborted w' = false.
Proof.
  intros Hp Hl. unfold insert_file. monad_unfold. simpl. rewrite Hl. simpl.
  rewrite Hp. simpl.
  eexists. split; [reflexivity|]. done.
Qed.

(** A row is inserted by a statement without fault on a live transaction
    only. *)
Lemma insert_file_return fault now pid name path ty w fid w' :
  insert_file fault now pid name path ty w = (Return fid, w') ->
  fault = InsertOk /\ txn_aborted w = false /\ fid = files_id_seq w /\
  txn_aborted w' = false /\
  tbl_files (txn w') =
    tbl_files (txn w) ++ [FileRecord.mk fid pid name path ty now].
Proof.
  unfold insert_file. monad_unfold.
  destruct fault, (txn_aborted w) eqn:Hl; simpl; try discriminate.
  destruct (project_exists pid (txn w)); simpl; [|discriminate].
  by intros [= <- <-].
Qed.

(** Nothing is inserted into an aborted transaction, and an INSERT that
    fails inserts nothing; a statement that the store refuses aborts the
    transaction. *)
Lemma insert_file_raises fault now pid name path ty w :
  txn_aborted w = true \/ fault <> InsertOk ->
  exists w',
    insert_file fault now pid name path ty w = (Raise DatabaseError, w') /\
    committed w' = committed w /\ txn w' = txn w /\ disk w' = disk w /\
    projects_id_seq w' = projects_id_seq w /\
    files_id_seq w' = files_id_seq w /\
    txn_aborted w' = txn_aborted w || refused fault.
Proof.
  intros H. unfold insert_file. monad_unfold.
  destruct fault, (txn_aborted w) eqn:Hl; simpl; rewrite ?Hl;
    try (eexists; split; [reflexivity|]; simpl; by rewrite ?Hl).
  destruct H; congruence.
Qed.

(** ** upload_case_study *)

Lemma upload_transaction_frame ep env title description project_id file loc w r w' :
  upload_transaction ep env title description project_id file loc w = (r, w') ->
  disk w' = disk w /\ (forall e, r = Raise e -> committed w' = committed w).
Proof.
  unfold upload_transaction, commit. monad_unfold.
  destruct (resolve_project _ _ _ _ _ _ _ w) as [[pid|e1] w1] eqn:E1;
    apply resolve_project_frame in E1 as (Hc1 & Hd1 & _).
  2:{ intros [= <- <-]. by split. }
  destruct (insert_file _ _ _ _ _ _ w1) as [[fid|e2] w2] eqn:E2;
    apply insert_file_frame in E2 as (Hc2 & Hd2 & _).
  2:{ intros [= <- <-]. split; [congruence|]. intros; congruence. }
  destruct (commit_fault env); simpl; intros [= <- <-]; simpl.
  - split; [congruence|]. intros; congruence.
  - split; [destruct (txn_aborted w2); simpl; congruence|]. discriminate.
Qed.

Lemma upload_transaction_return ep env title description project_id file loc w r w' :
  upload_transaction ep env title description project_id file loc w = (Return r, w') ->
  exists w1,
    resolve_project (project_fault env) (now env) "unspecified" (msg_no_project ep)
      title description project_id w = (Return (resp_project_id r), w1) /\
    tbl_projects (committed w') = tbl_projects (txn w1) /\
    tbl_outcomes (committed w') = tbl_outcomes (txn w) /\
    tbl_files (committed w') =
      tbl_files (txn w) ++
        [FileRecord.mk (resp_file_id r) (resp_project_id r)
           (default "" (filename file)) loc (content_type file) (now env)].
Proof.
  unfold upload_transaction, commit. monad_unfold.
  destruct (resolve_project _ _ _ _ _ _ _ w) as [[pid|e1] w1] eqn:E1; [|discriminate].
  pose proof (resolve_project_frame _ _ _ _ _ _ _ _ _ _ E1) as (_ & _ & Hs & Hf & Ho).
  pose proof (resolve_project_return _ _ _ _ _ _ _ _ _ _ E1) as (Hex & _).
  pose proof (resolve_project_live _ _ _ _ _ _ _ _ _ _ E1) as (_ & Hl1).
  destruct (insert_fault env) eqn:Hi.
  { destruct (insert_file_raises StoreRefuses (now env) pid
                (default "" (filename file)) loc (content_type file) w1)
      as (w2 & E2 & _); [by right|]. rewrite E2. discriminate. }
  destruct (insert_file_ok (now env) pid (default "" (filename file)) loc
              (content_type file) w1 Hex Hl1) as (w2 & E2 & Hs2 & Hf2 & Hl2).
  pose proof (insert_file_frame _ _ _ _ _ _ _ _ _ E2) as (_ & _ & _ & Hp2 & Ho2).
  rewrite E2.
  destruct (commit_fault env); simpl; [discriminate|].
  rewrite Hl2.
  intros [= <- <-]. simpl. exists w1. split; [done|].
  repeat split; congruence.
Qed.

Lemma upload_cleanup_run env loc e w :
  is_Some (disk w !! loc) ->
  remove_fault env = false ->
  upload_cleanup env loc e w =
    (Raise (HTTPException 400 (Fmt "" e)),
     set_disk (delete loc (disk w)) (set_txn (committed w) w)).
Proof.
  intros Hex Hr. unfold upload_cleanup, rollback, path_exists, os_remove.
  monad_unfold. simpl. rewrite Hr, !bool_decide_true by done. done.
Qed.

(** A failure inside the [try] removes the blob that was just written and
    leaves the tables as they were. *)
Lemma upload_compensates ep env title description project_id file w e w' :
  missing_target project_id title description = false ->
  bad_filename (filename file) = false ->
  save_fault env = DiskOk ->
  connect_fault env = false ->
  remove_fault env = false ->
  upload_case_study ep env title description project_id file w = (Raise e, w') ->
  disk w' = delete (path_join (CASE_STUDY_DIR ep) (default "" (filename file))) (disk w) /\
  committed w' = committed w /\
  exists cause, e = HTTPException 400 (Fmt "" cause).
Proof.
  intros Ht Hn Hs Hc Hr.
  unfold upload_case_study. rewrite Ht, Hn, Hs, Hc.
  set (loc := path_join _ _).
  unfold write_file, get_db_connection. monad_unfold. simpl.
  destruct (upload_transaction _ _ _ _ _ _ _ _) as [[r|e1] w1] eqn:E; [discriminate|].
  apply upload_transaction_frame in E as [Hd Hcm]. simpl in Hd.
  specialize (Hcm _ eq_refl). simpl in Hcm.
  rewrite upload_cleanup_run; [| rewrite Hd; by rewrite lookup_insert_eq | done].
  intros [= <- <-]. simpl. rewrite Hd, delete_insert_eq. eauto.
Qed.

Lemma upload_transaction_missing ep env title description p file loc w :
  project_fault env = false ->
  project_exists p (txn w) = false ->
  txn_aborted w = false ->
  upload_transaction ep env title description (Some p) file loc w =
    (Raise (HTTPException 404 (Lit (msg_no_project ep))), w).
Proof.
  intros Hp Hex Hl. unfold upload_transaction. unfold bind at 1.
  by rewrite Hp, resolve_project_missing.
Qed.

(** In particular for a [project_id] that is not in the table. *)
Lemma upload_missing_project ep env title description p file w :
  bad_filename (filename file) = false ->
  save_fault env = DiskOk ->
  connect_fault env = false ->
  project_fault env = false ->
  remove_fault env = false ->
  project_exists p (committed w) = false ->
  exists w',
    upload_case_study ep env title description (Some p) file w =
      (Raise (HTTPException 400 (Fmt "" (HTTPException 404 (Lit (msg_no_project ep))))), w') /\
    disk w' = delete (path_join (CASE_STUDY_DIR ep) (default "" (filename file))) (disk w) /\
    committed w' = committed w.
Proof.
  intros Hn Hs Hc Hp Hr Hex.
  unfold upload_case_study. rewrite Hn, Hs, Hc. cbn [missing_target].
  set (loc := path_join _ _).
  unfold write_file, get_db_connection. monad_unfold.
  rewrite upload_transaction_missing by done.
  rewrite upload_cleanup_run; [| simpl; by rewrite lookup_insert_eq | done].
  eexists. split; [reflexivity|]. simpl. by rewrite delete_insert_eq.
Qed.

(** C1. A single-file upload that fails after its blob was written is
    expected to leave no blob without a FileRecord row.  The connection is
    opened after the blob is written and outside the [try] whose handler
    removes the blob: when [get_db_connection] raises, the upload fails
    with its 500, the tables are untouched and the blob stays on disk; if
    no row named that path before, it is an orphan. *)
Theorem upload_connection_failure_keeps_blob
    ep env title description project_id file w :
  missing_target project_id title description = false ->
  bad_filename (filename file) = false ->
  save_fault env = DiskOk ->
  connect_fault env = true ->
  exists w',
    upload_case_study ep env title description project_id file w =
      (Raise (HTTPException 500 (Fmt "Database connection failed: " DatabaseError)), w') /\
    committed w' = committed w /\
    disk w' = <[path_join (CASE_STUDY_DIR ep) (default "" (filename file)) := content file]>
                (disk w) /\
    ((forall f, f ∈ tbl_files (committed w) ->
        FileRecord.filepath f ≠ path_join (CASE_STUDY_DIR ep) (default "" (filename file))) ->
     orphan_blob w' (path_join (CASE_STUDY_DIR ep) (default "" (filename file)))).
Proof.
  intros Ht Hn Hs Hc.
  unfold upload_case_study. rewrite Ht, Hn, Hs, Hc.
  unfold write_file, get_db_connection. monad_unfold. simpl.
  eexists. split; [reflexivity|]. simpl. do 2 (split; [done|]).
  intros H. split; [|exact H]. simpl. by rewrite lookup_insert_eq.
Qed.

Lemma upload_connection_failure_keeps_blob_witness :
  missing_target None (Some "t") (Some "d") = false /\
  bad_filename (filename demo_report) = false /\
  save_fault demo_env_db_down = DiskOk /\
  connect_fault demo_env_db_down = true /\
  exists w',
    upload_case_study projects_py demo_env_db_down (Some "t") (Some "d") None
      demo_report demo_world_empty =
      (Raise (HTTPException 500 (Fmt "Database connection failed: " DatabaseError)), w') /\
    committed w' = committed demo_world_empty /\
    orphan_blob w' "uploads/report.pdf".
Proof.
  do 4 (split; [reflexivity|]).
  destruct (upload_connection_failure_keeps_blob projects_py demo_env_db_down
              (Some "t") (Some "d") None demo_report demo_world_empty
              eq_refl eq_refl eq_refl eq_refl) as (w' & E & Hc & Hd & Ho).
  exists w'. split; [exact E|]. split; [exact Hc|].
  apply Ho. intros f Hf. simpl in Hf. inversion Hf.
Defined.

(** A write that fails after the file was opened leaves the truncated file
    behind as well: the endpoint answers 500 without touching it again. *)
Lemma upload_write_failure_keeps_blob ep env title description project_id file w :
  missing_target project_id title description = false ->
  bad_filename (filename file) = false ->
  save_fault env = WriteFails ->
  upload_case_study ep env title description project_id file w =
    (Raise (HTTPException 500 (Fmt (msg_save_failed ep) OSError)),
     set_disk (<[location_of ep file := []]> (disk w)) w).
Proof.
  intros Ht Hn Hs. unfold upload_case_study. rewrite Ht, Hn, Hs. reflexivity.
Qed.

(** C7. A single-file upload whose filename is missing, empty or contains
    a slash or a backslash is answered with a 400 and the world is left
    exactly as it was: nothing is written to disk and no connection is
    opened.  When the request names its target properly the message is
    "Bad filename". *)
Theorem upload_rejects_bad_filename ep env title description project_id file w :
  (forall s, filename file = Some s ->
     s = "" \/ In "/"%char (list_ascii_of_string s)
            \/ In "\"%char (list_ascii_of_string s)) ->
  exists msg,
    upload_case_study ep env title description project_id file w =
      (Raise (HTTPException 400 (Lit msg)), w) /\
    (missing_target project_id title description = false -> msg = "Bad filename").
Proof.
  intros H. apply bad_filename_spec in H.
  unfold upload_case_study. rewrite H.
  destruct (missing_target _ _ _); eexists; (split; [reflexivity|]); done.
Qed.

Lemma upload_rejects_bad_filename_witness :
  (forall s, filename demo_traversal = Some s ->
     s = "" \/ In "/"%char (list_ascii_of_string s)
            \/ In "\"%char (list_ascii_of_string s)) /\
  upload_case_study projects_py demo_env (Some "t") (Some "d") None
    demo_traversal demo_world_empty =
    (Raise (HTTPException 400 (Lit "Bad filename")), demo_world_empty).
Proof.
  assert (H : forall s, filename demo_traversal = Some s ->
     s = "" \/ In "/"%char (list_ascii_of_string s)
            \/ In "\"%char (list_ascii_of_string s)).
  { intros s [= <-]. right. left. simpl. tauto. }
  split; [exact H|].
  destruct (upload_rejects_bad_filename projects_py demo_env (Some "t") (Some "d") None
              demo_traversal demo_world_empty H) as (msg & E & Hmsg).
  rewrite E. by rewrite (Hmsg eq_refl).
Defined.

(** ** upload_case_study_multiple *)

Lemma upload_one_spec ep now pid file ff acc w aborted :
  txn_aborted w = aborted ->
  project_exists pid (txn w) = true ->
  exists w',
    upload_one ep now pid file ff acc w =
      (Return (acc.1 ++ (if blob_saved (file, awaits aborted ff)
                         then [location_of ep file] else []),
               acc.2 ++ (if row_inserted (file, awaits aborted ff)
                         then [files_id_seq w] else [])), w') /\
    committed w' = committed w /\
    tbl_projects (txn w') = tbl_projects (txn w) /\
    tbl_outcomes (txn w') = tbl_outcomes (txn w) /\
    projects_id_seq w' = projects_id_seq w /\
    tbl_files (txn w') =
      tbl_files (txn w) ++
        new_file_rows ep now pid (files_id_seq w) [(file, awaits aborted ff)] /\
    files_id_seq w' =
      files_id_seq w + (if row_inserted (file, awaits aborted ff) then 1 else 0) /\
    (forall p, is_Some (disk w !! p) -> is_Some (disk w' !! p)) /\
    (blob_saved (file, awaits aborted ff) = true ->
     is_Some (disk w' !! location_of ep file)) /\
    txn_aborted w' = aborted || insert_refused (file, awaits aborted ff).
Proof.
  intros Hl Hex. destruct acc as [saved ids].
  assert (Hsave : ff_save (awaits aborted ff) = ff_save ff) by (by destruct aborted).
  unfold upload_one, row_inserted, insert_refused, blob_saved, new_file_rows,
    row_inserted, blob_saved.
  fold (location_of ep file). cbn [fst snd]. rewrite Hsave.
  destruct (bad_filename (filename file)); cbn [negb andb].
  { exists w. rewrite !app_nil_r, Z.add_0_r, orb_false_r. unfold ret.
    repeat split; auto. discriminate. }
  unfold write_file. destruct (ff_save ff).
  - unfold try_except at 1. unfold bind at 1. unfold modify at 1.
    set (w0 := set_disk _ w).
    assert (Hkeep : forall p, is_Some (disk w !! p) -> is_Some (disk w0 !! p)).
    { intros p Hp. subst w0. simpl.
      destruct (decide (location_of ep file = p)) as [->|].
      - by rewrite lookup_insert_eq.
      - by rewrite lookup_insert_ne. }
    assert (Hblob : is_Some (disk w0 !! location_of ep file))
      by (subst w0; simpl; by rewrite lookup_insert_eq).
    assert (Hcases : aborted = false /\ ff_insert ff = InsertOk \/
                     (aborted = true \/ ff_insert ff <> InsertOk)).
    { destruct aborted; [by auto|]. destruct (ff_insert ff); auto. }
    destruct Hcases as [[-> Hi]|Hno].
    + destruct (insert_file_ok now pid (default "" (filename file))
                  (location_of ep file) (content_type file) w0 Hex Hl)
        as (w1 & E1 & Hs1 & Hf1 & Hl1).
      pose proof (insert_file_frame _ _ _ _ _ _ _ _ _ E1) as (Hc1 & Hd1 & Hq1 & Hp1 & Ho1).
      unfold awaits. rewrite Hi. unfold try_except, bind. rewrite E1.
      exists w1. split; [reflexivity|]. cbn [refused andb orb].
      repeat split; try done.
      * intros p Hp. rewrite Hd1. by apply Hkeep.
      * intros _. by rewrite Hd1.
    + destruct (insert_file_raises (ff_insert ff) now pid (default "" (filename file))
                  (location_of ep file) (content_type file) w0)
        as (w1 & E1 & Hc1 & Ht1 & Hd1 & Hq1 & Hs1 & Hl1).
      { change (txn_aborted w0) with (txn_aborted w). rewrite Hl. exact Hno. }
      unfold try_except, bind. rewrite E1. unfold ret.
      exists w1.
      assert (Hrow : match ff_insert (awaits aborted ff) with
                     | InsertOk => true | _ => false end = false).
      { destruct aborted; simpl; [by destruct (ff_insert ff)|].
        destruct Hno as [?|Hne]; [done|]. by destruct (ff_insert ff). }
      rewrite Hrow. rewrite !app_nil_r, Z.add_0_r.
      split; [reflexivity|]. rewrite Ht1.
      repeat split; try done.
      * intros p Hp. rewrite Hd1. by apply Hkeep.
      * intros _. by rewrite Hd1.
      * rewrite Hl1. change (txn_aborted w0) with (txn_aborted w). rewrite Hl.
        destruct aborted; simpl; [done|]. done.
  - monad_unfold. exists w. rewrite !app_nil_r, Z.add_0_r, orb_false_r.
    repeat split; auto. discriminate.
  - monad_unfold. simpl. rewrite !app_nil_r.
    eexists. split; [reflexivity|]. simpl.
    rewrite Z.add_0_r, orb_false_r. repeat split; auto; [|discriminate].
    intros p Hp. destruct (decide (location_of ep file = p)) as [->|].
    + by rewrite lookup_insert_eq.
    + by rewrite lookup_insert_ne.
Qed.

Lemma project_exists_ext pid t t' :
  tbl_projects t' = tbl_projects t -> project_exists pid t' = project_exists pid t.
Proof. unfold project_exists. by intros ->. Qed.

(** The loop never raises; it appends one path per saved blob and one id
    per inserted row, and removes nothing.  The transaction is aborted at
    its end if it was before or if the store has refused an INSERT. *)
Lemma upload_loop_spec ep now pid files : forall faults acc w aborted,
  txn_aborted w = aborted ->
  project_exists pid (txn w) = true ->
  exists w',
    upload_loop ep now pid files faults acc w =
      (Return
         (acc.1 ++ (location_of ep ∘ fst <$>
                      List.filter blob_saved (faults_from aborted files faults)),
          acc.2 ++ (FileRecord.id <$>
                      new_file_rows ep now pid (files_id_seq w)
                        (faults_from aborted files faults))), w') /\
    committed w' = committed w /\
    tbl_projects (txn w') = tbl_projects (txn w) /\
    tbl_outcomes (txn w') = tbl_outcomes (txn w) /\
    projects_id_seq w' = projects_id_seq w /\
    tbl_files (txn w') =
      tbl_files (txn w) ++
        new_file_rows ep now pid (files_id_seq w) (faults_from aborted files faults) /\
    (forall p, is_Some (disk w !! p) -> is_Some (disk w' !! p)) /\
    (forall job, In job (List.filter blob_saved (faults_from aborted files faults)) ->
       is_Some (disk w' !! location_of ep job.1)) /\
    txn_aborted w' =
      aborted || existsb insert_refused (faults_from aborted files faults).
Proof.
  induction files as [|file rest IH]; intros faults acc w aborted Hl Hex.
  - exists w. simpl. rewrite !app_nil_r, orb_false_r. destruct acc. unfold ret.
    repeat split; auto. intros _ [].
  - cbn [upload_loop faults_from]. set (ff := default no_file_fault (head faults)).
    set (job := (file, awaits aborted ff)).
    destruct (upload_one_spec ep now pid file ff acc w aborted Hl Hex)
      as (w1 & E1 & Hc1 & Hp1 & Ho1 & Hs1 & Hf1 & Hq1 & Hd1 & Hb1 & Hl1).
    fold job in E1, Hf1, Hq1, Hb1, Hl1.
    assert (Hex1 : project_exists pid (txn w1) = true)
      by (by rewrite (project_exists_ext pid (txn w) (txn w1))).
    set (acc1 := (acc.1 ++ (if blob_saved job then [location_of ep file] else []),
                  acc.2 ++ (if row_inserted job then [files_id_seq w] else []))) in *.
    destruct (IH (tail faults) acc1 w1 _ Hl1 Hex1)
      as (w2 & E2 & Hc2 & Hp2 & Ho2 & Hs2 & Hf2 & Hd2 & Hb2 & Hl2).
    set (jobs := faults_from (aborted || insert_refused job) rest (tail faults)) in *.
    exists w2. unfold bind at 1. rewrite E1, E2. subst acc1. cbn [fst snd].
    assert (Hrows :
      new_file_rows ep now pid (files_id_seq w) (job :: jobs) =
      new_file_rows ep now pid (files_id_seq w) [job] ++
      new_file_rows ep now pid (files_id_seq w1) jobs).
    { rewrite Hq1. cbn [new_file_rows]. destruct (row_inserted job); simpl.
      - done.
      - by rewrite Z.add_0_r. }
    split.
    { apply (f_equal2 pair); [|done]. apply f_equal. apply (f_equal2 pair).
      - cbn [List.filter]. rewrite <- app_assoc. f_equal.
        destruct (blob_saved job); done.
      - rewrite Hrows, fmap_app, <- app_assoc. f_equal. f_equal.
        cbn [new_file_rows]. destruct (row_inserted job); done. }
    repeat split; try congruence.
    + rewrite Hf2, Hf1, Hrows. by rewrite app_assoc.
    + auto.
    + intros j. cbn [List.filter].
      destruct (blob_saved job) eqn:Hb; [intros [<-|Hin]|]; auto.
    + rewrite Hl2. cbn [existsb]. by rewrite orb_assoc.
Qed.

Lemma remove_saved_result paths : forall faults w r w',
  remove_saved paths faults w = (r, w') ->
  (r = Return tt \/ r = Raise OSError) /\
  committed w' = committed w /\ txn w' = txn w.
Proof.
  induction paths as [|p rest IH]; intros faults w r w'; simpl.
  - unfold ret. intros [= <- <-]. auto.
  - unfold path_exists, os_remove. monad_unfold.
    destruct (default false (head faults)); simpl;
      destruct (bool_decide (is_Some (disk w !! p))) eqn:Hb; simpl;
      rewrite ?Hb; simpl;
      try (intros [= <- <-]; by auto);
      intros H; apply IH in H as (? & ? & ?); auto.
Qed.

(** The handler of the multi-file upload never returns normally, never
    answers 404, and leaves the committed tables alone. *)
Lemma upload_multiple_handler_raises ep env saved e w :
  exists e' w',
    (forall A, @upload_multiple_handler ep env A saved e w = (Raise e', w')) /\
    (e' = HTTPException 500 (Fmt (msg_upload_failed ep) e) \/ e' = OSError) /\
    committed w' = committed w.
Proof.
  unfold upload_multiple_handler, rollback. monad_unfold.
  destruct (remove_saved saved (m_remove_faults env) _) as [[[]|e1] w1] eqn:E;
    apply remove_saved_result in E as ([E|E] & Hc & _); try discriminate.
  - eauto 6.
  - injection E as ->. eauto 6.
Qed.

(** What a successful multi-file upload went through. *)
Lemma upload_multiple_return ep env title description project_id files w r w' :
  upload_case_study_multiple ep env title description project_id files w = (Return r, w') ->
  exists w1 w2 saved,
    resolve_project (m_project_fault env) (m_now env) "multiple_files"
      (msg_no_project_multiple ep) title description project_id
      (set_txn (committed w) w) = (Return (mresp_project_id r), w1) /\
    upload_loop ep (m_now env) (mresp_project_id r) files (m_file_faults env)
      ([], []) w1 = (Return (saved, mresp_file_ids r), w2) /\
    mresp_count r = length saved /\
    committed w' = (if txn_aborted w2 then committed w2 else txn w2) /\
    disk w' = disk w2.
Proof.
  unfold upload_case_study_multiple.
  destruct files as [|file rest]; [discriminate|].
  destruct (missing_target _ _ _); [discriminate|].
  unfold get_db_connection, commit.
  destruct (m_connect_fault env); [discriminate|].
  monad_unfold.
  destruct (resolve_project _ _ _ _ _ _ _ _) as [[pid|e] w1] eqn:E1.
  2:{ destruct (upload_multiple_handler_raises ep env [] e w1) as (e' & w3 & E & _).
      rewrite E. discriminate. }
  destruct (upload_loop _ _ _ _ _ _ w1) as [[[saved ids]|e] w2] eqn:E2.
  2:{ destruct (upload_multiple_handler_raises ep env [] e w2) as (e' & w3 & E & _).
      rewrite E. discriminate. }
  destruct (m_commit_fault env).
  - destruct (upload_multiple_handler_raises ep env saved DatabaseError w2)
      as (e' & w3 & E & _). rewrite E. discriminate.
  - intros [= <- <-]. exists w1, w2, saved.
    do 3 (split; [done|]). by destruct (txn_aborted w2).
Qed.

(** When a multi-file upload goes through. *)
Lemma upload_multiple_succeeds ep env title description project_id files w :
  files <> [] ->
  missing_target project_id title description = false ->
  (forall p, project_id = Some p -> project_exists p (committed w) = true) ->
  m_connect_fault env = false ->
  m_project_fault env = false ->
  m_commit_fault env = false ->
  exists r w',
    upload_case_study_multiple ep env title description project_id files w = (Return r, w').
Proof.
  intros Hf Hm Hp Hc Hpf Hcm.
  unfold upload_case_study_multiple.
  destruct files as [|file rest]; [done|].
  rewrite Hm, Hc, Hpf, Hcm. unfold get_db_connection, commit. monad_unfold.
  destruct (resolve_project_ok (m_now env) "multiple_files" (msg_no_project_multiple ep)
              title description project_id (set_txn (committed w) w) Hm Hp eq_refl)
    as (pid & w1 & E1).
  rewrite E1.
  pose proof (resolve_project_live _ _ _ _ _ _ _ _ _ _ E1) as (_ & Hl1).
  apply resolve_project_return in E1 as (Hex & _).
  destruct (upload_loop_spec ep (m_now env) pid (file :: rest) (m_file_faults env)
              ([], []) w1 false Hl1 Hex) as (w2 & E2 & _).
  rewrite E2. eauto.
Qed.

Lemma new_file_rows_length ep now pid jobs : forall next_id,
  length (new_file_rows ep now pid next_id jobs) =
  length (List.filter row_inserted jobs).
Proof.
  induction jobs as [|job rest IH]; intros next_id; simpl; [done|].
  destruct (row_inserted job); simpl; by rewrite IH.
Qed.

Lemma new_file_rows_fields ep now pid jobs : forall next_id,
  Forall (fun row => FileRecord.project_id row = pid) (new_file_rows ep now pid next_id jobs) /\
  FileRecord.filepath <$> new_file_rows ep now pid next_id jobs =
    (location_of ep ∘ fst <$> List.filter row_inserted jobs).
Proof.
  induction jobs as [|job rest IH]; intros next_id; simpl; [by split|].
  destruct (row_inserted job); simpl; [|apply IH].
  destruct (IH (next_id + 1)) as [H1 H2]. split; [by constructor |].
  f_equal. exact H2.
Qed.

(** What a multi-file upload that goes through leaves behind.  A file
    with an invalid name, a file whose blob cannot be saved and a file
    whose INSERT fails is passed over; no blob that was on disk before or
    was saved by this request is removed; the response carries the number
    of saved blobs and the ids handed out to the inserted rows.  Whether
    those rows and an implicitly created project are stored depends on the
    transaction: if the store has refused an INSERT of the batch it is
    aborted, and the commit stores nothing. *)
Lemma upload_multiple_run ep env title description project_id files w :
  files <> [] ->
  missing_target project_id title description = false ->
  (forall p, project_id = Some p -> project_exists p (committed w) = true) ->
  m_connect_fault env = false ->
  m_project_fault env = false ->
  m_commit_fault env = false ->
  exists r w',
    upload_case_study_multiple ep env title description project_id files w = (Return r, w') /\
    mresp_count r =
      length (List.filter blob_saved (pair_faults files (m_file_faults env))) /\
    mresp_file_ids r =
      (FileRecord.id <$>
         new_file_rows ep (m_now env) (mresp_project_id r) (files_id_seq w)
           (pair_faults files (m_file_faults env))) /\
    (forall p, is_Some (disk w !! p) -> is_Some (disk w' !! p)) /\
    (forall job,
       In job (List.filter blob_saved (pair_faults files (m_file_faults env))) ->
       is_Some (disk w' !! location_of ep job.1)) /\
    match project_id with
    | Some p => mresp_project_id r = p
    | None => mresp_project_id r = projects_id_seq w /\ is_Some title
    end /\
    if batch_aborted files (m_file_faults env) then committed w' = committed w
    else
      tbl_files (committed w') =
        tbl_files (committed w) ++
          new_file_rows ep (m_now env) (mresp_project_id r) (files_id_seq w)
            (pair_faults files (m_file_faults env)) /\
      tbl_outcomes (committed w') = tbl_outcomes (committed w) /\
      tbl_projects (committed w') =
        tbl_projects (committed w) ++
          match project_id with
          | Some _ => []
          | None =>
            [Project.mk (mresp_project_id r) (default "" title) description
               (Some "multiple_files") None None None None None None None (m_now env)]
          end.
Proof.
  intros Hf Hm Hp Hc Hpf Hcm.
  destruct (upload_multiple_succeeds ep env title description project_id files w
              Hf Hm Hp Hc Hpf Hcm) as (r & w' & E).
  exists r, w'. split; [exact E|].
  apply upload_multiple_return in E as (w1 & w2 & saved & E1 & E2 & Hcount & Hcw & Hdw).
  pose proof (resolve_project_frame _ _ _ _ _ _ _ _ _ _ E1) as (Hc1 & Hd1 & Hs1 & Hf1 & Ho1).
  pose proof (resolve_project_return _ _ _ _ _ _ _ _ _ _ E1) as (Hex & Hproj).
  pose proof (resolve_project_live _ _ _ _ _ _ _ _ _ _ E1) as (_ & Hl1).
  destruct (upload_loop_spec ep (m_now env) (mresp_project_id r) files
              (m_file_faults env) ([], []) w1 false Hl1 Hex)
    as (w2' & E2' & Hc2 & Hp2 & Ho2 & Hs2 & Hf2 & Hd2 & Hb2 & Hl2).
  change (faults_from false files (m_file_faults env))
    with (pair_faults files (m_file_faults env)) in *.
  rewrite E2 in E2'. injection E2' as Hsaved Hids <-. simpl in Hsaved, Hids.
  simpl in Hc1, Hf1, Hd1, Ho1. rewrite Hs1 in *.
  split; [by rewrite Hcount, Hsaved, length_fmap|].
  split; [exact Hids|].
  split; [intros p Hq; rewrite Hdw; apply Hd2; by rewrite Hd1|].
  split; [intros job Hj; rewrite Hdw; by apply Hb2|].
  split.
  { destruct project_id as [p|].
    - by destruct Hproj as [-> _].
    - destruct Hproj as (t & -> & -> & _). split; [done | by eexists]. }
  rewrite Hl2 in Hcw. cbn [orb] in Hcw. fold (batch_aborted files (m_file_faults env)) in Hcw.
  destruct (batch_aborted files (m_file_faults env)).
  - by rewrite Hcw, Hc2, Hc1.
  - rewrite Hcw, Hf2, Hf1, Ho2, Ho1, Hp2. split; [done|]. split; [done|].
    destruct project_id as [p|].
    + destruct Hproj as [_ ->]. by rewrite app_nil_r.
    + by destruct Hproj as (t & -> & _ & ->).
Qed.

(** C4. A multi-file upload is expected to pass over a file whose INSERT
    fails and to store the others.  When the store refuses the INSERT of a
    file, PostgreSQL aborts the transaction of the batch: the loop swallows
    the exception and goes on, every later INSERT is refused as well, and
    the commit ends the transaction without storing anything.  The
    request still answers with success, with the number of saved blobs and
    the ids handed out before the refusal; but no row of the batch is
    stored, not even those of the files before the refused one, and
    neither is an implicitly created project; the blobs stay on disk. *)
Theorem upload_multiple_refused_insert_loses_batch
    ep env title description project_id files w :
  files <> [] ->
  missing_target project_id title description = false ->
  (forall p, project_id = Some p -> project_exists p (committed w) = true) ->
  m_connect_fault env = false ->
  m_project_fault env = false ->
  m_commit_fault env = false ->
  batch_aborted files (m_file_faults env) = true ->
  exists r w',
    upload_case_study_multiple ep env title description project_id files w = (Return r, w') /\
    mresp_count r =
      length (List.filter blob_saved (pair_faults files (m_file_faults env))) /\
    length (mresp_file_ids r) =
      length (List.filter row_inserted (pair_faults files (m_file_faults env))) /\
    committed w' = committed w /\
    (forall job,
       In job (List.filter blob_saved (pair_faults files (m_file_faults env))) ->
       is_Some (disk w' !! location_of ep job.1)) /\
    (project_id = None -> mresp_project_id r = projects_id_seq w).
Proof.
  intros Hf Hm Hp Hc Hpf Hcm Hab.
  destruct (upload_multiple_run ep env title description project_id files w
              Hf Hm Hp Hc Hpf Hcm)
    as (r & w' & E & Hcount & Hids & _ & Hblobs & Hpid & Hstored).
  rewrite Hab in Hstored.
  exists r, w'. split; [exact E|]. split; [exact Hcount|].
  split; [by rewrite Hids, length_fmap, new_file_rows_length|].
  split; [exact Hstored|]. split; [exact Hblobs|].
  intros ->. by destruct Hpid.
Qed.

Lemma upload_multiple_refused_insert_loses_batch_witness :
  demo_batch <> [] /\
  missing_target None (Some "Flood Response") (Some "desc") = false /\
  m_connect_fault demo_multi_env_insert_refused = false /\
  m_project_fault demo_multi_env_insert_refused = false /\
  m_commit_fault demo_multi_env_insert_refused = false /\
  batch_aborted demo_batch (m_file_faults demo_multi_env_insert_refused) = true /\
  exists w',
    upload_case_study_multiple projects_py demo_multi_env_insert_refused
      (Some "Flood Response") (Some "desc") None demo_batch demo_world_empty =
      (Return (mkMultiResponse 3 1 [1]), w') /\
    committed w' = no_tables /\
    is_Some (disk w' !! "uploads/a.txt") /\
    is_Some (disk w' !! "uploads/b.txt") /\
    is_Some (disk w' !! "uploads/c.txt").
Proof.
  split; [done|]. do 5 (split; [reflexivity|]).
  destruct (upload_multiple_refused_insert_loses_batch projects_py
              demo_multi_env_insert_refused (Some "Flood Response") (Some "desc")
              None demo_batch demo_world_empty)
    as (r & w' & E & _ & _ & Hcommitted & Hblobs & _); try done.
  exists w'. split.
  { rewrite E. f_equal. f_equal. vm_compute in E. by injection E as <- _. }
  split; [exact Hcommitted|].
  split; [apply (Hblobs (demo_file "a.txt", no_file_fault)); simpl; tauto|].
  split; [apply (Hblobs (demo_file "b.txt", mkFileFault DiskOk StoreRefuses));
          simpl; tauto|].
  apply (Hblobs (demo_file "c.txt", mkFileFault DiskOk StoreRefuses)); simpl; tauto.
Defined.

(** Unless the store refuses an INSERT, the batch is stored file by file:
    the files table grows by exactly the rows of the files that were saved
    and inserted, in order, and an implicitly created project is one new
    row for the whole batch. *)
Lemma upload_multiple_skips_failed_files ep env title description project_id files w :
  files <> [] ->
  missing_target project_id title description = false ->
  (forall p, project_id = Some p -> project_exists p (committed w) = true) ->
  m_connect_fault env = false ->
  m_project_fault env = false ->
  m_commit_fault env = false ->
  batch_aborted files (m_file_faults env) = false ->
  exists r w',
    upload_case_study_multiple ep env title description project_id files w = (Return r, w') /\
    mresp_count r =
      length (List.filter blob_saved (pair_faults files (m_file_faults env))) /\
    (exists rows,
       tbl_files (committed w') = tbl_files (committed w) ++ rows /\
       rows = new_file_rows ep (m_now env) (mresp_project_id r) (files_id_seq w)
                (pair_faults files (m_file_faults env)) /\
       mresp_file_ids r = FileRecord.id <$> rows /\
       FileRecord.filepath <$> rows =
         (location_of ep ∘ fst <$>
            List.filter row_inserted (pair_faults files (m_file_faults env))) /\
       Forall (fun row => FileRecord.project_id row = mresp_project_id r) rows) /\
    (forall p, is_Some (disk w !! p) -> is_Some (disk w' !! p)) /\
    tbl_outcomes (committed w') = tbl_outcomes (committed w) /\
    match project_id with
    | Some p =>
      mresp_project_id r = p /\
      tbl_projects (committed w') = tbl_projects (committed w)
    | None =>
      exists t, title = Some t /\
        tbl_projects (committed w') =
          tbl_projects (committed w) ++
            [Project.mk (mresp_project_id r) t description (Some "multiple_files")
               None None None None None None None (m_now env)]
    end.
Proof.
  intros Hf Hm Hp Hc Hpf Hcm Hab.
  destruct (upload_multiple_run ep env title description project_id files w
              Hf Hm Hp Hc Hpf Hcm)
    as (r & w' & E & Hcount & Hids & Hkeep & _ & Hpid & Hstored).
  rewrite Hab in Hstored. destruct Hstored as (Hfiles & Houtcomes & Hprojects).
  destruct (new_file_rows_fields ep (m_now env) (mresp_project_id r)
              (pair_faults files (m_file_faults env)) (files_id_seq w)) as [Hrow Hpath].
  exists r, w'. split; [exact E|]. split; [exact Hcount|].
  split; [eexists; split; [exact Hfiles|]; split; [reflexivity|]; done|].
  split; [exact Hkeep|]. split; [exact Houtcomes|].
  destruct project_id as [p|].
  - split; [done|]. by rewrite Hprojects, app_nil_r.
  - destruct Hpid as [_ [t ->]]. exists t. split; [done|]. exact Hprojects.
Qed.

(** Three files, the second of which cannot be opened for writing: the
    other two are stored, with one new project. *)
Example upload_multiple_skips_unsaved_file :
  exists r w',
    upload_case_study_multiple projects_py demo_multi_env
      (Some "Flood Response") (Some "desc") None demo_batch demo_world_empty =
      (Return r, w') /\
    mresp_count r = 2%nat /\
    mresp_file_ids r = [1; 2] /\
    FileRecord.filename <$> tbl_files (committed w') = ["a.txt"; "c.txt"] /\
    length (tbl_projects (committed w')) = 1%nat.
Proof.
  destruct (upload_multiple_skips_failed_files projects_py demo_multi_env
              (Some "Flood Response") (Some "desc") None demo_batch demo_world_empty)
    as (r & w' & E & Hcount & (rows & Hfiles & Hrows & Hids & _) & _ & _ & Hproj);
    try done.
  exists r, w'. split; [exact E|].
  destruct Hproj as (t & _ & Hproj).
  split; [exact Hcount|].
  split; [by rewrite Hids, Hrows|].
  split; [by rewrite Hfiles, Hrows|].
  by rewrite Hproj.
Qed.

(** C3. A multi-file upload that names a project which does not exist is
    expected to be aborted with NotFound before any blob is touched.  The
    blob store is indeed untouched, and so are the tables; but the 404
    raised inside the [try] is caught by the endpoint's own
    [except Exception] handler and surfaces as a 500 that only quotes it. *)
Theorem upload_multiple_missing_project ep env title description p files w :
  files <> [] ->
  project_exists p (committed w) = false ->
  m_connect_fault env = false ->
  m_project_fault env = false ->
  upload_case_study_multiple ep env title description (Some p) files w =
    (Raise (HTTPException 500
              (Fmt (msg_upload_failed ep)
                 (HTTPException 404 (Lit (msg_no_project_multiple ep))))),
     close w) /\
  disk (close w) = disk w /\
  committed (close w) = committed w.
Proof.
  intros Hf Hex Hc Hpf. split; [|done].
  unfold upload_case_study_multiple.
  destruct files as [|file rest]; [done|]. cbn [missing_target].
  rewrite Hc, Hpf. unfold get_db_connection. monad_unfold.
  rewrite resolve_project_missing by done.
  reflexivity.
Qed.

Lemma upload_multiple_missing_project_witness :
  demo_batch <> [] /\
  project_exists 7 (committed demo_world_empty) = false /\
  m_connect_fault demo_multi_env = false /\
  m_project_fault demo_multi_env = false /\
  upload_case_study_multiple projects_py demo_multi_env None None (Some 7)
    demo_batch demo_world_empty =
    (Raise (HTTPException 500
              (Fmt "Upload messed up: " (HTTPException 404 (Lit "Project missing")))),
     demo_world_empty).
Proof.
  do 4 (split; [done|]).
  exact (proj1 (upload_multiple_missing_project projects_py demo_multi_env None None 7
                  demo_batch demo_world_empty ltac:(done) eq_refl eq_refl eq_refl)).
Defined.

(** No execution of the multi-file upload answers 404. *)
Lemma upload_multiple_never_404 ep env title description project_id files w e w' :
  upload_case_study_multiple ep env title description project_id files w = (Raise e, w') ->
  status_of e <> Some 404.
Proof.
  unfold upload_case_study_multiple.
  destruct files as [|file rest]; [by intros [= <- <-]|].
  destruct (missing_target _ _ _); [by intros [= <- <-]|].
  unfold get_db_connection, commit.
  destruct (m_connect_fault env); [by intros [= <- <-]|].
  monad_unfold.
  destruct (resolve_project _ _ _ _ _ _ _ _) as [[pid|e1] w1].
  2:{ destruct (upload_multiple_handler_raises ep env [] e1 w1) as (e' & w3 & E & He & _).
      rewrite E. intros [= <- <-]. by destruct He as [-> | ->]. }
  destruct (upload_loop _ _ _ _ _ _ w1) as [[[saved ids]|e1] w2].
  2:{ destruct (upload_multiple_handler_raises ep env [] e1 w2) as (e' & w3 & E & He & _).
      rewrite E. intros [= <- <-]. by destruct He as [-> | ->]. }
  destruct (m_commit_fault env); [|discriminate].
  destruct (upload_multiple_handler_raises ep env saved DatabaseError w2)
    as (e' & w3 & E & He & _).
  rewrite E. intros [= <- <-]. by destruct He as [-> | ->].
Qed.

(** C10. A project created by a single-file upload gets the location
    "unspecified", one created by a multi-file upload gets the location
    "multiple_files"; the two sentinels differ.  In both cases it is the
    one row added to the projects table and its id is the one returned.
    (A batch in which the store has refused an INSERT returns as well, but
    stores nothing, its project included.) *)
Theorem implicit_project_location ep :
  (forall env title description file w r w',
     upload_case_study ep env title description None file w = (Return r, w') ->
     exists t, title = Some t /\
       tbl_projects (committed w') =
         tbl_projects (committed w) ++
           [Project.mk (resp_project_id r) t description (Some "unspecified")
              None None None None None None None (now env)]) /\
  (forall env title description files w r w',
     upload_case_study_multiple ep env title description None files w = (Return r, w') ->
     exists t, title = Some t /\
       if batch_aborted files (m_file_faults env) then committed w' = committed w
       else
         tbl_projects (committed w') =
           tbl_projects (committed w) ++
             [Project.mk (mresp_project_id r) t description (Some "multiple_files")
                None None None None None None None (m_now env)]) /\
  "unspecified" <> "multiple_files".
Proof.
  split; [|split; [|discriminate]].
  - intros env title description file w r w'.
    unfold upload_case_study.
    destruct (missing_target _ _ _); [discriminate|].
    destruct (bad_filename _); [discriminate|].
    unfold write_file, get_db_connection. monad_unfold.
    destruct (save_fault env); simpl; try discriminate.
    destruct (connect_fault env); simpl; [discriminate|].
    destruct (upload_transaction _ _ _ _ _ _ _ _) as [[r1|e1] w1] eqn:E.
    2:{ unfold upload_cleanup, rollback, path_exists, os_remove. monad_unfold. simpl.
        destruct (bool_decide _); simpl; [|discriminate].
        destruct (remove_fault env); simpl; [discriminate|].
        destruct (bool_decide _); discriminate. }
    intros [= <- <-].
    apply upload_transaction_return in E as (w2 & E1 & Hp & _).
    apply resolve_project_return in E1 as (_ & t & -> & _ & Hnew).
    exists t. split; [done|]. simpl. by rewrite Hp, Hnew.
  - intros env title description files w r w' E.
    apply upload_multiple_return in E as (w1 & w2 & saved & E1 & E2 & _ & Hcw & _).
    pose proof (resolve_project_frame _ _ _ _ _ _ _ _ _ _ E1) as (Hc1 & _).
    pose proof (resolve_project_live _ _ _ _ _ _ _ _ _ _ E1) as (_ & Hl1).
    pose proof (resolve_project_return _ _ _ _ _ _ _ _ _ _ E1) as (Hex & t & -> & _ & Hnew).
    destruct (upload_loop_spec ep (m_now env) (mresp_project_id r) files
                (m_file_faults env) ([], []) w1 false Hl1 Hex)
      as (w2' & E2' & Hc2 & Hp2 & _ & _ & _ & _ & _ & Hl2).
    rewrite E2 in E2'. injection E2' as _ _ <-.
    exists t. split; [done|].
    rewrite Hl2 in Hcw. cbn [orb] in Hcw.
    fold (pair_faults files (m_file_faults env)) in Hcw.
    fold (batch_aborted files (m_file_faults env)) in Hcw.
    destruct (batch_aborted files (m_file_faults env)).
    + by rewrite Hcw, Hc2, Hc1.
    + by rewrite Hcw, Hp2, Hnew.
Qed.

Lemma implicit_project_location_witness :
  (exists r w',
     upload_case_study projects_py demo_env (Some "t") (Some "d") None
       demo_report demo_world_empty = (Return r, w') /\
     Project.location <$> tbl_projects (committed w') = [Some "unspecified"]) /\
  (exists r w',
     upload_case_study_multiple projects_py demo_multi_env (Some "t") (Some "d") None
       demo_batch demo_world_empty = (Return r, w') /\
     Project.location <$> tbl_projects (committed w') = [Some "multiple_files"]).
Proof.
  split.
  - destruct (upload_case_study projects_py demo_env (Some "t") (Some "d") None
                demo_report demo_world_empty) as [[r|e] w'] eqn:E;
      [|vm_compute in E; discriminate].
    exists r, w'. split; [reflexivity|].
    destruct (proj1 (implicit_project_location projects_py) demo_env (Some "t") (Some "d")
                demo_report demo_world_empty r w' E) as (t & _ & H).
    by rewrite H.
  - destruct (upload_case_study_multiple projects_py demo_multi_env (Some "t") (Some "d")
                None demo_batch demo_world_empty) as [[r|e] w'] eqn:E;
      [|vm_compute in E; discriminate].
    exists r, w'. split; [reflexivity|].
    destruct (proj1 (proj2 (implicit_project_location projects_py)) demo_multi_env
                (Some "t") (Some "d") demo_batch demo_world_empty r w' E)
      as (t & _ & H).
    change (batch_aborted demo_batch (m_file_faults demo_multi_env)) with false in H.
    by rewrite H.
Defined.

(** ** delete_project *)

Lemma remove_one_spec file fault deleted w :
  exists deleted' w',
    remove_one file fault deleted w = (Return deleted', w') /\
    committed w' = committed w /\ txn w' = txn w /\
    (forall p, is_Some (disk w' !! p) -> is_Some (disk w !! p)) /\
    (forall p, p <> file.2 -> disk w' !! p = disk w !! p).
Proof.
  unfold remove_one, path_exists, os_remove. monad_unfold.
  destruct (bool_decide (is_Some (disk w !! file.2))) eqn:Hb; simpl.
  - destruct fault; simpl.
    + exists deleted, w. auto.
    + rewrite Hb. simpl. eexists _, _. split; [reflexivity|]. simpl.
      repeat split; auto.
      * intros p. destruct (decide (file.2 = p)) as [<-|].
        -- rewrite lookup_delete_eq. by intros [? [=]].
        -- by rewrite lookup_delete_ne.
      * intros p Hp. by rewrite lookup_delete_ne.
  - exists deleted, w. auto.
Qed.

(** The cleanup loop never raises and touches nothing but the disk, from
    which it only removes blobs of the selected rows. *)
Lemma remove_blobs_spec rows : forall faults deleted w,
  exists deleted' w',
    remove_blobs rows faults deleted w = (Return deleted', w') /\
    committed w' = committed w /\ txn w' = txn w /\
    (forall p, is_Some (disk w' !! p) -> is_Some (disk w !! p)) /\
    (forall p, p ∉ rows.*2 -> disk w' !! p = disk w !! p).
Proof.
  induction rows as [|file rest IH]; intros faults deleted w.
  - exists deleted, w. simpl. unfold ret. auto.
  - cbn [remove_blobs]. unfold bind.
    destruct (remove_one_spec file (default false (head faults)) deleted w)
      as (d1 & w1 & -> & Hc1 & Ht1 & Hd1 & Hk1).
    destruct (IH (tail faults) d1 w1) as (d2 & w2 & E2 & Hc2 & Ht2 & Hd2 & Hk2).
    exists d2, w2. split; [exact E2|].
    repeat split; try congruence.
    + auto.
    + intros p Hp. rewrite fmap_cons in Hp.
      apply not_elem_of_cons in Hp as [Hne Hrest].
      by rewrite Hk2, Hk1.
Qed.

(** The cleanup loop has nothing to do with the transaction. *)
Lemma remove_blobs_live rows : forall faults deleted w r w',
  remove_blobs rows faults deleted w = (r, w') ->
  txn_aborted w' = txn_aborted w.
Proof.
  induction rows as [|file rest IH]; intros faults deleted w r w'.
  - simpl. unfold ret. by intros [= _ <-].
  - cbn [remove_blobs]. unfold bind.
    destruct (remove_one file _ deleted w) as [[d1|e1] w1] eqn:E1.
    + intros E2. apply IH in E2. rewrite E2. clear E2. revert E1.
      unfold remove_one, path_exists, os_remove. monad_unfold.
      destruct (bool_decide (is_Some (disk w !! file.2))) eqn:Hb; simpl;
        [|by intros [= _ <-]].
      destruct (default false (head faults)); simpl; [by intros [= _ <-]|].
      rewrite Hb. simpl. by intros [= _ <-].
    + destruct (remove_one_spec file (default false (head faults)) deleted w)
        as (d1 & w2 & E & _). rewrite E in E1. discriminate.
Qed.

(** C5. Without the confirmation flag [delete_project] answers 400 at once:
    no connection is opened, no row and no blob is touched. *)
Theorem delete_requires_confirmation env project_id w :
  delete_project env project_id false w =
    (Raise (HTTPException 400 (Lit "Gotta confirm=True to delete")), w).
Proof. reflexivity. Qed.

(** C2. Deleting, with the confirmation flag, a project that does not
    exist is expected to fail with NotFound after the blob cleanup.  The
    cleanup loop has indeed run when the failure surfaces, and what it
    removed from disk stays removed while the tables are rolled back; but
    the 404 raised inside the [try] is caught by the endpoint's own
    [except Exception] handler and surfaces as a 500 that only quotes it. *)
Theorem delete_missing_project env project_id w :
  project_exists project_id (committed w) = false ->
  d_connect_fault env = false ->
  d_select_fault env = false ->
  d_delete_files_fault env = false ->
  d_delete_project_fault env = false ->
  exists deleted w1 w',
    remove_blobs
      ((fun f => (FileRecord.id f, FileRecord.filepath f)) <$>
         filter (fun f => FileRecord.project_id f = project_id) (tbl_files (committed w)))
      (d_remove_faults env) [] (set_txn (committed w) w) = (Return deleted, w1) /\
    delete_project env project_id true w =
      (Raise (HTTPException 500
                (Fmt "Error deleting: " (HTTPException 404 (Lit "No project found")))),
       w') /\
    disk w' = disk w1 /\
    committed w' = committed w.
Proof.
  intros Hex Hc Hs Hdf Hdp.
  unfold delete_project, delete_transaction. cbn [negb].
  rewrite Hc, Hs, Hdf, Hdp.
  unfold get_db_connection, select_files_of, delete_files_of, delete_project_row, rollback.
  monad_unfold. cbn [txn txn_aborted set_txn].
  set (rows := _ <$> filter _ _).
  destruct (remove_blobs_spec rows (d_remove_faults env) [] (set_txn (committed w) w))
    as (deleted & w1 & E & Hc1 & Ht1 & _).
  rewrite E. exists deleted, w1.
  pose proof (remove_blobs_live _ _ _ _ _ _ E) as Hl1.
  cbn [txn_aborted set_txn] in Hl1.
  destruct rows as [|row rest]; cbv beta iota; rewrite Hl1;
    cbn [txn txn_aborted set_txn tbl_projects].
  - rewrite (project_exists_ext project_id (committed w) (txn w1)), Hex
      by (by rewrite Ht1).
    eexists. split; [done|]. split; [reflexivity|]. done.
  - rewrite (project_exists_ext project_id (committed w)), Hex
      by (by rewrite Ht1).
    eexists. split; [done|]. split; [reflexivity|]. done.
Qed.

Lemma delete_missing_project_witness :
  project_exists 7 (committed demo_world) = false /\
  d_connect_fault demo_delete_env = false /\
  d_select_fault demo_delete_env = false /\
  d_delete_files_fault demo_delete_env = false /\
  d_delete_project_fault demo_delete_env = false /\
  delete_project demo_delete_env 7 true demo_world =
    (Raise (HTTPException 500
              (Fmt "Error deleting: " (HTTPException 404 (Lit "No project found")))),
     demo_world).
Proof.
  do 5 (split; [done|]).
  destruct (delete_missing_project demo_delete_env 7 demo_world
              eq_refl eq_refl eq_refl eq_refl eq_refl)
    as (deleted & w1 & w' & _ & E & _).
  rewrite E. vm_compute in E. by injection E as <-.
Defined.

(** No execution of [delete_project] answers 404. *)
Lemma delete_project_never_404 env project_id confirm w e w' :
  delete_project env project_id confirm w = (Raise e, w') ->
  status_of e <> Some 404.
Proof.
  unfold delete_project, get_db_connection, rollback.
  destruct confirm; simpl; [|by intros [= <- <-]].
  destruct (d_connect_fault env); simpl; [by intros [= <- <-]|].
  monad_unfold.
  destruct (delete_transaction _ _ _) as [[r|e1] w1]; [discriminate|].
  by intros [= <- <-].
Qed.

(** ** list_projects *)

Global Instance newer_first_trans : Transitive newer_first.
Proof. unfold newer_first. intros x y z ? ?. lia. Qed.

Global Instance newer_first_total : Total newer_first.
Proof. unfold newer_first. intros x y. lia. Qed.

Lemma normalized_view_columns p : normalized_view p (fix_nulls (select_columns p)).
Proof.
  unfold normalized_view. destruct p as [? ? ? ? ? ? cs hz org ? ? ?]. simpl.
  repeat split; by (destruct cs || destruct hz || destruct org).
Qed.

(** C8, as the code has it.  Without faults [list_projects] returns every
    stored project, newest first by created_at.  Null community_size,
    hazard_types and implementing_org are returned as 0, the empty list
    and the empty string; description, location, author and source (and
    the dates) are returned as stored, null included. *)
Theorem list_projects_newest_first w :
  exists ps stored,
    list_projects false false w = (Return ps, close w) /\
    StronglySorted newer_first ps /\
    stored ≡ₚ tbl_projects (committed w) /\
    Forall2 normalized_view stored ps.
Proof.
  unfold list_projects, select_projects, get_db_connection. monad_unfold. simpl.
  eexists _, (merge_sort newer_first (tbl_projects (committed w))).
  split; [reflexivity|]. split; [|split].
  - rewrite <- list_fmap_compose.
    apply (StronglySorted_fmap _ newer_first newer_first).
    + intros x y. unfold newer_first. by destruct x, y.
    + apply (StronglySorted_merge_sort newer_first).
  - apply merge_sort_Permutation.
  - rewrite <- list_fmap_compose. apply Forall2_fmap_r, Forall_Forall2_diag.
    apply Forall_forall. intros p _. apply normalized_view_columns.
Qed.

(** C8, as stated, fails: the project that an upload creates on the fly is
    listed with its null author. *)
Lemma list_projects_null_text_counterexample :
  ~ lists_without_nulls demo_world_uploaded.
Proof.
  intros H.
  specialize (H _ _ eq_refl). apply Forall_inv in H.
  destruct H as (_ & _ & _ & _ & _ & Hauthor & _). by apply Hauthor.
Qed.

Example demo_world_uploaded_reachable :
  tbl_projects (committed
    (upload_case_study projects_py demo_env (Some "t") (Some "d") None
       demo_report demo_world_empty).2) = [demo_implicit_project].
Proof. vm_compute. reflexivity. Qed.

(** ** Outcome endpoints *)

(** Three of the four statements of the module are sent with remarks in
    their text. *)
Lemma outcome_statements_with_remarks :
  has_remark sql_create_outcome = true /\
  has_remark sql_get_project_outcome = true /\
  has_remark sql_update_outcome = true /\
  has_remark sql_delete_outcome = false.
Proof. repeat split; reflexivity. Qed.

(** The store refuses such a statement whatever its arguments. *)
Lemma select_latest_outcome_refused fault pid w :
  txn_aborted w = false ->
  select_latest_outcome fault pid w = (Raise DatabaseError, abort_txn w).
Proof.
  intros Hl. unfold select_latest_outcome.
  rewrite (execute_live _ _ _ Hl).
  by rewrite (proj1 (proj2 outcome_statements_with_remarks)).
Qed.

Lemma update_outcome_row_refused fault oid u w :
  txn_aborted w = false ->
  update_outcome_row fault oid u w = (Raise DatabaseError, abort_txn w).
Proof.
  intros Hl. unfold update_outcome_row.
  rewrite (execute_live _ _ _ Hl).
  by rewrite (proj1 (proj2 (proj2 outcome_statements_with_remarks))).
Qed.

Lemma insert_outcome_refused fault now outcome w :
  txn_aborted w = false ->
  insert_outcome fault now outcome w = (Raise DatabaseError, abort_txn w).
Proof.
  intros Hl. unfold insert_outcome.
  rewrite (execute_live _ _ _ Hl).
  by rewrite (proj1 outcome_statements_with_remarks).
Qed.

(** With the store reachable every call of [get_project_outcome] ends in
    the handler of the endpoint, with the error of the store. *)
Lemma get_project_outcome_run connect_fault select_fault project_id w :
  get_project_outcome connect_fault select_fault project_id w =
    if connect_fault
    then (Raise (HTTPException 500 (Fmt "Database connection failed: " DatabaseError)), w)
    else (Raise (HTTPException 500 (Fmt "" DatabaseError)), close w).
Proof.
  unfold get_project_outcome, get_db_connection.
  destruct connect_fault; [done|].
  unfold bind at 1. unfold modify at 1. unfold finally, try_except.
  unfold bind. by rewrite select_latest_outcome_refused.
Qed.

(** C9. Reading the latest outcome of a project is expected to return its
    newest outcome, and to fail with NotFound when it has none.  The
    SELECT is sent with [#] remarks in its text and the store refuses it:
    no call returns an outcome and none answers 404.  With the store
    reachable every call is answered with a 500 that quotes the error of
    the store, whether the project has outcomes or not; the 404 of the
    endpoint is not reached.  Nothing is changed. *)
Theorem get_project_outcome_refused connect_fault select_fault project_id w r w' :
  get_project_outcome connect_fault select_fault project_id w = (r, w') ->
  (exists e, r = Raise e /\ status_of e = Some 500) /\
  (connect_fault = false -> r = Raise (HTTPException 500 (Fmt "" DatabaseError))) /\
  committed w' = committed w /\ disk w' = disk w.
Proof.
  rewrite get_project_outcome_run.
  destruct connect_fault; intros [= <- <-].
  - split; [eauto|]. split; [discriminate | done].
  - split; [eauto|]. done.
Qed.

Lemma get_project_outcome_refused_witness :
  (demo_outcome ∈ tbl_outcomes (committed demo_world) /\
   Outcome.project_id demo_outcome = 1 /\
   (get_project_outcome false false 1 demo_world).1 =
     Raise (HTTPException 500 (Fmt "" DatabaseError))) /\
  ((forall o, o ∈ tbl_outcomes (committed demo_world) -> Outcome.project_id o <> 7) /\
   (get_project_outcome false false 7 demo_world).1 =
     Raise (HTTPException 500 (Fmt "" DatabaseError))).
Proof.
  split.
  - split; [by left|]. split; [reflexivity|].
    destruct (get_project_outcome false false 1 demo_world) as [r w'] eqn:E.
    destruct (get_project_outcome_refused _ _ _ _ _ _ E) as (_ & Hr & _).
    exact (Hr eq_refl).
  - split.
    + intros o Ho. simpl in Ho. apply list_elem_of_singleton in Ho. by subst.
    + destruct (get_project_outcome false false 7 demo_world) as [r w'] eqn:E.
      destruct (get_project_outcome_refused _ _ _ _ _ _ E) as (_ & Hr & _).
      exact (Hr eq_refl).
Defined.

(** The SET clause of the UPDATE is written to keep what the request
    omits. *)
Lemma retains_apply_update u o : retains u o (apply_update u o).
Proof.
  unfold retains, apply_update, coalesce_column. simpl.
  repeat split; by intros ->.
Qed.

(** With the store reachable every call of [update_outcome] ends in the
    handler of the endpoint, with the error of the store. *)
Lemma update_outcome_run env outcome_id u w :
  update_outcome env outcome_id u w =
    if u_connect_fault env
    then (Raise (HTTPException 500 (Fmt "Database connection failed: " DatabaseError)), w)
    else (Raise (HTTPException 400 (Fmt "" DatabaseError)), close w).
Proof.
  unfold update_outcome, get_db_connection.
  destruct (u_connect_fault env); [done|].
  unfold bind at 1. unfold modify at 1. unfold finally, try_except.
  unfold bind at 1. by rewrite update_outcome_row_refused.
Qed.



(** * Further properties of the endpoints *)

(** ** create_project *)

(** X1. With the store reachable, [create_project] answers with the stored
    row: it carries exactly the supplied fields, the next id of the
    sequence and the current time, and it is the one row added to the
    projects table; outcomes, files and the disk are untouched. *)
Theorem create_project_stores_row env project w :
  c_connect_fault env = false ->
  c_insert_fault env = false ->
  c_commit_fault env = false ->
  exists w',
    create_project env project w =
      (Return (project_row (projects_id_seq w) (c_now env) project), w') /\
    tbl_projects (committed w') =
      tbl_projects (committed w) ++
        [project_row (projects_id_seq w) (c_now env) project] /\
    tbl_outcomes (committed w') = tbl_outcomes (committed w) /\
    tbl_files (committed w') = tbl_files (committed w) /\
    projects_id_seq w' = projects_id_seq w + 1 /\
    disk w' = disk w.
Proof.
  intros Hc Hi Hm. unfold create_project, insert_project_row, get_db_connection, commit.
  rewrite Hc, Hi, Hm. monad_unfold. simpl. eexists. split; [reflexivity|]. done.
Qed.

Lemma create_project_stores_row_witness :
  c_connect_fault demo_create_env = false /\
  c_insert_fault demo_create_env = false /\
  c_commit_fault demo_create_env = false /\
  exists w',
    create_project demo_create_env demo_project_request demo_world_empty =
      (Return demo_project, w') /\
    tbl_projects (committed w') = [demo_project].
Proof.
  do 3 (split; [reflexivity|]).
  destruct (create_project_stores_row demo_create_env demo_project_request
              demo_world_empty eq_refl eq_refl eq_refl) as (w' & E & Hp & _).
  exists w'. split; [exact E | exact Hp].
Defined.

(** X2. A [create_project] that fails is atomic: the committed tables and
    the disk are as before, and the answer is the 400 of the handler or
    the 500 of a failed connection. *)
Theorem create_project_failure_atomic env project w e w' :
  create_project env project w = (Raise e, w') ->
  committed w' = committed w /\ disk w' = disk w /\
  (status_of e = Some 400 \/ status_of e = Some 500).
Proof.
  unfold create_project, insert_project_row, get_db_connection, commit, rollback.
  destruct (c_connect_fault env); [intros [= <- <-]; auto|].
  destruct (c_insert_fault env); [intros [= <- <-]; auto|].
  destruct (c_commit_fault env); monad_unfold; simpl; [|discriminate].
  intros [= <- <-]. auto.
Qed.

Lemma create_project_failure_atomic_witness :
  create_project demo_create_env_commit_fails demo_project_request demo_world_empty =
    (Raise (HTTPException 400 (Fmt "" DatabaseError)),
     (create_project demo_create_env_commit_fails demo_project_request demo_world_empty).2) /\
  committed (create_project demo_create_env_commit_fails demo_project_request
               demo_world_empty).2 = committed demo_world_empty.
Proof.
  split; [reflexivity|].
  exact (proj1 (create_project_failure_atomic demo_create_env_commit_fails
                  demo_project_request demo_world_empty _ _ eq_refl)).
Defined.

(** The null-fixing loop of [list_projects] leaves a row of the SELECT as
    it is, and the SELECT leaves a row without nulls as it is. *)
Lemma fix_nulls_select_columns p : fix_nulls (select_columns p) = select_columns p.
Proof. reflexivity. Qed.

Lemma select_columns_project_row new_id now project :
  select_columns (project_row new_id now project) = project_row new_id now project.
Proof. reflexivity. Qed.

(** X3. Create then list: the project that [create_project] returned is a
    member of the next listing, with every field as it was supplied. *)
Theorem create_then_list env project w row w' :
  create_project env project w = (Return row, w') ->
  exists ps w'',
    list_projects false false w' = (Return ps, w'') /\
    row ∈ ps /\
    row = project_row (projects_id_seq w) (c_now env) project.
Proof.
  unfold create_project, insert_project_row, get_db_connection, commit, rollback.
  destruct (c_connect_fault env); [discriminate|].
  destruct (c_insert_fault env); [discriminate|].
  destruct (c_commit_fault env); monad_unfold; simpl; [discriminate|].
  intros [= <- <-].
  unfold list_projects, select_projects, get_db_connection. monad_unfold. simpl.
  eexists _, _. split; [reflexivity|]. split; [|done].
  rewrite <- list_fmap_compose.
  apply list_elem_of_fmap.
  exists (project_row (projects_id_seq w) (c_now env) project). split; [done|].
  rewrite merge_sort_Permutation. apply elem_of_app. right. by left.
Qed.

Lemma create_then_list_witness :
  exists ps w'',
    list_projects false false
      (create_project demo_create_env demo_project_request demo_world_empty).2 =
      (Return ps, w'') /\
    demo_project ∈ ps.
Proof.
  destruct (create_then_list demo_create_env demo_project_request demo_world_empty
              demo_project _ eq_refl) as (ps & w'' & E & Hin & _).
  exists ps, w''. split; [exact E | exact Hin].
Defined.

(** ** list_projects *)

(** X4. [list_projects] only reads: whatever happens, the committed tables
    and the disk are as before; a failure is always a 500; and the rows it
    returns are those of the SELECT, which the null-fixing loop never has
    to change. *)
Theorem list_projects_read_only connect_fault select_fault w :
  committed (list_projects connect_fault select_fault w).2 = committed w /\
  disk (list_projects connect_fault select_fault w).2 = disk w /\
  (forall e, (list_projects connect_fault select_fault w).1 = Raise e ->
     status_of e = Some 500) /\
  (forall ps, (list_projects connect_fault select_fault w).1 = Return ps ->
     ps = select_columns <$> merge_sort newer_first (tbl_projects (committed w))).
Proof.
  unfold list_projects, select_projects, get_db_connection.
  destruct connect_fault; simpl.
  { repeat split; [by intros e [= <-] | discriminate]. }
  destruct select_fault; monad_unfold; simpl.
  { repeat split; [by intros e [= <-] | discriminate]. }
  repeat split; [discriminate|].
  intros ps [= <-]. rewrite <- list_fmap_compose. apply list_fmap_ext.
  intros i p _. apply fix_nulls_select_columns.
Qed.

(** ** upload_case_study *)

(** X5. A single-file upload that meets the preconditions and hits no
    fault succeeds: the blob holds the uploaded bytes under the upload
    directory, exactly one FileRecord row is added, carrying the returned
    ids, the original filename, that path and the content type, and the
    outcomes table is untouched. *)
Theorem upload_case_study_succeeds ep env title description project_id file w :
  missing_target project_id title description = false ->
  bad_filename (filename file) = false ->
  (forall p, project_id = Some p -> project_exists p (committed w) = true) ->
  save_fault env = DiskOk ->
  connect_fault env = false ->
  project_fault env = false ->
  insert_fault env = false ->
  commit_fault env = false ->
  exists pid w',
    upload_case_study ep env title description project_id file w =
      (Return (mkUploadResponse "File uploaded!" pid (files_id_seq w)), w') /\
    disk w' = <[location_of ep file := content file]> (disk w) /\
    tbl_files (committed w') =
      tbl_files (committed w) ++
        [FileRecord.mk (files_id_seq w) pid (default "" (filename file))
           (location_of ep file) (content_type file) (now env)] /\
    tbl_outcomes (committed w') = tbl_outcomes (committed w) /\
    project_exists pid (committed w') = true /\
    (forall p, project_id = Some p ->
       pid = p /\ tbl_projects (committed w') = tbl_projects (committed w)).
Proof.
  intros Ht Hn Hp Hs Hc Hpf Hi Hm.
  unfold upload_case_study. rewrite Ht, Hn, Hs, Hc.
  fold (location_of ep file). set (loc := location_of ep file).
  unfold write_file, get_db_connection. monad_unfold.
  set (w0 := set_txn _ _).
  destruct (resolve_project_ok (now env) "unspecified" (msg_no_project ep)
              title description project_id w0 Ht Hp eq_refl) as (pid & w1 & E1).
  pose proof (resolve_project_frame _ _ _ _ _ _ _ _ _ _ E1) as (Hc1 & Hd1 & Hs1 & Hf1 & Ho1).
  pose proof (resolve_project_return _ _ _ _ _ _ _ _ _ _ E1) as (Hex & Hproj).
  pose proof (resolve_project_live _ _ _ _ _ _ _ _ _ _ E1) as (_ & Hl1).
  destruct (insert_file_ok (now env) pid (default "" (filename file)) loc
              (content_type file) w1 Hex Hl1) as (w2 & E2 & Hs2 & Hf2 & Hl2).
  pose proof (insert_file_frame _ _ _ _ _ _ _ _ _ E2) as (Hc2 & Hd2 & _ & Hp2 & Ho2).
  unfold upload_transaction, commit. monad_unfold.
  rewrite Hpf, Hi, Hm, E1, E2, Hl2. cbn [fst snd].
  exists pid. eexists. rewrite Hs1. split; [reflexivity|].
  cbn [disk committed close set_txn set_committed].
  split; [by rewrite Hd2, Hd1|].
  split; [by rewrite Hf2, Hf1, Hs1|].
  split; [by rewrite Ho2, Ho1|].
  split; [by rewrite (project_exists_ext pid (txn w1) (txn w2))|].
  intros p ->. destruct Hproj as [-> ->]. split; [done|]. by rewrite Hp2.
Qed.

Lemma upload_case_study_succeeds_witness :
  missing_target (Some 1) None None = false /\
  bad_filename (filename demo_report) = false /\
  project_exists 1 (committed demo_world) = true /\
  exists w',
    upload_case_study projects_py demo_env None None (Some 1) demo_report demo_world =
      (Return (mkUploadResponse "File uploaded!" 1 2), w') /\
    FileRecord.filename <$> tbl_files (committed w') = ["report.pdf"; "report.pdf"].
Proof.
  do 3 (split; [reflexivity|]).
  destruct (upload_case_study_succeeds projects_py demo_env None None (Some 1)
              demo_report demo_world) as (pid & w' & E & _ & Hf & _ & _ & Hp);
    try reflexivity.
  { by intros p [= <-]. }
  destruct (Hp 1 eq_refl) as [-> _].
  exists w'. split; [exact E|]. by rewrite Hf.
Defined.



(** X7. Last writer wins, also when it loses: if a blob of the same name
    is already stored, a single-file upload that fails inside its
    transaction removes it.  The tables are as before, so every earlier
    FileRecord of that path now points to nothing. *)
Theorem failed_upload_removes_earlier_blob
    ep env title description project_id file w e w' old :
  disk w !! location_of ep file = Some old ->
  missing_target project_id title description = false ->
  bad_filename (filename file) = false ->
  save_fault env = DiskOk ->
  connect_fault env = false ->
  remove_fault env = false ->
  upload_case_study ep env title description project_id file w = (Raise e, w') ->
  disk w' !! location_of ep file = None /\
  committed w' = committed w.
Proof.
  intros Hold Ht Hn Hs Hc Hr E.
  destruct (upload_compensates _ _ _ _ _ _ _ _ _ Ht Hn Hs Hc Hr E) as (Hd & Hcm & _).
  split; [|done]. unfold location_of. rewrite Hd. apply lookup_delete_eq.
Qed.

Lemma failed_upload_removes_earlier_blob_witness :
  disk demo_world !! location_of projects_py demo_report = Some [] /\
  exists e w',
    upload_case_study projects_py demo_env None None (Some 7) demo_report demo_world =
      (Raise e, w') /\
    disk w' !! "uploads/report.pdf" = None /\
    tbl_files (committed w') = [demo_file_row].
Proof.
  split; [reflexivity|].
  destruct (upload_case_study projects_py demo_env None None (Some 7) demo_report
              demo_world) as [[r|e] w'] eqn:E; [vm_compute in E; discriminate|].
  exists e, w'. split; [reflexivity|].
  destruct (failed_upload_removes_earlier_blob projects_py demo_env None None (Some 7)
              demo_report demo_world e w' [] eq_refl eq_refl eq_refl eq_refl eq_refl
              eq_refl E) as [Hd Hc].
  split; [exact Hd|]. by rewrite Hc.
Defined.

(** ** list_project_files and download_file *)

Global Instance recent_first_trans : Transitive recent_first.
Proof. unfold recent_first. intros x y z ? ?. lia. Qed.

Global Instance recent_first_total : Total recent_first.
Proof. unfold recent_first. intros x y. lia. Qed.

(** X8. [list_project_files] answers with the files of the project and
    nothing else, newest upload first.  A project without files, and so a
    project id that does not exist, gets the empty list: it is no error. *)
Theorem list_project_files_newest_first project_id w :
  exists rows,
    list_project_files false false project_id w = (Return (listing_of <$> rows), close w) /\
    rows ≡ₚ filter (fun f => FileRecord.project_id f = project_id)
              (tbl_files (committed w)) /\
    StronglySorted recent_first rows /\
    ((forall f, f ∈ tbl_files (committed w) -> FileRecord.project_id f <> project_id) ->
     rows = []).
Proof.
  unfold list_project_files, select_file_listing, get_db_connection.
  monad_unfold. cbn [txn txn_aborted set_txn].
  eexists. split; [reflexivity|].
  split; [apply merge_sort_Permutation|].
  split; [apply (StronglySorted_merge_sort recent_first)|].
  intros Hnone. apply Permutation_nil_r. rewrite merge_sort_Permutation.
  induction (tbl_files (committed w)) as [|f l IH]; [done|].
  rewrite filter_cons. case_decide as Hp.
  - exfalso. apply (Hnone f); [left | done].
  - apply IH. intros f' Hf'. apply Hnone. by right.
Qed.

(** X9. [download_file] changes neither the committed tables nor the disk
    and never answers 404: every failure is a 500, and a file id without
    a row and a row without a blob both surface as a 500 that quotes the
    404 raised inside the [try]. *)
Theorem download_file_never_404 connect_fault select_fault file_id w :
  committed (download_file connect_fault select_fault file_id w).2 = committed w /\
  disk (download_file connect_fault select_fault file_id w).2 = disk w /\
  (forall e, (download_file connect_fault select_fault file_id w).1 = Raise e ->
     status_of e = Some 500) /\
  (connect_fault = false -> select_fault = false ->
   (forall f, f ∈ tbl_files (committed w) ->
      FileRecord.id f = file_id -> disk w !! FileRecord.filepath f = None) ->
   (download_file connect_fault select_fault file_id w).1 =
     Raise (HTTPException 500 (Fmt "" (HTTPException 404 (Lit "File not found"))))).
Proof.
  unfold download_file, select_file, get_db_connection, path_exists.
  destruct connect_fault; simpl.
  { repeat split; [by intros e [= <-] | discriminate]. }
  destruct select_fault; monad_unfold; cbn [txn txn_aborted set_txn fst snd].
  { repeat split; [by intros e [= <-] | discriminate]. }
  destruct (head _) as [f|] eqn:Hhead; cbn [fst snd].
  2:{ repeat split; by intros e [= <-]. }
  cbn [disk set_txn].
  destruct (bool_decide (is_Some (disk w !! FileRecord.filepath f))) eqn:Hb; simpl.
  - repeat split; [discriminate|]. intros _ _ Hgone. exfalso.
    apply bool_decide_eq_true in Hb as [c Hc].
    apply head_Some_elem_of, list_elem_of_filter in Hhead as [Hid Hin].
    rewrite (Hgone f Hin Hid) in Hc. discriminate.
  - repeat split; by intros e [= <-].
Qed.

(** The first row with a given id, when ids are not shared. *)
Lemma head_filter_snoc_fresh (l : list FileRecord.t) f :
  (forall g, g ∈ l -> FileRecord.id g <> FileRecord.id f) ->
  head (filter (fun g => FileRecord.id g = FileRecord.id f) (l ++ [f])) = Some f.
Proof.
  intros Hfresh. rewrite filter_app.
  assert (Hnil : filter (fun g => FileRecord.id g = FileRecord.id f) l = []).
  { induction l as [|g l IH]; [done|].
    rewrite filter_cons. case_decide as Hg.
    - exfalso. apply (Hfresh g); [left | done].
    - apply IH. intros g' Hg'. apply Hfresh. by right. }
  rewrite Hnil. simpl. rewrite filter_cons. by case_decide.
Qed.

(** X10. Upload then download: when the sequence hands out an id that no
    file row has yet, the file id returned by a successful single-file
    upload downloads the path that holds the uploaded bytes, under the
    original filename, as a generic binary stream. *)
Theorem upload_then_download ep env title description project_id file w r w' :
  (forall f, f ∈ tbl_files (committed w) -> FileRecord.id f <> files_id_seq w) ->
  upload_case_study ep env title description project_id file w = (Return r, w') ->
  exists w'',
    download_file false false (resp_file_id r) w' =
      (Return (mkFileResponse (location_of ep file) (default "" (filename file))
                 "application/octet-stream"), w'') /\
    disk w' !! location_of ep file = Some (content file).
Proof.
  intros Hfresh.
  unfold upload_case_study.
  destruct (missing_target _ _ _); [discriminate|].
  destruct (bad_filename _); [discriminate|].
  fold (location_of ep file). set (loc := location_of ep file).
  unfold write_file, get_db_connection. monad_unfold.
  destruct (save_fault env); simpl; try discriminate.
  destruct (connect_fault env); simpl; [discriminate|].
  destruct (upload_transaction _ _ _ _ _ _ _ _) as [[r1|e1] w1] eqn:E.
  2:{ unfold upload_cleanup, rollback, path_exists, os_remove. monad_unfold. simpl.
      destruct (bool_decide _); simpl; [|discriminate].
      destruct (remove_fault env); simpl; [discriminate|].
      destruct (bool_decide _); discriminate. }
  intros [= <- <-].
  pose proof (upload_transaction_frame _ _ _ _ _ _ _ _ _ _ E) as [Hd _].
  pose proof E as E'. apply upload_transaction_return in E' as (w2 & E1 & _ & _ & Hf).
  assert (Hid : resp_file_id r1 = files_id_seq w).
  { revert E. unfold upload_transaction, commit. monad_unfold. rewrite E1.
    destruct (insert_file _ _ _ _ _ _ w2) as [[fid|?] w3] eqn:E2; [|discriminate].
    pose proof (resolve_project_frame _ _ _ _ _ _ _ _ _ _ E1) as (_ & _ & Hs1 & _).
    assert (fid = files_id_seq w2)
      by (by apply insert_file_return in E2 as (_ & _ & -> & _)).
    destruct (commit_fault env); simpl; [discriminate|].
    intros [= <- _]. simpl. by rewrite H, Hs1. }
  simpl in Hf, Hd.
  unfold download_file, select_file, get_db_connection, path_exists. monad_unfold.
  cbn [txn txn_aborted set_txn close committed disk fst snd].
  rewrite Hf, Hid.
  pose proof (head_filter_snoc_fresh (tbl_files (committed w))
                (FileRecord.mk (files_id_seq w) (resp_project_id r1)
                   (default "" (filename file)) loc (content_type file) (now env))
                Hfresh) as Hhead.
  cbn [FileRecord.id] in Hhead. rewrite Hhead.
  cbn [FileRecord.filepath FileRecord.filename].
  change (disk (set_txn (committed w1) (close w1))) with (disk w1).
  change (disk (close w1)) with (disk w1).
  rewrite Hd, lookup_insert_eq.
  rewrite bool_decide_true by done. simpl.
  eexists. split; [reflexivity | done].
Qed.

Lemma upload_then_download_witness :
  (forall f, f ∈ tbl_files (committed demo_world) ->
     FileRecord.id f <> files_id_seq demo_world) /\
  exists r w' w'',
    upload_case_study projects_py demo_env None None (Some 1) demo_notes demo_world =
      (Return r, w') /\
    download_file false false (resp_file_id r) w' =
      (Return (mkFileResponse "uploads/notes.txt" "notes.txt" "application/octet-stream"),
       w'') /\
    disk w' !! "uploads/notes.txt" = Some (content demo_notes).
Proof.
  assert (H : forall f, f ∈ tbl_files (committed demo_world) ->
     FileRecord.id f <> files_id_seq demo_world).
  { intros f Hf. simpl in Hf. apply list_elem_of_singleton in Hf. by subst. }
  split; [exact H|].
  destruct (upload_case_study projects_py demo_env None None (Some 1) demo_notes
              demo_world) as [[r|e] w'] eqn:E; [|vm_compute in E; discriminate].
  destruct (upload_then_download projects_py demo_env None None (Some 1) demo_notes
              demo_world r w' H E) as (w'' & Ed & Hd).
  exists r, w', w''. split; [reflexivity|]. split; [exact Ed | exact Hd].
Defined.

(** X11. Upload then list: the file of a successful single-file upload is
    in the listing of the project it was uploaded to, with the returned
    id, the original filename and the content type. *)
Theorem upload_then_list_files ep env title description project_id file w r w' :
  upload_case_study ep env title description project_id file w = (Return r, w') ->
  exists rows w'',
    list_project_files false false (resp_project_id r) w' = (Return rows, w'') /\
    mkFileListing (resp_file_id r) (default "" (filename file)) (content_type file)
      (now env) ∈ rows.
Proof.
  unfold upload_case_study.
  destruct (missing_target _ _ _); [discriminate|].
  destruct (bad_filename _); [discriminate|].
  unfold write_file, get_db_connection. monad_unfold.
  destruct (save_fault env); simpl; try discriminate.
  destruct (connect_fault env); simpl; [discriminate|].
  destruct (upload_transaction _ _ _ _ _ _ _ _) as [[r1|e1] w1] eqn:E.
  2:{ unfold upload_cleanup, rollback, path_exists, os_remove. monad_unfold. simpl.
      destruct (bool_decide _); simpl; [|discriminate].
      destruct (remove_fault env); simpl; [discriminate|].
      destruct (bool_decide _); discriminate. }
  intros [= <- <-].
  apply upload_transaction_return in E as (w2 & _ & _ & _ & Hf).
  unfold list_project_files, select_file_listing, get_db_connection. monad_unfold.
  cbn [txn txn_aborted set_txn close committed fst snd].
  eexists _, _. split; [reflexivity|].
  apply list_elem_of_fmap. eexists. split; [|rewrite merge_sort_Permutation;
    apply list_elem_of_filter; split; [|rewrite Hf; apply elem_of_app; right; by left]];
    done.
Qed.

Lemma upload_then_list_files_witness :
  exists r w' rows w'',
    upload_case_study projects_py demo_env None None (Some 1) demo_notes demo_world =
      (Return r, w') /\
    list_project_files false false (resp_project_id r) w' = (Return rows, w'') /\
    mkFileListing 2 "notes.txt" (Some "text/plain") 10 ∈ rows.
Proof.
  destruct (upload_case_study projects_py demo_env None None (Some 1) demo_notes
              demo_world) as [[r|e] w'] eqn:E; [|vm_compute in E; discriminate].
  destruct (upload_then_list_files projects_py demo_env None None (Some 1) demo_notes
              demo_world r w' E) as (rows & w'' & El & Hin).
  exists r, w', rows, w''. split; [reflexivity|]. split; [exact El|].
  vm_compute in E. injection E as <- _. exact Hin.
Defined.

(** ** upload_case_study_multiple *)

(** X12. A batch without files, and a batch that names neither a project
    nor a title with a description, is turned down with a 400 before the
    store or the disk is touched. *)
Theorem upload_multiple_rejects_request ep env title description project_id files w :
  files = [] \/ missing_target project_id title description = true ->
  exists msg,
    upload_case_study_multiple ep env title description project_id files w =
      (Raise (HTTPException 400 (Lit msg)), w) /\
    (files = [] -> msg = msg_no_files ep).
Proof.
  intros [-> | Hm]; unfold upload_case_study_multiple.
  - eexists. split; [reflexivity | done].
  - destruct files as [|file rest]; [eexists; split; [reflexivity | done]|].
    rewrite Hm. eexists. split; [reflexivity | discriminate].
Qed.

Lemma upload_multiple_rejects_request_witness :
  ([] : list UploadFile) = [] /\
  upload_case_study_multiple projects_py demo_multi_env (Some "t") (Some "d") None
    [] demo_world = (Raise (HTTPException 400 (Lit "No files uploaded")), demo_world).
Proof.
  split; [reflexivity|].
  destruct (upload_multiple_rejects_request projects_py demo_multi_env (Some "t")
              (Some "d") None [] demo_world (or_introl eq_refl)) as (msg & E & Hmsg).
  rewrite E. by rewrite (Hmsg eq_refl).
Defined.



(** A file with an invalid name is passed over without a trace. *)
Lemma upload_loop_all_invalid ep now pid files : forall faults acc w,
  Forall (fun file => bad_filename (filename file) = true) files ->
  upload_loop ep now pid files faults acc w = (Return acc, w).
Proof.
  induction files as [|file rest IH]; intros faults acc w Hbad; [done|].
  apply Forall_cons in Hbad as [Hb Hrest].
  cbn [upload_loop]. unfold bind, upload_one. rewrite Hb. unfold ret at 1.
  by apply IH.
Qed.

(** X13. A batch all of whose filenames are invalid still succeeds: it
    reports zero files and no ids, writes nothing to disk and adds no file
    row, yet a project that was to be created on the fly is created. *)
Theorem upload_multiple_all_invalid ep env title description project_id files w :
  files <> [] ->
  Forall (fun file => bad_filename (filename file) = true) files ->
  missing_target project_id title description = false ->
  (forall p, project_id = Some p -> project_exists p (committed w) = true) ->
  m_connect_fault env = false ->
  m_project_fault env = false ->
  m_commit_fault env = false ->
  exists pid w',
    upload_case_study_multiple ep env title description project_id files w =
      (Return (mkMultiResponse 0 pid []), w') /\
    disk w' = disk w /\
    tbl_files (committed w') = tbl_files (committed w) /\
    (project_id = None ->
     length (tbl_projects (committed w')) = S (length (tbl_projects (committed w)))).
Proof.
  intros Hf Hbad Hm Hp Hc Hpf Hcm.
  unfold upload_case_study_multiple.
  destruct files as [|file rest]; [done|].
  rewrite Hm, Hc, Hpf, Hcm. unfold get_db_connection, commit. monad_unfold.
  destruct (resolve_project_ok (m_now env) "multiple_files" (msg_no_project_multiple ep)
              title description project_id (set_txn (committed w) w) Hm Hp eq_refl)
    as (pid & w1 & E1).
  rewrite E1.
  pose proof (resolve_project_frame _ _ _ _ _ _ _ _ _ _ E1) as (Hc1 & Hd1 & _ & Hf1 & _).
  pose proof (resolve_project_return _ _ _ _ _ _ _ _ _ _ E1) as (_ & Hproj).
  pose proof (resolve_project_live _ _ _ _ _ _ _ _ _ _ E1) as (_ & Hl1).
  rewrite upload_loop_all_invalid by done. simpl. rewrite Hl1.
  exists pid. eexists. split; [reflexivity|]. simpl.
  split; [done|]. split; [done|].
  intros ->. destruct Hproj as (t & _ & _ & ->). simpl.
  rewrite length_app. simpl. lia.
Qed.

Lemma upload_multiple_all_invalid_witness :
  [demo_traversal] <> [] /\
  Forall (fun file => bad_filename (filename file) = true) [demo_traversal] /\
  missing_target None (Some "t") (Some "d") = false /\
  exists pid w',
    upload_case_study_multiple projects_py demo_multi_env (Some "t") (Some "d") None
      [demo_traversal] demo_world_empty = (Return (mkMultiResponse 0 pid []), w') /\
    disk w' = disk demo_world_empty /\
    length (tbl_projects (committed w')) = 1%nat.
Proof.
  assert (Hbad : Forall (fun file => bad_filename (filename file) = true) [demo_traversal])
    by (by constructor).
  split; [done|]. split; [exact Hbad|]. split; [reflexivity|].
  destruct (upload_multiple_all_invalid projects_py demo_multi_env (Some "t") (Some "d")
              None [demo_traversal] demo_world_empty) as (pid & w' & E & Hd & _ & Hl);
    try done.
  exists pid, w'. split; [exact E|]. split; [exact Hd|]. by rewrite Hl.
Defined.





Lemma saved_split jobs :
  length (List.filter blob_saved jobs) =
  (length (List.filter row_inserted jobs) + length (List.filter row_lost jobs))%nat.
Proof.
  induction jobs as [|job rest IH]; [done|]. cbn [List.filter].
  unfold row_inserted at 1. unfold row_lost at 1.
  destruct (blob_saved job), (ff_insert job.2); simpl; lia.
Qed.

(** X15. The number in the message of a successful batch counts saved
    blobs, not inserted rows: it exceeds the number of returned ids by the
    number of files whose blob was saved and whose INSERT then failed, and
    each of those blobs is on disk when the request returns. *)
Theorem upload_multiple_count_exceeds_ids
    ep env title description project_id files w r w' :
  upload_case_study_multiple ep env title description project_id files w = (Return r, w') ->
  mresp_count r =
    (length (mresp_file_ids r) +
     length (List.filter row_lost (pair_faults files (m_file_faults env))))%nat /\
  (forall job, In job (List.filter row_lost (pair_faults files (m_file_faults env))) ->
     is_Some (disk w' !! location_of ep job.1)).
Proof.
  intros E.
  apply upload_multiple_return in E as (w1 & w2 & saved & E1 & E2 & Hcount & _ & Hdw).
  pose proof (resolve_project_return _ _ _ _ _ _ _ _ _ _ E1) as (Hex & _).
  pose proof (resolve_project_live _ _ _ _ _ _ _ _ _ _ E1) as (_ & Hl1).
  destruct (upload_loop_spec ep (m_now env) (mresp_project_id r) files
              (m_file_faults env) ([], []) w1 false Hl1 Hex)
    as (w2' & E2' & _ & _ & _ & _ & _ & _ & Hb2 & _).
  change (faults_from false files (m_file_faults env))
    with (pair_faults files (m_file_faults env)) in *.
  rewrite E2 in E2'. injection E2' as Hsaved Hids <-. simpl in Hsaved, Hids.
  split.
  - rewrite Hcount, Hsaved, Hids, !length_fmap, new_file_rows_length. apply saved_split.
  - intros job Hjob. rewrite Hdw. apply Hb2.
    apply List.filter_In in Hjob as [Hin Hlost]. apply List.filter_In. split; [done|].
    unfold row_lost in Hlost. by apply andb_prop in Hlost as [? _].
Qed.

Lemma upload_multiple_count_exceeds_ids_witness :
  exists r w',
    upload_case_study_multiple projects_py demo_multi_env_insert_fails
      (Some "t") (Some "d") None demo_batch demo_world_empty = (Return r, w') /\
    mresp_count r = 3%nat /\
    length (mresp_file_ids r) = 2%nat /\
    is_Some (disk w' !! "uploads/b.txt") /\
    tbl_files (committed w') =
      [FileRecord.mk 1 1 "a.txt" "uploads/a.txt" (Some "text/plain") 10;
       FileRecord.mk 2 1 "c.txt" "uploads/c.txt" (Some "text/plain") 10].
Proof.
  destruct (upload_case_study_multiple projects_py demo_multi_env_insert_fails
              (Some "t") (Some "d") None demo_batch demo_world_empty)
    as [[r|e] w'] eqn:E; [|vm_compute in E; discriminate].
  destruct (upload_multiple_count_exceeds_ids _ _ _ _ _ _ _ _ _ E) as [Hcount Hblob].
  exists r, w'. split; [reflexivity|].
  assert (Hb : is_Some (disk w' !! "uploads/b.txt")).
  { apply (Hblob (demo_file "b.txt", mkFileFault DiskOk DriverRaises)). simpl. by left. }
  vm_compute in E. injection E as <- <-.
  repeat split; try reflexivity. exact Hb.
Defined.

(** ** delete_project *)

Lemma filter_project_twice (pid : Z) (l : list FileRecord.t) :
  filter (fun f => FileRecord.project_id f ≠ pid)
    (filter (fun f => FileRecord.project_id f ≠ pid) l) =
  filter (fun f => FileRecord.project_id f ≠ pid) l.
Proof.
  induction l as [|f l IH]; [done|].
  rewrite filter_cons. case_decide as Hf; [|done].
  rewrite filter_cons. case_decide; [by rewrite IH | done].
Qed.

Lemma remove_one_count file fault deleted w d w' :
  remove_one file fault deleted w = (Return d, w') ->
  (length d <= S (length deleted))%nat.
Proof.
  unfold remove_one, path_exists, os_remove. monad_unfold.
  destruct (bool_decide (is_Some (disk w !! file.2))) eqn:Hb; simpl.
  - destruct fault; simpl; [intros [= <- _]; lia|].
    rewrite Hb. simpl. intros [= <- _]. rewrite length_app. simpl. lia.
  - intros [= <- _]. lia.
Qed.

Lemma remove_blobs_count rows : forall faults deleted w d w',
  remove_blobs rows faults deleted w = (Return d, w') ->
  (length d <= length deleted + length rows)%nat.
Proof.
  induction rows as [|file rest IH]; intros faults deleted w d w'; simpl.
  - unfold ret. intros [= <- _]. lia.
  - unfold bind.
    destruct (remove_one _ _ _ w) as [[d1|e1] w1] eqn:E1; [|discriminate].
    intros E2. apply IH in E2. apply remove_one_count in E1. lia.
Qed.

(** When no removal fails, no blob of the selected rows is left. *)
Lemma remove_blobs_clears rows : forall faults deleted w d w',
  Forall (fun b => b = false) faults ->
  remove_blobs rows faults deleted w = (Return d, w') ->
  forall p, p ∈ rows.*2 -> disk w' !! p = None.
Proof.
  induction rows as [|file rest IH]; intros faults deleted w d w' Hfaults; simpl.
  - intros _ p Hp. inversion Hp.
  - assert (Hhead : default false (head faults) = false).
    { destruct Hfaults; [done | by simpl]. }
    assert (Htail : Forall (fun b => b = false) (tail faults)).
    { destruct Hfaults; [constructor | done]. }
    unfold bind. rewrite Hhead.
    destruct (remove_one _ _ _ w) as [[d1|e1] w1] eqn:E1; [|discriminate].
    intros E2 p Hp.
    destruct (decide (p ∈ rest.*2)) as [Hr|Hr]; [by apply (IH _ _ _ _ _ Htail E2)|].
    apply elem_of_cons in Hp as [->|Hp]; [|done].
    destruct (remove_blobs_spec rest (tail faults) d1 w1)
      as (d2 & w2 & E2' & _ & _ & _ & Hk).
    rewrite E2 in E2'. injection E2' as <- <-.
    rewrite (Hk _ Hr).
    revert E1. unfold remove_one, path_exists, os_remove. monad_unfold.
    destruct (bool_decide (is_Some (disk w !! file.2))) eqn:Hb; simpl.
    + rewrite Hb. simpl. intros [= _ <-]. simpl. apply lookup_delete_eq.
    + intros [= _ <-]. apply bool_decide_eq_false in Hb.
      destruct (disk w !! file.2) eqn:Hq; [|done]. exfalso. apply Hb. eauto.
Qed.

(** One run of [delete_project] with the confirmation flag, once the file
    rows of the project have been selected. *)
Lemma delete_project_run env project_id w :
  d_connect_fault env = false ->
  d_select_fault env = false ->
  exists deleted w1,
    remove_blobs
      ((fun f => (FileRecord.id f, FileRecord.filepath f)) <$>
         filter (fun f => FileRecord.project_id f = project_id) (tbl_files (committed w)))
      (d_remove_faults env) [] (set_txn (committed w) w) = (Return deleted, w1) /\
    disk (delete_project env project_id true w).2 = disk w1 /\
    (forall resp, (delete_project env project_id true w).1 = Return resp ->
       resp = mkDeleteResponse "Deleted project and files" project_id (length deleted) /\
       committed (delete_project env project_id true w).2 =
         without_project project_id (committed w) /\
       project_exists project_id (committed w) = true) /\
    (forall e, (delete_project env project_id true w).1 = Raise e ->
       committed (delete_project env project_id true w).2 = committed w /\
       exists cause, e = HTTPException 500 (Fmt "Error deleting: " cause)) /\
    (project_exists project_id (committed w) = true ->
     d_delete_files_fault env = false ->
     d_delete_project_fault env = false ->
     d_commit_fault env = false ->
     exists resp, (delete_project env project_id true w).1 = Return resp).
Proof.
  intros Hc Hs.
  unfold delete_project, delete_transaction. cbn [negb]. rewrite Hc, Hs.
  unfold get_db_connection, select_files_of, delete_files_of, delete_project_row,
    commit, rollback.
  monad_unfold. cbn [txn txn_aborted set_txn].
  set (rows := _ <$> filter _ _).
  destruct (remove_blobs_spec rows (d_remove_faults env) [] (set_txn (committed w) w))
    as (deleted & w1 & E & Hc1 & Ht1 & _).
  rewrite E. exists deleted, w1. split; [done|].
  pose proof (remove_blobs_live _ _ _ _ _ _ E) as Hl1.
  simpl in Hc1, Ht1, Hl1.
  clearbody rows.
  destruct rows as [|row rest];
    [|destruct (d_delete_files_fault env)];
    destruct (d_delete_project_fault env); cbv beta iota;
    rewrite ?Hl1; cbv beta iota;
    cbn [txn txn_aborted set_txn abort_txn committed disk tbl_projects fst snd];
    unfold project_exists; cbn [tbl_projects]; rewrite ?Ht1;
    destruct (bool_decide (Exists _ (tbl_projects (committed w)))) eqn:Hex;
    cbv beta iota;
    destruct (d_commit_fault env); cbv beta iota; cbn [fst snd];
    try (split; [done|]);
    try (split; [discriminate|]; split; [|intros; congruence];
         intros e [= <-]; split; [done | eauto]).
  - split; [|split; [intros e He; discriminate He | eauto]].
    intros resp [= <-]. split; [done|]. split; [|done].
    cbn [committed close set_txn set_committed txn]. rewrite ?Ht1.
    unfold without_project. done.
  - split; [|split; [intros e He; discriminate He | eauto]].
    intros resp [= <-]. split; [done|]. split; [|done].
    cbn [committed close set_txn set_committed txn tbl_projects tbl_outcomes tbl_files].
    rewrite ?Ht1. unfold without_project. by rewrite filter_project_twice.
Qed.

Lemma filter_twice {A} (P : A -> Prop) `{forall x, Decision (P x)} (l : list A) :
  filter P (filter P l) = filter P l.
Proof.
  induction l as [|x l IH]; [done|].
  rewrite filter_cons. case_decide as Hx; [|done].
  rewrite filter_cons. case_decide; [by rewrite IH | done].
Qed.

Lemma without_project_twice pid t :
  without_project pid (without_project pid t) = without_project pid t.
Proof. unfold without_project. simpl. by rewrite !filter_twice. Qed.

Lemma without_project_gone pid t :
  project_exists pid (without_project pid t) = false /\
  filter (fun f => FileRecord.project_id f = pid) (tbl_files (without_project pid t)) = [] /\
  filter (fun o => Outcome.project_id o = pid) (tbl_outcomes (without_project pid t)) = [].
Proof.
  unfold without_project, project_exists. simpl. split; [|split].
  - apply bool_decide_eq_false. rewrite Exists_exists.
    intros (p & Hin & Hid). apply list_elem_of_filter in Hin as [Hne _]. done.
  - induction (tbl_files t) as [|f l IH]; [done|].
    rewrite filter_cons. case_decide as Hf; [|done].
    rewrite filter_cons. by case_decide.
  - induction (tbl_outcomes t) as [|o l IH]; [done|].
    rewrite filter_cons. case_decide as Ho; [|done].
    rewrite filter_cons. by case_decide.
Qed.

Lemma project_paths_selected pid (l : list FileRecord.t) f :
  f ∈ l -> FileRecord.project_id f = pid ->
  FileRecord.filepath f ∈
    ((fun f => (FileRecord.id f, FileRecord.filepath f)) <$>
       filter (fun f => FileRecord.project_id f = pid) l).*2.
Proof.
  intros Hin Hpid. apply list_elem_of_fmap.
  exists (FileRecord.id f, FileRecord.filepath f). split; [done|].
  apply list_elem_of_fmap. exists f. split; [done|]. by apply list_elem_of_filter.
Qed.

(** X16. Deleting an existing project with the confirmation flag, the
    store going through: the answer carries the project id and the number
    of blobs removed, which is at most the number of its file rows; the
    project row, its file rows and its outcome rows are gone and nothing
    else is; a blob that cannot be removed does not stop the deletion; and
    when every removal works no blob of the project's files is left.
    Afterwards the project's file listing is empty. *)
Theorem delete_project_succeeds env project_id w :
  project_exists project_id (committed w) = true ->
  d_connect_fault env = false ->
  d_select_fault env = false ->
  d_delete_files_fault env = false ->
  d_delete_project_fault env = false ->
  d_commit_fault env = false ->
  exists n w',
    delete_project env project_id true w =
      (Return (mkDeleteResponse "Deleted project and files" project_id n), w') /\
    committed w' = without_project project_id (committed w) /\
    (n <= length (filter (fun f => FileRecord.project_id f = project_id)
                    (tbl_files (committed w))))%nat /\
    (forall p, is_Some (disk w' !! p) -> is_Some (disk w !! p)) /\
    (Forall (fun b => b = false) (d_remove_faults env) ->
     forall f, f ∈ tbl_files (committed w) -> FileRecord.project_id f = project_id ->
       disk w' !! FileRecord.filepath f = None) /\
    (list_project_files false false project_id w').1 = Return [].
Proof.
  intros Hex Hc Hs Hdf Hdp Hcm.
  destruct (delete_project_run env project_id w Hc Hs)
    as (deleted & w1 & E & Hd & Hret & _ & Hok).
  destruct (Hok Hex Hdf Hdp Hcm) as (resp & Hresp).
  destruct (Hret resp Hresp) as (-> & Hcw & _).
  destruct (delete_project env project_id true w) as [r w'] eqn:Erun.
  simpl in Hresp, Hd, Hcw. subst r.
  exists (length deleted), w'. split; [done|]. split; [done|].
  destruct (remove_blobs_spec
              ((fun f => (FileRecord.id f, FileRecord.filepath f)) <$>
                 filter (fun f => FileRecord.project_id f = project_id)
                   (tbl_files (committed w)))
              (d_remove_faults env) [] (set_txn (committed w) w))
    as (d' & w1' & E' & _ & _ & Hshrink & _).
  rewrite E in E'. injection E' as <- <-.
  split.
  { apply remove_blobs_count in E. rewrite length_fmap in E. simpl in E. lia. }
  split; [intros p; rewrite Hd; apply Hshrink|].
  split.
  { intros Hrm f Hin Hpid. rewrite Hd.
    apply (remove_blobs_clears _ _ _ _ _ _ Hrm E).
    by apply project_paths_selected. }
  unfold list_project_files, select_file_listing, get_db_connection. monad_unfold.
  cbn [txn txn_aborted set_txn fst snd]. rewrite Hcw.
  destruct (without_project_gone project_id (committed w)) as (_ & -> & _). done.
Qed.

Lemma delete_project_succeeds_witness :
  project_exists 1 (committed demo_world) = true /\
  delete_project demo_delete_env 1 true demo_world =
    (Return (mkDeleteResponse "Deleted project and files" 1 1), demo_world_after_delete) /\
  disk demo_world_after_delete !! "uploads/report.pdf" = None.
Proof.
  split; [reflexivity|].
  destruct (delete_project_succeeds demo_delete_env 1 demo_world
              eq_refl eq_refl eq_refl eq_refl eq_refl eq_refl)
    as (n & w' & E & _ & _ & _ & Hgone & _).
  assert (Hw : delete_project demo_delete_env 1 true demo_world =
    (Return (mkDeleteResponse "Deleted project and files" 1 1), demo_world_after_delete))
    by (vm_compute; reflexivity).
  split; [exact Hw|].
  rewrite Hw in E. injection E as _ <-.
  apply (Hgone ltac:(constructor) demo_file_row); [simpl; by left | reflexivity].
Defined.

(** X17. The disk is not part of the transaction: when [delete_project]
    fails after its cleanup loop (the project is missing, a DELETE or the
    commit fails), the tables are rolled back to what they were, but the
    blobs of the project's files stay removed, so its file rows are left
    without their blobs. *)
Theorem delete_project_failure_keeps_cleanup env project_id w e w' :
  d_connect_fault env = false ->
  d_select_fault env = false ->
  Forall (fun b => b = false) (d_remove_faults env) ->
  delete_project env project_id true w = (Raise e, w') ->
  committed w' = committed w /\
  (forall f, f ∈ tbl_files (committed w) -> FileRecord.project_id f = project_id ->
     disk w' !! FileRecord.filepath f = None).
Proof.
  intros Hc Hs Hrm Erun.
  destruct (delete_project_run env project_id w Hc Hs)
    as (deleted & w1 & E & Hd & _ & Hraise & _).
  rewrite Erun in Hd, Hraise. simpl in Hd, Hraise.
  destruct (Hraise e eq_refl) as [Hcw _]. split; [done|].
  intros f Hin Hpid. rewrite Hd.
  apply (remove_blobs_clears _ _ _ _ _ _ Hrm E). by apply project_paths_selected.
Qed.

Lemma delete_project_failure_keeps_cleanup_witness :
  exists e w',
    delete_project demo_delete_env_commit_fails 1 true demo_world = (Raise e, w') /\
    committed w' = committed demo_world /\
    disk w' !! FileRecord.filepath demo_file_row = None.
Proof.
  destruct (delete_project demo_delete_env_commit_fails 1 true demo_world)
    as [[r|e] w'] eqn:E; [vm_compute in E; discriminate|].
  destruct (delete_project_failure_keeps_cleanup demo_delete_env_commit_fails 1
              demo_world e w' eq_refl eq_refl ltac:(constructor) E) as [Hc Hgone].
  exists e, w'. split; [reflexivity|]. split; [exact Hc|].
  apply Hgone; [simpl; by left | reflexivity].
Defined.

(** X18. What [delete_project] never touches, whatever its flag, its
    faults and its outcome: the rows of every other project (the tables
    without the project are the same before and after), and every blob
    whose file name is not the file name of a path stored for the project.
    (The same file can be stored under two paths, a relative one by
    projects.py and a resolved one by files.py; their file names agree.) *)
Theorem delete_project_frame env project_id confirm w :
  without_project project_id (committed (delete_project env project_id confirm w).2) =
    without_project project_id (committed w) /\
  (forall p,
     (forall f, f ∈ tbl_files (committed w) -> FileRecord.project_id f = project_id ->
        basename (FileRecord.filepath f) <> basename p) ->
     disk (delete_project env project_id confirm w).2 !! p = disk w !! p).
Proof.
  destruct confirm; [|done].
  destruct (d_connect_fault env) eqn:Hc.
  { unfold delete_project, get_db_connection. rewrite Hc. done. }
  destruct (d_select_fault env) eqn:Hs.
  { unfold delete_project, delete_transaction, get_db_connection, select_files_of, rollback.
    rewrite Hc, Hs. done. }
  destruct (delete_project_run env project_id w Hc Hs)
    as (deleted & w1 & E & Hd & Hret & Hraise & _).
  split.
  - destruct (delete_project env project_id true w) as [[resp|e] w'].
    + destruct (Hret resp eq_refl) as (_ & Hcw & _). simpl in Hcw. simpl.
      rewrite Hcw. apply without_project_twice.
    + destruct (Hraise e eq_refl) as (Hcw & _). simpl in Hcw. simpl. by rewrite Hcw.
  - intros p Hp. rewrite Hd.
    destruct (remove_blobs_spec
                ((fun f => (FileRecord.id f, FileRecord.filepath f)) <$>
                   filter (fun f => FileRecord.project_id f = project_id)
                     (tbl_files (committed w)))
                (d_remove_faults env) [] (set_txn (committed w) w))
      as (d' & w1' & E' & _ & _ & _ & Hk).
    rewrite E in E'. injection E' as <- <-.
    rewrite Hk; [done|].
    intros Hin. apply list_elem_of_fmap in Hin as ([fid path] & -> & Hin).
    apply list_elem_of_fmap in Hin as (f & [= -> ->] & Hf).
    apply list_elem_of_filter in Hf as [Hpid Hf]. by apply (Hp f).
Qed.

Lemma delete_project_frame_witness :
  (delete_project demo_delete_env 1 true demo_world_two_projects).1 =
    Return (mkDeleteResponse "Deleted project and files" 1 1) /\
  disk (delete_project demo_delete_env 1 true demo_world_two_projects).2
    !! "uploads/report.pdf" = None /\
  without_project 1
    (committed (delete_project demo_delete_env 1 true demo_world_two_projects).2) =
    mkTables [demo_project_2] [] [demo_file_row_2] /\
  disk (delete_project demo_delete_env 1 true demo_world_two_projects).2
    !! "/srv/app/uploads/notes.txt" = Some (content demo_notes).
Proof.
  destruct (delete_project_frame demo_delete_env 1 true demo_world_two_projects)
    as [Ht Hd].
  split; [reflexivity|]. split; [reflexivity|]. split; [exact Ht|].
  rewrite Hd; [reflexivity|].
  intros f Hf Hp. simpl in Hf.
  apply elem_of_cons in Hf as [->|Hf]; [discriminate|].
  apply list_elem_of_singleton in Hf. by subst.
Defined.

(** ** Outcome endpoints, continued *)

Lemma filter_none {A} (P : A -> Prop) `{forall x, Decision (P x)} (l : list A) :
  (forall x, x ∈ l -> ~ P x) -> filter P l = [].
Proof.
  induction l as [|x l IH]; intros Hnone; [done|].
  rewrite filter_cons. case_decide as Hx.
  - exfalso. apply (Hnone x); [left | done].
  - apply IH. intros y Hy. apply Hnone. by right.
Qed.

(** X19. [delete_outcome] of an id that is stored, the store going
    through, removes the outcome rows with that id and nothing else:
    every other outcome, the projects, the files and the disk are as
    before. *)
Theorem delete_outcome_removes outcome_id w o :
  o ∈ tbl_outcomes (committed w) ->
  Outcome.id o = outcome_id ->
  exists w',
    delete_outcome false false false outcome_id w =
      (Return "Outcome deleted successfully", w') /\
    tbl_outcomes (committed w') =
      filter (fun o => Outcome.id o ≠ outcome_id) (tbl_outcomes (committed w)) /\
    tbl_projects (committed w') = tbl_projects (committed w) /\
    tbl_files (committed w') = tbl_files (committed w) /\
    disk w' = disk w.
Proof.
  intros Hin Hid.
  unfold delete_outcome, delete_outcome_row, get_db_connection, commit.
  change (has_remark sql_delete_outcome) with false.
  monad_unfold. cbn [orb txn txn_aborted set_txn].
  destruct (head _) as [o1|] eqn:Hhead.
  - simpl. eexists. split; [reflexivity|]. done.
  - exfalso. apply head_None in Hhead.
    assert (Hmem : o ∈ filter (fun o => Outcome.id o = outcome_id)
                         (tbl_outcomes (committed w)))
      by (by apply list_elem_of_filter).
    rewrite Hhead in Hmem. inversion Hmem.
Qed.

Lemma delete_outcome_removes_witness :
  demo_outcome ∈ tbl_outcomes (committed demo_world) /\
  Outcome.id demo_outcome = 1 /\
  exists w',
    delete_outcome false false false 1 demo_world =
      (Return "Outcome deleted successfully", w') /\
    tbl_outcomes (committed w') = [] /\
    tbl_files (committed w') = [demo_file_row].
Proof.
  split; [simpl; by left|]. split; [reflexivity|].
  destruct (delete_outcome_removes 1 demo_world demo_outcome) as (w' & E & Ho & _ & Hf & _);
    [simpl; by left | reflexivity |].
  exists w'. split; [exact E|]. split; [by rewrite Ho | by rewrite Hf].
Defined.

(** X20. A [delete_outcome] that fails changes nothing that is committed
    and never answers 404: an id that is not stored surfaces as a 500
    that quotes the 404 raised inside the [try]. *)
Theorem delete_outcome_failure connect_fault delete_fault commit_fault outcome_id w e w' :
  delete_outcome connect_fault delete_fault commit_fault outcome_id w = (Raise e, w') ->
  committed w' = committed w /\ disk w' = disk w /\
  status_of e = Some 500 /\
  (connect_fault = false -> delete_fault = false ->
   (forall o, o ∈ tbl_outcomes (committed w) -> Outcome.id o <> outcome_id) ->
   e = HTTPException 500 (Fmt "" (HTTPException 404 (Lit "Outcome not found")))).
Proof.
  unfold delete_outcome, delete_outcome_row, get_db_connection, commit, rollback.
  change (has_remark sql_delete_outcome) with false.
  destruct connect_fault; [intros [= <- <-]; repeat split; done|].
  destruct delete_fault; [intros [= <- <-]; repeat split; done|].
  monad_unfold. cbn [orb txn txn_aborted set_txn].
  destruct (head _) as [o1|] eqn:Hhead; simpl.
  - destruct commit_fault; simpl; [|discriminate].
    intros [= <- <-]. repeat split; try done.
    intros _ _ Hnone. exfalso.
    apply head_Some_elem_of, list_elem_of_filter in Hhead as [Hid Hin].
    by apply (Hnone o1).
  - intros [= <- <-]. repeat split; done.
Qed.

Lemma delete_outcome_failure_witness :
  (forall o, o ∈ tbl_outcomes (committed demo_world) -> Outcome.id o <> 9) /\
  delete_outcome false false false 9 demo_world =
    (Raise (HTTPException 500 (Fmt "" (HTTPException 404 (Lit "Outcome not found")))),
     demo_world).
Proof.
  assert (H : forall o, o ∈ tbl_outcomes (committed demo_world) -> Outcome.id o <> 9).
  { intros o Ho. simpl in Ho. apply list_elem_of_singleton in Ho. by subst. }
  split; [exact H|].
  destruct (delete_outcome false false false 9 demo_world) as [[r|e] w'] eqn:E;
    [vm_compute in E; discriminate|].
  destruct (delete_outcome_failure false false false 9 demo_world e w' E)
    as (_ & _ & _ & He).
  rewrite (He eq_refl eq_refl H).
  vm_compute in E. injection E as _ <-. reflexivity.
Defined.

(** X21. No execution of [update_outcome] answers 404, or returns: the
    answer is the 500 of a failed connection or the 400 of the handler,
    for an id that is not stored as for one that is, and nothing that is
    committed changes. *)
Theorem update_outcome_never_404 env outcome_id u w r w' :
  update_outcome env outcome_id u w = (r, w') ->
  (exists e, r = Raise e /\
     status_of e = Some (if u_connect_fault env then 500 else 400)) /\
  committed w' = committed w /\ disk w' = disk w.
Proof.
  rewrite update_outcome_run.
  destruct (u_connect_fault env); intros [= <- <-]; eauto.
Qed.

Lemma update_outcome_never_404_witness :
  (forall o, o ∈ tbl_outcomes (committed demo_world) -> Outcome.id o <> 9) /\
  exists e w',
    update_outcome demo_update_env 9 demo_update demo_world = (Raise e, w') /\
    status_of e = Some 400 /\
    committed w' = committed demo_world.
Proof.
  split.
  { intros o Ho. simpl in Ho. apply list_elem_of_singleton in Ho. by subst. }
  destruct (update_outcome demo_update_env 9 demo_update demo_world) as [r w'] eqn:E.
  destruct (update_outcome_never_404 _ _ _ _ _ _ E) as ((e & -> & He) & Hcm & _).
  exists e, w'. split; [reflexivity|]. split; [exact He | exact Hcm].
Defined.

(** With the store reachable every call of [create_outcome] ends in the
    handler of the endpoint, with the error of the store. *)
Lemma create_outcome_run env outcome w :
  create_outcome env outcome w =
    if c_connect_fault env
    then (Raise (HTTPException 500 (Fmt "Database connection failed: " DatabaseError)), w)
    else (Raise (HTTPException 400 (Fmt "" DatabaseError)), close w).
Proof.
  unfold create_outcome, get_db_connection.
  destruct (c_connect_fault env); [done|].
  unfold bind at 1. unfold modify at 1. unfold finally, try_except.
  unfold bind at 1. by rewrite insert_outcome_refused.
Qed.

(** X22. [create_outcome] for a project that does not exist never stores
    anything: with the store reachable the INSERT fails, the handler rolls
    back and the answer is a 400. *)
Theorem create_outcome_missing_project env outcome w :
  project_exists (OutcomeCreate.project_id outcome) (committed w) = false ->
  c_connect_fault env = false ->
  exists w',
    create_outcome env outcome w =
      (Raise (HTTPException 400 (Fmt "" DatabaseError)), w') /\
    committed w' = committed w /\ disk w' = disk w /\
    outcomes_id_seq w' = outcomes_id_seq w.
Proof.
  intros Hex Hc. rewrite create_outcome_run, Hc.
  eexists. split; [reflexivity | done].
Qed.

Lemma create_outcome_missing_project_witness :
  project_exists (OutcomeCreate.project_id demo_outcome_request) (committed demo_world)
    = false /\
  c_connect_fault demo_create_env = false /\
  create_outcome demo_create_env demo_outcome_request demo_world =
    (Raise (HTTPException 400 (Fmt "" DatabaseError)), demo_world).
Proof.
  do 2 (split; [reflexivity|]).
  destruct (create_outcome_missing_project demo_create_env demo_outcome_request
              demo_world eq_refl eq_refl) as (w' & E & _).
  rewrite E. vm_compute in E. by injection E as <-.
Defined.

(** ** delete_file (case_studies/main_old.py) *)

Lemma head_filter_unique (l : list FileRecord.t) f :
  f ∈ l ->
  (forall g, g ∈ l -> FileRecord.id g = FileRecord.id f -> g = f) ->
  head (filter (fun g => FileRecord.id g = FileRecord.id f) l) = Some f.
Proof.
  intros Hin Huniq.
  destruct (head _) as [h|] eqn:Hhead.
  - apply head_Some_elem_of, list_elem_of_filter in Hhead as [Hid Hh].
    by rewrite (Huniq h Hh Hid).
  - apply head_None in Hhead.
    assert (Hmem : f ∈ filter (fun g => FileRecord.id g = FileRecord.id f) l)
      by (by apply list_elem_of_filter).
    rewrite Hhead in Hmem. inversion Hmem.
Qed.

(** One run of [delete_file] on a stored file, the connection and the
    SELECT going through and the blob being removable. *)
Lemma delete_file_run env w f :
  f ∈ tbl_files (committed w) ->
  (forall g, g ∈ tbl_files (committed w) -> FileRecord.id g = FileRecord.id f -> g = f) ->
  MainOld.df_connect_fault env = false ->
  MainOld.df_select_fault env = false ->
  MainOld.df_remove_fault env = false ->
  disk (MainOld.delete_file env (FileRecord.id f) w).2 =
    delete (FileRecord.filepath f) (disk w) /\
  (MainOld.df_delete_fault env = false -> MainOld.df_commit_fault env = false ->
   (MainOld.delete_file env (FileRecord.id f) w).1 = Return "File deleted" /\
   committed (MainOld.delete_file env (FileRecord.id f) w).2 =
     mkTables (tbl_projects (committed w)) (tbl_outcomes (committed w))
       (filter (fun g => FileRecord.id g ≠ FileRecord.id f) (tbl_files (committed w)))) /\
  (forall e, (MainOld.delete_file env (FileRecord.id f) w).1 = Raise e ->
     e = HTTPException 500 (Fmt "" DatabaseError) /\
     committed (MainOld.delete_file env (FileRecord.id f) w).2 = committed w).
Proof.
  intros Hin Huniq Hc Hs Hr.
  unfold MainOld.delete_file, MainOld.get_db_connection, select_file,
    MainOld.delete_file_row, path_exists, os_remove, commit, rollback.
  rewrite Hc, Hs, Hr. unfold path_exists. monad_unfold. cbn [txn txn_aborted set_txn].
  rewrite (head_filter_unique _ f Hin Huniq).
  cbn [disk set_txn].
  assert (Hdel : bool_decide (is_Some (disk w !! FileRecord.filepath f)) = false ->
                 disk w = delete (FileRecord.filepath f) (disk w)).
  { intros Hb. apply bool_decide_eq_false in Hb. symmetry. apply delete_id.
    destruct (disk w !! FileRecord.filepath f) eqn:Hq; [exfalso; apply Hb; eauto | done]. }
  destruct (bool_decide (is_Some (disk w !! FileRecord.filepath f))) eqn:Hb;
    cbv beta iota; cbn [disk set_txn]; rewrite ?Hb; cbv beta iota;
    destruct (MainOld.df_delete_fault env); cbv beta iota;
    destruct (MainOld.df_commit_fault env); cbv beta iota; cbn [fst snd];
    (split; [first [reflexivity | by apply Hdel] |]);
    (split; [first [by intros | intros; congruence] |]);
    intros e He; first [discriminate He | injection He as <-; by split].
Qed.

(** X23. [delete_file] of a stored file, everything going through, removes
    its blob and its row and nothing else. *)
Theorem delete_file_removes env w f :
  f ∈ tbl_files (committed w) ->
  (forall g, g ∈ tbl_files (committed w) -> FileRecord.id g = FileRecord.id f -> g = f) ->
  MainOld.df_connect_fault env = false ->
  MainOld.df_select_fault env = false ->
  MainOld.df_remove_fault env = false ->
  MainOld.df_delete_fault env = false ->
  MainOld.df_commit_fault env = false ->
  exists w',
    MainOld.delete_file env (FileRecord.id f) w = (Return "File deleted", w') /\
    disk w' = delete (FileRecord.filepath f) (disk w) /\
    tbl_files (committed w') =
      filter (fun g => FileRecord.id g ≠ FileRecord.id f) (tbl_files (committed w)) /\
    tbl_projects (committed w') = tbl_projects (committed w) /\
    tbl_outcomes (committed w') = tbl_outcomes (committed w).
Proof.
  intros Hin Huniq Hc Hs Hr Hd Hm.
  destruct (delete_file_run env w f Hin Huniq Hc Hs Hr) as (Hdisk & Hok & _).
  destruct (Hok Hd Hm) as [Hret Hcw].
  destruct (MainOld.delete_file env (FileRecord.id f) w) as [r w'].
  simpl in *. subst r. exists w'. rewrite Hcw. done.
Qed.

Lemma delete_file_removes_witness :
  demo_file_row ∈ tbl_files (committed demo_world) /\
  exists w',
    MainOld.delete_file demo_delete_file_env 1 demo_world = (Return "File deleted", w') /\
    disk w' = ∅ /\
    tbl_files (committed w') = [].
Proof.
  assert (Hin : demo_file_row ∈ tbl_files (committed demo_world)) by (simpl; by left).
  split; [exact Hin|].
  destruct (delete_file_removes demo_delete_file_env demo_world demo_file_row Hin)
    as (w' & E & Hd & Hf & _); try reflexivity.
  { intros g Hg _. simpl in Hg. by apply list_elem_of_singleton in Hg. }
  exists w'. split; [exact E|]. split; [by rewrite Hd | by rewrite Hf].
Defined.

(** X24. [delete_file] removes the blob before it deletes the row, and the
    disk is not rolled back: when the DELETE or the commit fails, the
    answer is a 500, the row is still there and its blob is gone. *)
Theorem delete_file_failure_loses_blob env w f e w' :
  f ∈ tbl_files (committed w) ->
  (forall g, g ∈ tbl_files (committed w) -> FileRecord.id g = FileRecord.id f -> g = f) ->
  MainOld.df_connect_fault env = false ->
  MainOld.df_select_fault env = false ->
  MainOld.df_remove_fault env = false ->
  MainOld.delete_file env (FileRecord.id f) w = (Raise e, w') ->
  e = HTTPException 500 (Fmt "" DatabaseError) /\
  f ∈ tbl_files (committed w') /\
  disk w' !! FileRecord.filepath f = None.
Proof.
  intros Hin Huniq Hc Hs Hr E.
  destruct (delete_file_run env w f Hin Huniq Hc Hs Hr) as (Hdisk & _ & Hraise).
  rewrite E in Hdisk, Hraise. simpl in Hdisk, Hraise.
  destruct (Hraise e eq_refl) as [-> Hcw].
  split; [done|]. split; [by rewrite Hcw|]. rewrite Hdisk. apply lookup_delete_eq.
Qed.

Lemma delete_file_failure_loses_blob_witness :
  demo_file_row ∈ tbl_files (committed demo_world) /\
  exists w',
    MainOld.delete_file demo_delete_file_env_commit_fails 1 demo_world =
      (Raise (HTTPException 500 (Fmt "" DatabaseError)), w') /\
    demo_file_row ∈ tbl_files (committed w') /\
    disk w' !! "uploads/report.pdf" = None.
Proof.
  assert (Hin : demo_file_row ∈ tbl_files (committed demo_world)) by (simpl; by left).
  split; [exact Hin|].
  destruct (MainOld.delete_file demo_delete_file_env_commit_fails 1 demo_world)
    as [[r|e] w'] eqn:E; [vm_compute in E; discriminate|].
  destruct (delete_file_failure_loses_blob demo_delete_file_env_commit_fails demo_world
              demo_file_row e w' Hin) as (-> & Hrow & Hgone); try reflexivity.
  { intros g Hg _. simpl in Hg. by apply list_elem_of_singleton in Hg. }
  { exact E. }
  exists w'. split; [reflexivity|]. split; [exact Hrow | exact Hgone].
Defined.

(** X25. [delete_file] of an id that is not stored touches nothing and
    answers 500, not 404: the 404 raised inside the [try] is caught by
    the endpoint's own handler. *)
Theorem delete_file_unknown_id env file_id w :
  (forall f, f ∈ tbl_files (committed w) -> FileRecord.id f <> file_id) ->
  MainOld.df_connect_fault env = false ->
  MainOld.df_select_fault env = false ->
  MainOld.delete_file env file_id w =
    (Raise (HTTPException 500 (Fmt "" (HTTPException 404 (Lit "File not found")))),
     close w).
Proof.
  intros Hnone Hc Hs.
  unfold MainOld.delete_file, MainOld.get_db_connection, select_file, rollback.
  rewrite Hc, Hs. monad_unfold. cbn [txn txn_aborted set_txn].
  rewrite filter_none; [done|]. intros f Hf Hid. by apply (Hnone f).
Qed.

Lemma delete_file_unknown_id_witness :
  (forall f, f ∈ tbl_files (committed demo_world) -> FileRecord.id f <> 9) /\
  MainOld.delete_file demo_delete_file_env 9 demo_world =
    (Raise (HTTPException 500 (Fmt "" (HTTPException 404 (Lit "File not found")))),
     demo_world).
Proof.
  assert (H : forall f, f ∈ tbl_files (committed demo_world) -> FileRecord.id f <> 9).
  { intros f Hf. simpl in Hf. apply list_elem_of_singleton in Hf. by subst. }
  split; [exact H|].
  exact (delete_file_unknown_id demo_delete_file_env 9 demo_world H eq_refl eq_refl).
Defined.

(** ** Where uploads land *)

Lemma append_inj_r (d s1 s2 : string) : (d ++ s1 = d ++ s2)%string -> s1 = s2.
Proof. induction d as [|a d IH]; simpl; [done|]. intros [= H]. by apply IH. Qed.

Lemma append_not_self (d : string) a s : d <> (d ++ String a s)%string.
Proof. induction d as [|b d IH]; simpl; [done|]. intros [= H]. by apply IH. Qed.

Lemma path_join_inj dir n1 n2 : path_join dir n1 = path_join dir n2 -> n1 = n2.
Proof.
  unfold path_join.
  destruct (String.eqb n1 ".") eqn:E1, (String.eqb n2 ".") eqn:E2.
  - apply String.eqb_eq in E1, E2. congruence.
  - intros H. by apply append_not_self in H.
  - intros H. symmetry in H. by apply append_not_self in H.
  - intros H. apply append_inj_r in H. by injection H.
Qed.

(** X26. Blobs are keyed by filename alone: within one endpoint module two
    uploads are written to the same path exactly when their filenames are
    the same, whatever project they belong to. *)
Theorem location_of_collides_iff ep file1 file2 :
  bad_filename (filename file1) = false ->
  bad_filename (filename file2) = false ->
  location_of ep file1 = location_of ep file2 <-> filename file1 = filename file2.
Proof.
  intros H1 H2. unfold location_of. split.
  - intros H. apply path_join_inj in H.
    destruct (filename file1), (filename file2); simpl in *; try discriminate.
    by rewrite H.
  - by intros ->.
Qed.

Lemma location_of_collides_iff_witness :
  bad_filename (filename demo_report) = false /\
  bad_filename (filename demo_notes) = false /\
  location_of projects_py demo_report <> location_of projects_py demo_notes.
Proof.
  do 2 (split; [reflexivity|]).
  intros H.
  apply (proj1 (location_of_collides_iff projects_py demo_report demo_notes
                  eq_refl eq_refl)) in H.
  discriminate H.
Defined.

(** ** Referential integrity *)

Lemma project_exists_iff pid t :
  project_exists pid t = true <-> exists p, p ∈ tbl_projects t /\ Project.id p = pid.
Proof.
  unfold project_exists. rewrite bool_decide_eq_true, Exists_exists. done.
Qed.

(** Rows may be added as long as their project is stored, and rows may be
    dropped, while no project goes away. *)
Lemma references_ok_grow t t' :
  references_ok t ->
  (forall p, p ∈ tbl_projects t -> p ∈ tbl_projects t') ->
  (forall f, f ∈ tbl_files t' ->
     f ∈ tbl_files t \/ project_exists (FileRecord.project_id f) t' = true) ->
  (forall o, o ∈ tbl_outcomes t' ->
     o ∈ tbl_outcomes t \/ project_exists (Outcome.project_id o) t' = true) ->
  references_ok t'.
Proof.
  intros [Hf Ho] Hp Hf' Ho'.
  assert (Hmono : forall pid, project_exists pid t = true -> project_exists pid t' = true).
  { intros pid. rewrite !project_exists_iff. intros (p & Hin & Hid). eauto. }
  pose proof (proj1 (Forall_forall _ _) Hf) as Hfa.
  pose proof (proj1 (Forall_forall _ _) Ho) as Hoa.
  split; apply Forall_forall.
  - intros f Hin. destruct (Hf' f Hin) as [Hold|Hnew]; [|done]. apply Hmono. by apply Hfa.
  - intros o Hin. destruct (Ho' o Hin) as [Hold|Hnew]; [|done]. apply Hmono. by apply Hoa.
Qed.

(** The cascade of a project deletion keeps the references intact. *)
Lemma references_ok_without_project pid t :
  references_ok t -> references_ok (without_project pid t).
Proof.
  intros [Hf Ho].
  pose proof (proj1 (Forall_forall _ _) Hf) as Hfa.
  pose proof (proj1 (Forall_forall _ _) Ho) as Hoa.
  assert (Hkeep : forall q, q <> pid -> project_exists q t = true ->
                    project_exists q (without_project pid t) = true).
  { intros q Hq. rewrite !project_exists_iff. intros (p & Hin & Hid).
    exists p. split; [|done]. simpl. apply list_elem_of_filter. split; [congruence | done]. }
  split; apply Forall_forall; simpl.
  - intros f Hin. apply list_elem_of_filter in Hin as [Hne Hin]. apply Hkeep; auto.
  - intros o Hin. apply list_elem_of_filter in Hin as [Hne Hin]. apply Hkeep; auto.
Qed.

Lemma upload_cleanup_committed env loc e w r w' :
  upload_cleanup env loc e w = (r, w') -> committed w' = committed w.
Proof.
  unfold upload_cleanup, rollback, path_exists, os_remove. monad_unfold. simpl.
  destruct (bool_decide _); simpl.
  - destruct (remove_fault env); simpl; [by intros [= _ <-]|].
    destruct (bool_decide _); simpl; by intros [= _ <-].
  - by intros [= _ <-].
Qed.

(** What a single-file upload commits: nothing when it fails, one file row
    for a stored project when it succeeds. *)
Lemma upload_case_study_committed ep env title description project_id file w :
  committed (upload_case_study ep env title description project_id file w).2 = committed w \/
  exists r w1,
    (upload_case_study ep env title description project_id file w).1 = Return r /\
    resolve_project (project_fault env) (now env) "unspecified" (msg_no_project ep)
      title description project_id
      (set_txn (committed w)
         (set_disk (<[location_of ep file := content file]> (disk w)) w)) =
      (Return (resp_project_id r), w1) /\
    tbl_projects (committed (upload_case_study ep env title description project_id file w).2)
      = tbl_projects (txn w1) /\
    tbl_outcomes (committed (upload_case_study ep env title description project_id file w).2)
      = tbl_outcomes (committed w) /\
    tbl_files (committed (upload_case_study ep env title description project_id file w).2)
      = tbl_files (committed w) ++
          [FileRecord.mk (resp_file_id r) (resp_project_id r)
             (default "" (filename file)) (location_of ep file) (content_type file)
             (now env)].
Proof.
  unfold upload_case_study.
  destruct (missing_target _ _ _); [by left|].
  destruct (bad_filename _); [by left|].
  fold (location_of ep file).
  unfold write_file, get_db_connection. monad_unfold.
  destruct (save_fault env); cbv beta iota; try by left.
  destruct (connect_fault env); cbv beta iota; [by left|].
  destruct (upload_transaction _ _ _ _ _ _ _ _) as [[r1|e1] w1] eqn:E.
  - right. apply upload_transaction_return in E as (w2 & E1 & Hp & Ho & Hf).
    exists r1, w2. simpl in *. done.
  - left. pose proof (upload_transaction_frame _ _ _ _ _ _ _ _ _ _ E) as [_ Hcm].
    specialize (Hcm e1 eq_refl).
    destruct (upload_cleanup env (location_of ep file) e1 w1) as [r2 w2] eqn:E2.
    apply upload_cleanup_committed in E2. simpl in *. congruence.
Qed.

(** What a multi-file upload commits when it fails: nothing. *)
Lemma upload_multiple_failure_committed ep env title description project_id files w e w' :
  upload_case_study_multiple ep env title description project_id files w = (Raise e, w') ->
  committed w' = committed w.
Proof.
  unfold upload_case_study_multiple.
  destruct files as [|file rest]; [by intros [= _ <-]|].
  destruct (missing_target _ _ _); [by intros [= _ <-]|].
  unfold get_db_connection, commit.
  destruct (m_connect_fault env); [by intros [= _ <-]|].
  monad_unfold.
  destruct (resolve_project _ _ _ _ _ _ _ _) as [[pid|e1] w1] eqn:E1;
    pose proof (resolve_project_frame _ _ _ _ _ _ _ _ _ _ E1) as (Hc1 & _).
  2:{ destruct (upload_multiple_handler_raises ep env [] e1 w1) as (e' & w3 & E & _ & Hc3).
      rewrite E. intros [= _ <-]. simpl in *. congruence. }
  pose proof (resolve_project_return _ _ _ _ _ _ _ _ _ _ E1) as (Hex & _).
  destruct (upload_loop_spec ep (m_now env) pid (file :: rest) (m_file_faults env)
              ([], []) w1 _ eq_refl Hex) as (w2 & E2 & Hc2 & _).
  rewrite E2. cbn [fst snd app].
  destruct (m_commit_fault env); [|discriminate].
  destruct (upload_multiple_handler_raises ep env
              (location_of ep ∘ fst <$>
                 List.filter blob_saved
                   (faults_from (txn_aborted w1) (file :: rest) (m_file_faults env)))
              DatabaseError w2) as (e' & w3 & E & _ & Hc3).
  rewrite E. intros [= _ <-]. simpl in *. congruence.
Qed.

(** X27. The upload endpoints keep the references intact: whatever the
    request and whatever fails, if every file and outcome row named a
    stored project before a single-file or a multi-file upload, the same
    holds of what is committed afterwards. *)
Theorem uploads_keep_references ep title description project_id w :
  references_ok (committed w) ->
  (forall env file,
     references_ok
       (committed (upload_case_study ep env title description project_id file w).2)) /\
  (forall env files,
     references_ok
       (committed (upload_case_study_multiple ep env title description project_id files w).2)).
Proof.
  intros Hok. split.
  - intros env file.
    destruct (upload_case_study_committed ep env title description project_id file w)
      as [-> | (r & w1 & _ & E1 & Hp & Ho & Hf)]; [done|].
    pose proof (resolve_project_return _ _ _ _ _ _ _ _ _ _ E1) as (Hex & Hproj).
    assert (Hpid : project_exists (resp_project_id r)
              (committed (upload_case_study ep env title description project_id file w).2)
              = true).
    { rewrite (project_exists_ext _ (txn w1)); done. }
    apply (references_ok_grow (committed w)); [done| | |].
    + intros p Hin. rewrite Hp. destruct project_id as [q|].
      * destruct Hproj as [_ ->]. done.
      * destruct Hproj as (t & _ & _ & ->). simpl. apply elem_of_app. by left.
    + intros f. rewrite Hf. intros Hin. apply elem_of_app in Hin as [Hin|Hin]; [by left|].
      right. apply list_elem_of_singleton in Hin. by subst f.
    + intros o. rewrite Ho. by left.
  - intros env files.
    destruct (upload_case_study_multiple ep env title description project_id files w)
      as [[r|e] w'] eqn:E.
    2:{ apply upload_multiple_failure_committed in E. simpl. by rewrite E. }
    simpl.
    apply upload_multiple_return in E as (w1 & w2 & saved & E1 & E2 & _ & Hcw & _).
    pose proof (resolve_project_frame _ _ _ _ _ _ _ _ _ _ E1) as (Hc1 & _ & _ & Hf1 & Ho1).
    pose proof (resolve_project_return _ _ _ _ _ _ _ _ _ _ E1) as (Hex & Hproj).
    pose proof (resolve_project_live _ _ _ _ _ _ _ _ _ _ E1) as (_ & Hl1).
    destruct (upload_loop_spec ep (m_now env) (mresp_project_id r) files
                (m_file_faults env) ([], []) w1 false Hl1 Hex)
      as (w2' & E2' & Hc2 & Hp2 & Ho2 & _ & Hf2 & _).
    change (faults_from false files (m_file_faults env))
      with (pair_faults files (m_file_faults env)) in *.
    rewrite E2 in E2'. injection E2' as _ _ <-.
    simpl in Hc1, Hf1, Ho1.
    destruct (txn_aborted w2); [by rewrite Hcw, Hc2, Hc1|].
    assert (Hpid : project_exists (mresp_project_id r) (committed w') = true).
    { rewrite Hcw, (project_exists_ext _ (txn w1)); done. }
    apply (references_ok_grow (committed w)); [done| | |].
    + intros p Hin. rewrite Hcw, Hp2. destruct project_id as [q|].
      * destruct Hproj as [_ ->]. done.
      * destruct Hproj as (t & _ & _ & ->). simpl. apply elem_of_app. by left.
    + intros f. rewrite Hcw, Hf2, Hf1. intros Hin.
      apply elem_of_app in Hin as [Hin|Hin]; [by left|]. right.
      destruct (new_file_rows_fields ep (m_now env) (mresp_project_id r)
                  (pair_faults files (m_file_faults env)) (files_id_seq w1)) as [Hall _].
      pose proof (proj1 (Forall_forall _ _) Hall f Hin) as Hq. simpl in Hq.
      rewrite Hq. by rewrite <- Hcw.
    + intros o. rewrite Hcw, Ho2, Ho1. by left.
Qed.

Lemma uploads_keep_references_witness :
  references_ok (committed demo_world) /\
  references_ok
    (committed (upload_case_study projects_py demo_env (Some "t") (Some "d") None
                  demo_notes demo_world).2) /\
  length (tbl_files (committed (upload_case_study projects_py demo_env (Some "t") (Some "d")
                                  None demo_notes demo_world).2)) = 2%nat.
Proof.
  assert (H : references_ok (committed demo_world)).
  { split; repeat constructor. }
  split; [exact H|]. split; [|reflexivity].
  exact (proj1 (uploads_keep_references projects_py (Some "t") (Some "d") None
                  demo_world H) demo_env demo_notes).
Defined.

(** X28. So do the deletions: [delete_project] (its cascade takes the
    project's files and outcomes with it), [delete_outcome] and
    [delete_file], whatever fails. *)
Theorem deletions_keep_references w :
  references_ok (committed w) ->
  (forall env project_id confirm,
     references_ok (committed (delete_project env project_id confirm w).2)) /\
  (forall connect_fault delete_fault commit_fault outcome_id,
     references_ok
       (committed (delete_outcome connect_fault delete_fault commit_fault outcome_id w).2)) /\
  (forall env file_id,
     references_ok (committed (MainOld.delete_file env file_id w).2)).
Proof.
  intros Hok. split; [|split].
  - intros env project_id confirm.
    destruct confirm; [|done].
    destruct (d_connect_fault env) eqn:Hc.
    { unfold delete_project, get_db_connection. rewrite Hc. done. }
    destruct (d_select_fault env) eqn:Hs.
    { unfold delete_project, delete_transaction, get_db_connection, select_files_of,
        rollback. rewrite Hc, Hs. done. }
    destruct (delete_project_run env project_id w Hc Hs)
      as (deleted & w1 & _ & _ & Hret & Hraise & _).
    destruct (delete_project env project_id true w) as [[resp|e] w'].
    + destruct (Hret resp eq_refl) as (_ & Hcw & _). simpl in *. rewrite Hcw.
      by apply references_ok_without_project.
    + destruct (Hraise e eq_refl) as (Hcw & _). simpl in *. by rewrite Hcw.
  - intros connect_fault delete_fault commit_fault outcome_id.
    unfold delete_outcome, delete_outcome_row, get_db_connection, commit, rollback.
    change (has_remark sql_delete_outcome) with false.
    destruct connect_fault; [done|]. destruct delete_fault; [done|].
    monad_unfold. cbn [orb txn txn_aborted set_txn].
    destruct (head _); cbv beta iota; [|done].
    destruct commit_fault; cbv beta iota; [done|]. simpl.
    apply (references_ok_grow (committed w)); simpl; auto.
    intros o Hin. apply list_elem_of_filter in Hin as [_ Hin]. by left.
  - intros env file_id.
    unfold MainOld.delete_file, MainOld.get_db_connection, select_file,
      MainOld.delete_file_row, os_remove, commit, rollback.
    unfold path_exists.
    destruct (MainOld.df_connect_fault env); [done|].
    destruct (MainOld.df_select_fault env); [done|].
    monad_unfold. cbn [txn txn_aborted set_txn].
    destruct (head _) as [f|]; cbv beta iota; [|done].
    cbn [disk set_txn].
    destruct (bool_decide _) eqn:Hb; cbv beta iota;
      [destruct (MainOld.df_remove_fault env); cbv beta iota; [done|];
       cbn [disk set_txn]; rewrite ?Hb; cbv beta iota|];
      (destruct (MainOld.df_delete_fault env); cbv beta iota; [done|]);
      (destruct (MainOld.df_commit_fault env); cbv beta iota; [done|]); simpl;
      (apply (references_ok_grow (committed w)); simpl; auto);
      intros g Hin; apply list_elem_of_filter in Hin as [_ Hin]; by left.
Qed.

Lemma deletions_keep_references_witness :
  references_ok (committed demo_world) /\
  references_ok (committed (delete_project demo_delete_env 1 true demo_world).2) /\
  tbl_projects (committed (delete_project demo_delete_env 1 true demo_world).2) = [].
Proof.
  assert (H : references_ok (committed demo_world)).
  { split; repeat constructor. }
  split; [exact H|]. split; [|reflexivity].
  exact (proj1 (deletions_keep_references demo_world H) demo_delete_env 1 true).
Defined.

(** X29. And so do [create_project], [create_outcome] (the foreign key
    refuses an outcome for a project that is not stored) and
    [update_outcome] (the project of an outcome is not updatable),
    whatever fails. *)
Theorem creations_keep_references w :
  references_ok (committed w) ->
  (forall env project, references_ok (committed (create_project env project w).2)) /\
  (forall env outcome, references_ok (committed (create_outcome env outcome w).2)) /\
  (forall env outcome_id u,
     references_ok (committed (update_outcome env outcome_id u w).2)).
Proof.
  intros Hok. split; [|split].
  - intros env project.
    unfold create_project, insert_project_row, get_db_connection, commit, rollback.
    destruct (c_connect_fault env); [done|].
    destruct (c_insert_fault env); [done|].
    monad_unfold.
    destruct (c_commit_fault env); cbv beta iota; [done|]. simpl.
    apply (references_ok_grow (committed w)); simpl; auto.
    intros p Hin. apply elem_of_app. by left.
  - intros env outcome. rewrite create_outcome_run.
    by destruct (c_connect_fault env).
  - intros env outcome_id u. rewrite update_outcome_run.
    by destruct (u_connect_fault env).
Qed.

Lemma creations_keep_references_witness :
  references_ok (committed demo_world) /\
  references_ok (committed (create_project demo_create_env demo_project_request
                              demo_world).2) /\
  length (tbl_projects (committed (create_project demo_create_env demo_project_request
                                     demo_world).2)) = 2%nat.
Proof.
  assert (H : references_ok (committed demo_world)).
  { split; repeat constructor. }
  split; [exact H|]. split; [|reflexivity].
  exact (proj1 (creations_keep_references demo_world H) demo_create_env
           demo_project_request).
Defined.

(** ** Upload, then delete the project *)

(** X30. A file uploaded to a project goes away with the project: after a
    successful single-file upload, deleting the returned project with the
    confirmation flag and without faults succeeds, leaves nothing at the
    path of the upload and no trace of the project in the tables. *)
Theorem upload_then_delete_project ep env title description project_id file w r w' denv :
  upload_case_study ep env title description project_id file w = (Return r, w') ->
  d_connect_fault denv = false ->
  d_select_fault denv = false ->
  d_delete_files_fault denv = false ->
  d_delete_project_fault denv = false ->
  d_commit_fault denv = false ->
  Forall (fun b => b = false) (d_remove_faults denv) ->
  exists n w'',
    delete_project denv (resp_project_id r) true w' =
      (Return (mkDeleteResponse "Deleted project and files" (resp_project_id r) n), w'') /\
    disk w'' !! location_of ep file = None /\
    committed w'' = without_project (resp_project_id r) (committed w') /\
    project_exists (resp_project_id r) (committed w'') = false.
Proof.
  intros E Hc Hs Hdf Hdp Hcm Hrm.
  destruct (upload_case_study_committed ep env title description project_id file w)
    as [Hsame | (r1 & w1 & Hr & E1 & Hp & _ & Hf)].
  { exfalso. revert E Hsame. clear.
    unfold upload_case_study.
    destruct (missing_target _ _ _); [discriminate|].
    destruct (bad_filename _); [discriminate|].
    unfold write_file, get_db_connection. monad_unfold.
    destruct (save_fault env); cbv beta iota; try discriminate.
    destruct (connect_fault env); cbv beta iota; [discriminate|].
    destruct (upload_transaction _ _ _ _ _ _ _ _) as [[r1|e1] w1] eqn:E.
    2:{ destruct (upload_cleanup _ _ _ _) as [[?|?] ?] eqn:E2; [|discriminate].
        revert E2. unfold upload_cleanup, rollback, path_exists, os_remove.
        monad_unfold. simpl.
        destruct (bool_decide _); simpl; [|discriminate].
        destruct (remove_fault env); simpl; [discriminate|].
        destruct (bool_decide _); discriminate. }
    apply upload_transaction_return in E as (w2 & _ & _ & _ & Hf).
    intros [= <- <-]. simpl. intros Hsame. rewrite Hsame in Hf. simpl in Hf.
    apply (f_equal length) in Hf. rewrite length_app in Hf. simpl in Hf. lia. }
  rewrite E in Hr, Hp, Hf. simpl in Hr, Hp, Hf. injection Hr as <-.
  pose proof (resolve_project_return _ _ _ _ _ _ _ _ _ _ E1) as (Hex & _).
  assert (Hex' : project_exists (resp_project_id r) (committed w') = true)
    by (by rewrite (project_exists_ext _ (txn w1))).
  destruct (delete_project_run denv (resp_project_id r) w' Hc Hs)
    as (deleted & w2 & Erm & Hd & Hret & _ & Hok).
  destruct (Hok Hex' Hdf Hdp Hcm) as (resp & Hresp).
  destruct (Hret resp Hresp) as (-> & Hcw & _).
  destruct (delete_project denv (resp_project_id r) true w') as [res w''].
  simpl in Hresp, Hd, Hcw. subst res.
  exists (length deleted), w''. split; [done|].
  split.
  { rewrite Hd. apply (remove_blobs_clears _ _ _ _ _ _ Hrm Erm).
    apply (project_paths_selected (resp_project_id r) (tbl_files (committed w'))
             (FileRecord.mk (resp_file_id r) (resp_project_id r)
                (default "" (filename file)) (location_of ep file) (content_type file)
                (now env))); [|done].
    rewrite Hf. apply elem_of_app. right. by left. }
  split; [done|]. rewrite Hcw. apply without_project_gone.
Qed.

Lemma upload_then_delete_project_witness :
  exists r w' n w'',
    upload_case_study projects_py demo_env None None (Some 1) demo_notes demo_world =
      (Return r, w') /\
    delete_project demo_delete_env (resp_project_id r) true w' =
      (Return (mkDeleteResponse "Deleted project and files" (resp_project_id r) n), w'') /\
    disk w'' !! "uploads/notes.txt" = None /\
    tbl_files (committed w'') = [].
Proof.
  destruct (upload_case_study projects_py demo_env None None (Some 1) demo_notes
              demo_world) as [[r|e] w'] eqn:E; [|vm_compute in E; discriminate].
  destruct (upload_then_delete_project projects_py demo_env None None (Some 1) demo_notes
              demo_world r w' demo_delete_env E eq_refl eq_refl eq_refl eq_refl eq_refl
              ltac:(constructor)) as (n & w'' & Ed & Hgone & Hcw & _).
  exists r, w', n, w''. split; [reflexivity|]. split; [exact Ed|]. split; [exact Hgone|].
  rewrite Hcw. vm_compute in E. injection E as <- <-. reflexivity.
Defined.

(** ** The read-only endpoints on the sample world *)

Lemma list_projects_read_only_witness :
  committed (list_projects false false demo_world).2 = committed demo_world /\
  (list_projects false false demo_world).1 = Return [demo_project].
Proof.
  destruct (list_projects_read_only false false demo_world) as (Hc & _ & _ & Hps).
  split; [exact Hc|].
  destruct (list_projects false false demo_world).1 as [ps|e] eqn:E;
    [|vm_compute in E; discriminate].
  by rewrite (Hps ps eq_refl).
Defined.

Lemma list_project_files_newest_first_witness :
  list_project_files false false 7 demo_world = (Return [], demo_world).
Proof.
  destruct (list_project_files_newest_first 7 demo_world) as (rows & E & _ & _ & Hnil).
  rewrite E, Hnil; [reflexivity|].
  intros f Hf. simpl in Hf. apply list_elem_of_singleton in Hf. by subst.
Defined.

Lemma download_file_never_404_witness :
  (download_file false false 9 demo_world).1 =
    Raise (HTTPException 500 (Fmt "" (HTTPException 404 (Lit "File not found")))).
Proof.
  destruct (download_file_never_404 false false 9 demo_world) as (_ & _ & _ & H).
  apply H; [reflexivity | reflexivity |].
  intros f Hf Hid. simpl in Hf. apply list_elem_of_singleton in Hf. by subst.
Defined.

